(** * Fitness club manager: the relational model and the console operations

    A shallow embedding of [fitness_project/models/models.py] (the schema and
    its declared constraints) and of [fitness_project/app/main.py] (the view,
    the capacity trigger and the console operations).

    - A table is the list of its rows, oldest first.
    - The relational engine is written out as the checks the schema declares:
      column types, NOT NULL, CHECK, UNIQUE, FOREIGN KEY and the trigger.
    - A console operation is a computation over a [World]: the store, the
      session's unit of work, the lines the operator will type, the lines
      printed so far, the write statements sent to the engine and the clock.
    - Strings are sequences of characters, one [ascii] per character.
    - Prompts of [input] and the layout of printed lines are left out: a
      printed line is a constructor that carries the interpolated values. *)

From Stdlib Require Import ZArith List String Ascii Bool Lia QArith Qround.
From Stdlib Require Import Sorted Permutation.
Import ListNotations.
Local Open Scope string_scope.
Local Open Scope list_scope.
Local Open Scope Z_scope.

Set Implicit Arguments.

(** ** Dates and times *)

Record Date := { year : Z; month : Z; day : Z }.

Record DateTime := {
  date : Date; hour : Z; minute : Z; second : Z; microsecond : Z
}.

Definition Date_eqb (a b : Date) : bool :=
  (year a =? year b) && (month a =? month b) && (day a =? day b).

Definition DateTime_eqb (a b : DateTime) : bool :=
  Date_eqb (date a) (date b) && (hour a =? hour b) && (minute a =? minute b)
  && (second a =? second b) && (microsecond a =? microsecond b).

(** The position of a point in time in chronological order (fields within
    their calendar ranges), used by ORDER BY. *)
Definition DateTime_key (t : DateTime) : Z :=
  (((((year (date t) * 13 + month (date t)) * 32 + day (date t)) * 24
      + hour t) * 60 + minute t) * 60 + second t) * 1000000 + microsecond t.

(** ** Values of Python's [float] and of a NUMERIC(6,2) column *)

(** [FNum q]: a finite float, [q] being the decimal its [repr] denotes (this
    is what the driver sends to the engine). *)
Inductive PyFloat := FNum (q : Q) | FInf (negative : bool) | FNaN.

(** A stored NUMERIC(6,2): a count of hundredths, or NaN. *)
Inductive Numeric := NumVal (hundredths : Z) | NumNaN.

(** ** Exceptions *)

(** What the engine reports (the [orig] of a driver exception). *)
Inductive PgError :=
| NotNullViolation (column : string)
| CheckViolation (constraint : string)
| UniqueViolation (constraint : string)
| ForeignKeyViolation (constraint : string)
| StringDataRightTruncation (limit : nat)
| NumericValueOutOfRange
| RaiseException (class_capacity room_capacity : Z).

Inductive Exn :=
| ValueError
| EOFError
| AttributeError
| StaleDataError
| IntegrityError (orig : PgError)
| DataError (orig : PgError)
| InternalError (orig : PgError).

(** How the driver classes an engine error: integrity constraint violations
    are [IntegrityError], data exceptions [DataError], an exception raised by
    a PL/pgSQL function [InternalError]. *)
Definition dbapi_error (e : PgError) : Exn :=
  match e with
  | NotNullViolation _ | CheckViolation _ | UniqueViolation _
  | ForeignKeyViolation _ => IntegrityError e
  | StringDataRightTruncation _ | NumericValueOutOfRange => DataError e
  | RaiseException _ _ => InternalError e
  end.

Inductive Res (A : Type) := Ok (a : A) | Raise (e : Exn).
Arguments Ok {A} a.
Arguments Raise {A} e.

(** ** The schema of models.py: one record per mapped class *)

Module Member.
Record t := {
  member_id : Z; name : string; email : string;
  date_of_birth : option Date; gender : option string; phone : option string
}.
End Member.

Module Trainer.
Record t := {
  trainer_id : Z; name : string; email : string;
  specialization : option string
}.
End Trainer.

Module Admin.
Record t := {
  admin_id : Z; username : string; password_hash : string;
  name : string; email : string
}.
End Admin.

Module FitnessGoal.
Record t := {
  goal_id : Z; member_id : Z; goal_type : string;
  target_value : option Numeric;
  start_date : option Date; end_date : option Date
}.
End FitnessGoal.

Module HealthMetric.
Record t := {
  metric_id : Z; member_id : Z; metric_type : string;
  metric_value : Numeric; timestamp : DateTime
}.
End HealthMetric.

Module Room.
Record t := { room_id : Z; name : string; capacity : Z }.
End Room.

Module Class.
Record t := {
  class_id : Z; trainer_id : Z; room_id : Z;
  class_name : string; class_time : DateTime; capacity : Z
}.
End Class.

Module PTSession.
Record t := {
  session_id : Z; member_id : Z; trainer_id : Z;
  session_time : DateTime; status : string
}.
End PTSession.

Module ClassEnrollment.
Record t := {
  enrollment_id : Z; member_id : Z; class_id : Z;
  enrollment_date : DateTime
}.
End ClassEnrollment.

(** ** The store *)

Inductive Table :=
| TMember | TTrainer | TAdmin | TFitnessGoal | THealthMetric
| TRoom | TClass | TPTSession | TClassEnrollment.

Definition Table_eqb (a b : Table) : bool :=
  match a, b with
  | TMember, TMember | TTrainer, TTrainer | TAdmin, TAdmin
  | TFitnessGoal, TFitnessGoal | THealthMetric, THealthMetric
  | TRoom, TRoom | TClass, TClass | TPTSession, TPTSession
  | TClassEnrollment, TClassEnrollment => true
  | _, _ => false
  end.

Record Tables := {
  Members : list Member.t;
  Trainers : list Trainer.t;
  Admins : list Admin.t;
  FitnessGoals : list FitnessGoal.t;
  HealthMetrics : list HealthMetric.t;
  Rooms : list Room.t;
  Classes : list Class.t;
  PTSessions : list PTSession.t;
  ClassEnrollments : list ClassEnrollment.t
}.

(** [rows] is the transactional content; [seq t] is the next value of the
    autoincrement sequence of table [t], which a rollback does not restore. *)
Record DB := { rows : Tables; seq : Table -> Z }.

Definition no_rows : Tables :=
  {| Members := []; Trainers := []; Admins := []; FitnessGoals := [];
     HealthMetrics := []; Rooms := []; Classes := []; PTSessions := [];
     ClassEnrollments := [] |}.

(** The store right after [Base.metadata.create_all]. *)
Definition empty_db : DB := {| rows := no_rows; seq := fun _ => 1 |}.

Definition nextval (t : Table) (db : DB) : DB :=
  {| rows := rows db;
     seq := fun t' => if Table_eqb t t' then seq db t + 1 else seq db t' |}.

Definition with_rows (T : Tables) (db : DB) : DB :=
  {| rows := T; seq := seq db |}.

Definition add_Member (r : Member.t) (T : Tables) : Tables :=
  {| Members := Members T ++ [r]; Trainers := Trainers T; Admins := Admins T;
     FitnessGoals := FitnessGoals T; HealthMetrics := HealthMetrics T;
     Rooms := Rooms T; Classes := Classes T; PTSessions := PTSessions T;
     ClassEnrollments := ClassEnrollments T |}.

Definition put_Members (l : list Member.t) (T : Tables) : Tables :=
  {| Members := l; Trainers := Trainers T; Admins := Admins T;
     FitnessGoals := FitnessGoals T; HealthMetrics := HealthMetrics T;
     Rooms := Rooms T; Classes := Classes T; PTSessions := PTSessions T;
     ClassEnrollments := ClassEnrollments T |}.

Definition add_Trainer (r : Trainer.t) (T : Tables) : Tables :=
  {| Members := Members T; Trainers := Trainers T ++ [r]; Admins := Admins T;
     FitnessGoals := FitnessGoals T; HealthMetrics := HealthMetrics T;
     Rooms := Rooms T; Classes := Classes T; PTSessions := PTSessions T;
     ClassEnrollments := ClassEnrollments T |}.

Definition add_Admin (r : Admin.t) (T : Tables) : Tables :=
  {| Members := Members T; Trainers := Trainers T; Admins := Admins T ++ [r];
     FitnessGoals := FitnessGoals T; HealthMetrics := HealthMetrics T;
     Rooms := Rooms T; Classes := Classes T; PTSessions := PTSessions T;
     ClassEnrollments := ClassEnrollments T |}.

Definition add_HealthMetric (r : HealthMetric.t) (T : Tables) : Tables :=
  {| Members := Members T; Trainers := Trainers T; Admins := Admins T;
     FitnessGoals := FitnessGoals T; HealthMetrics := HealthMetrics T ++ [r];
     Rooms := Rooms T; Classes := Classes T; PTSessions := PTSessions T;
     ClassEnrollments := ClassEnrollments T |}.

Definition add_Room (r : Room.t) (T : Tables) : Tables :=
  {| Members := Members T; Trainers := Trainers T; Admins := Admins T;
     FitnessGoals := FitnessGoals T; HealthMetrics := HealthMetrics T;
     Rooms := Rooms T ++ [r]; Classes := Classes T; PTSessions := PTSessions T;
     ClassEnrollments := ClassEnrollments T |}.

Definition add_Class (r : Class.t) (T : Tables) : Tables :=
  {| Members := Members T; Trainers := Trainers T; Admins := Admins T;
     FitnessGoals := FitnessGoals T; HealthMetrics := HealthMetrics T;
     Rooms := Rooms T; Classes := Classes T ++ [r]; PTSessions := PTSessions T;
     ClassEnrollments := ClassEnrollments T |}.


Definition add_PTSession (r : PTSession.t) (T : Tables) : Tables :=
  {| Members := Members T; Trainers := Trainers T; Admins := Admins T;
     FitnessGoals := FitnessGoals T; HealthMetrics := HealthMetrics T;
     Rooms := Rooms T; Classes := Classes T; PTSessions := PTSessions T ++ [r];
     ClassEnrollments := ClassEnrollments T |}.

Definition add_ClassEnrollment (r : ClassEnrollment.t) (T : Tables) : Tables :=
  {| Members := Members T; Trainers := Trainers T; Admins := Admins T;
     FitnessGoals := FitnessGoals T; HealthMetrics := HealthMetrics T;
     Rooms := Rooms T; Classes := Classes T; PTSessions := PTSessions T;
     ClassEnrollments := ClassEnrollments T ++ [r] |}.

(** ** The relational engine

    A statement runs against the store and either returns a value or raises
    the driver's exception.  An INSERT goes through these stages, in this
    order: coercion of the values to the column types (nothing is consumed
    when it fails), the sequence default of the key, BEFORE ROW triggers,
    NOT NULL and CHECK constraints, unique indexes, foreign keys.  The
    operations always supply the integer and time columns, so only the string
    columns can be absent ([None]). *)

Definition Stmt (A : Type) : Type := DB -> Res A * DB.

Definition check (ok : bool) (e : PgError) : option PgError :=
  if ok then None else Some e.

Fixpoint first_error (l : list (option PgError)) : option PgError :=
  match l with
  | [] => None
  | Some e :: _ => Some e
  | None :: l' => first_error l'
  end.

(** INTEGER is a 32-bit column. *)
Definition int4 (z : Z) : option PgError :=
  check ((-2147483648 <=? z) && (z <=? 2147483647)) NumericValueOutOfRange.

(** String(n) is VARCHAR(n). *)
Definition varchar (n : nat) (s : option string) : option PgError :=
  match s with
  | None => None
  | Some v => check (String.length v <=? n)%nat (StringDataRightTruncation n)
  end.

Definition not_null (column : string) (s : option string) : option PgError :=
  match s with
  | None => Some (NotNullViolation column)
  | Some _ => None
  end.

(** The value of a column that passed [not_null]. *)
Definition value (s : option string) : string :=
  match s with Some v => v | None => "" end.

(** Rounding to two decimals, half away from zero. *)
Definition round_hundredths (q : Q) : Z :=
  if Qle_bool 0 q then Qfloor (q * 100 + (1 # 2))%Q
  else - Qfloor (- q * 100 + (1 # 2))%Q.

(** A float sent to a NUMERIC(6,2) column. *)
Definition numeric_6_2 (x : PyFloat) : PgError + Numeric :=
  match x with
  | FNaN => inr NumNaN
  | FInf _ => inl NumericValueOutOfRange
  | FNum q =>
      let h := round_hundredths q in
      if Z.abs h <? 1000000 then inr (NumVal h) else inl NumericValueOutOfRange
  end.

Definition get_Member (T : Tables) (id : Z) : option Member.t :=
  find (fun m => Member.member_id m =? id) (Members T).

Definition get_Trainer (T : Tables) (id : Z) : option Trainer.t :=
  find (fun t => Trainer.trainer_id t =? id) (Trainers T).

Definition get_Room (T : Tables) (id : Z) : option Room.t :=
  find (fun r => Room.room_id r =? id) (Rooms T).

Definition get_Class (T : Tables) (id : Z) : option Class.t :=
  find (fun c => Class.class_id c =? id) (Classes T).

Definition present {A : Type} (o : option A) : bool :=
  match o with Some _ => true | None => false end.

(** The generic INSERT: [coercion] are the column-type checks, [constraints]
    the checks made on the row once its key is drawn, [store] adds the row.
    Keys are drawn from a counter with no end. *)
Definition INSERT_INTO (t : Table) (coercion : list (option PgError))
    (constraints : Z -> list (option PgError))
    (store : Z -> Tables -> Tables) : Stmt Z :=
  fun db =>
    match first_error coercion with
    | Some e => (Raise (dbapi_error e), db)
    | None =>
        let id := seq db t in
        let db1 := nextval t db in
        match first_error (constraints id) with
        | Some e => (Raise (dbapi_error e), db1)
        | None => (Ok id, with_rows (store id (rows db)) db1)
        end
    end.

Definition insert_Member (name email : option string)
    (date_of_birth : option Date) (gender phone : option string) : Stmt Z :=
  fun db =>
    INSERT_INTO TMember
      [varchar 100 name; varchar 100 email; varchar 10 gender; varchar 20 phone]
      (fun _ =>
         [not_null "name" name; not_null "email" email;
          check (negb (existsb (fun m => Member.email m =? value email)%string
                         (Members (rows db))))
                (UniqueViolation "Member_email_key")])
      (fun id =>
         add_Member {| Member.member_id := id; Member.name := value name;
                       Member.email := value email;
                       Member.date_of_birth := date_of_birth;
                       Member.gender := gender; Member.phone := phone |})
      db.

Definition insert_Trainer (name email specialization : option string)
    : Stmt Z :=
  fun db =>
    INSERT_INTO TTrainer
      [varchar 100 name; varchar 100 email; varchar 100 specialization]
      (fun _ =>
         [not_null "name" name; not_null "email" email;
          check (negb (existsb (fun t => Trainer.email t =? value email)%string
                         (Trainers (rows db))))
                (UniqueViolation "Trainer_email_key")])
      (fun id =>
         add_Trainer {| Trainer.trainer_id := id; Trainer.name := value name;
                        Trainer.email := value email;
                        Trainer.specialization := specialization |})
      db.

Definition insert_Admin (username password_hash name email : option string)
    : Stmt Z :=
  fun db =>
    INSERT_INTO TAdmin
      [varchar 50 username; varchar 255 password_hash; varchar 100 name;
       varchar 100 email]
      (fun _ =>
         [not_null "username" username;
          not_null "password_hash" password_hash;
          not_null "name" name; not_null "email" email;
          check (negb (existsb
                         (fun a => Admin.username a =? value username)%string
                         (Admins (rows db))))
                (UniqueViolation "Admin_username_key");
          check (negb (existsb (fun a => Admin.email a =? value email)%string
                         (Admins (rows db))))
                (UniqueViolation "Admin_email_key")])
      (fun id =>
         add_Admin {| Admin.admin_id := id; Admin.username := value username;
                      Admin.password_hash := value password_hash;
                      Admin.name := value name; Admin.email := value email |})
      db.

Definition insert_HealthMetric (member_id : Z) (metric_type : option string)
    (metric_value : PyFloat) (timestamp : DateTime) : Stmt Z :=
  fun db =>
    match numeric_6_2 metric_value with
    | inl e =>
        INSERT_INTO THealthMetric
          [int4 member_id; varchar 50 metric_type; Some e]
          (fun _ => []) (fun _ T => T) db
    | inr v =>
        INSERT_INTO THealthMetric
          [int4 member_id; varchar 50 metric_type]
          (fun _ =>
             [not_null "metric_type" metric_type;
              check (present (get_Member (rows db) member_id))
                    (ForeignKeyViolation "HealthMetric_member_id_fkey")])
          (fun id =>
             add_HealthMetric
               {| HealthMetric.metric_id := id;
                  HealthMetric.member_id := member_id;
                  HealthMetric.metric_type := value metric_type;
                  HealthMetric.metric_value := v;
                  HealthMetric.timestamp := timestamp |})
          db
    end.

Definition insert_Room (name : option string) (capacity : Z) : Stmt Z :=
  fun db =>
    INSERT_INTO TRoom
      [varchar 50 name; int4 capacity]
      (fun _ =>
         [not_null "name" name;
          check (0 <? capacity) (CheckViolation "check_capacity_positive");
          check (negb (existsb (fun r => Room.name r =? value name)%string
                         (Rooms (rows db))))
                (UniqueViolation "Room_name_key")])
      (fun id =>
         add_Room {| Room.room_id := id; Room.name := value name;
                     Room.capacity := capacity |})
      db.

(** The trigger function [check_class_capacity] of create_view_and_trigger:
    [new_room_id] and [new_capacity] are NEW.room_id and NEW.capacity.  When
    no room has that key, room_capacity is NULL, the comparison is not true
    and the row passes. *)
Definition check_class_capacity (T : Tables) (new_room_id new_capacity : Z)
    : option PgError :=
  match get_Room T new_room_id with
  | None => None
  | Some room =>
      let room_capacity := Room.capacity room in
      if room_capacity <? new_capacity
      then Some (RaiseException new_capacity room_capacity)
      else None
  end.

Definition insert_Class (trainer_id room_id : Z) (class_name : option string)
    (class_time : DateTime) (capacity : Z) : Stmt Z :=
  fun db =>
    INSERT_INTO TClass
      [int4 trainer_id; int4 room_id; varchar 100 class_name; int4 capacity]
      (fun _ =>
         [check_class_capacity (rows db) room_id capacity;
          not_null "class_name" class_name;
          check (0 <? capacity) (CheckViolation "check_class_capacity_positive");
          check (negb (existsb
                         (fun c => (Class.room_id c =? room_id)
                                   && DateTime_eqb (Class.class_time c) class_time)
                         (Classes (rows db))))
                (UniqueViolation "uq_room_time");
          check (present (get_Trainer (rows db) trainer_id))
                (ForeignKeyViolation "Class_trainer_id_fkey");
          check (present (get_Room (rows db) room_id))
                (ForeignKeyViolation "Class_room_id_fkey")])
      (fun id =>
         add_Class {| Class.class_id := id; Class.trainer_id := trainer_id;
                      Class.room_id := room_id;
                      Class.class_name := value class_name;
                      Class.class_time := class_time;
                      Class.capacity := capacity |})
      db.

Definition insert_PTSession (member_id trainer_id : Z)
    (session_time : DateTime) (status : option string) : Stmt Z :=
  fun db =>
    INSERT_INTO TPTSession
      [int4 member_id; int4 trainer_id; varchar 20 status]
      (fun _ =>
         [not_null "status" status;
          check (negb (existsb
                         (fun s => (PTSession.trainer_id s =? trainer_id)
                                   && DateTime_eqb (PTSession.session_time s)
                                        session_time)
                         (PTSessions (rows db))))
                (UniqueViolation "uq_trainer_time");
          check (present (get_Member (rows db) member_id))
                (ForeignKeyViolation "PTSession_member_id_fkey");
          check (present (get_Trainer (rows db) trainer_id))
                (ForeignKeyViolation "PTSession_trainer_id_fkey")])
      (fun id =>
         add_PTSession
           {| PTSession.session_id := id; PTSession.member_id := member_id;
              PTSession.trainer_id := trainer_id;
              PTSession.session_time := session_time;
              PTSession.status := value status |})
      db.

Definition insert_ClassEnrollment (member_id class_id : Z)
    (enrollment_date : DateTime) : Stmt Z :=
  fun db =>
    INSERT_INTO TClassEnrollment
      [int4 member_id; int4 class_id]
      (fun _ =>
         [check (negb (existsb
                         (fun e => (ClassEnrollment.member_id e =? member_id)
                                   && (ClassEnrollment.class_id e =? class_id))
                         (ClassEnrollments (rows db))))
                (UniqueViolation "uq_member_class");
          check (present (get_Member (rows db) member_id))
                (ForeignKeyViolation "ClassEnrollment_member_id_fkey");
          check (present (get_Class (rows db) class_id))
                (ForeignKeyViolation "ClassEnrollment_class_id_fkey")])
      (fun id =>
         add_ClassEnrollment
           {| ClassEnrollment.enrollment_id := id;
              ClassEnrollment.member_id := member_id;
              ClassEnrollment.class_id := class_id;
              ClassEnrollment.enrollment_date := enrollment_date |})
      db.

(** UPDATE "Member" SET name = .., phone = .. WHERE member_id = ..: the
    statement the unit of work sends for a loaded member whose attributes
    were assigned; [None] leaves the column out of the SET list. *)
Definition update_Member (member_id : Z) (name phone : option string)
    : Stmt Z :=
  fun db =>
    match first_error [varchar 100 name; varchar 20 phone] with
    | Some e => (Raise (dbapi_error e), db)
    | None =>
        match get_Member (rows db) member_id with
        | None => (Raise StaleDataError, db)
        | Some _ =>
            let set (m : Member.t) : Member.t :=
              if Member.member_id m =? member_id then
                {| Member.member_id := Member.member_id m;
                   Member.name := match name with
                                  | Some v => v | None => Member.name m end;
                   Member.email := Member.email m;
                   Member.date_of_birth := Member.date_of_birth m;
                   Member.gender := Member.gender m;
                   Member.phone := match phone with
                                   | Some v => Some v
                                   | None => Member.phone m end |}
              else m in
            (Ok member_id,
             with_rows (put_Members (map set (Members (rows db))) (rows db)) db)
        end
    end.


(** ** Queries *)

(** ORDER BY key (ascending), rows with equal keys kept in table order. *)
Fixpoint insert_by {A : Type} (key : A -> Z) (x : A) (l : list A) : list A :=
  match l with
  | [] => [x]
  | y :: l' => if key x <? key y then x :: l else y :: insert_by key x l'
  end.

Definition order_by {A : Type} (key : A -> Z) (l : list A) : list A :=
  fold_right (insert_by key) [] l.

(** ORDER BY key DESC. *)
Definition order_by_desc {A : Type} (key : A -> Z) (l : list A) : list A :=
  order_by (fun x => - key x) l.

(** .first() and LIMIT 1. *)
Definition first {A : Type} (l : list A) : option A := hd_error l.

(** The newest health metric of a member: the lateral subquery of the view,
    and the query of member_lookup. *)
Definition latest_metric (T : Tables) (member_id : Z)
    : option HealthMetric.t :=
  first (order_by_desc (fun h => DateTime_key (HealthMetric.timestamp h))
           (filter (fun h => HealthMetric.member_id h =? member_id)
              (HealthMetrics T))).

(** The view MemberHealthSummary of create_view_and_trigger. *)
Module MemberHealthSummary.
Record t := {
  member_id : Z; member_name : string; email : string;
  metric_type : option string; metric_value : option Numeric;
  last_metric_time : option DateTime
}.
End MemberHealthSummary.


(** SELECT count( * ) FROM ClassEnrollment WHERE class_id = .. *)
Definition enrollment_count (T : Tables) (class_id : Z) : Z :=
  Z.of_nat (List.length (filter (fun e => ClassEnrollment.class_id e =? class_id)
                      (ClassEnrollments T))).

Definition existing_enrollment (T : Tables) (member_id class_id : Z)
    : option ClassEnrollment.t :=
  first (filter (fun e => (ClassEnrollment.member_id e =? member_id)
                          && (ClassEnrollment.class_id e =? class_id))
           (ClassEnrollments T)).

(** ** The console *)

Inductive Availability := FULL | spots (n : Z).

(** One constructor per [print] call that interpolates values; [Line] is a
    [print] of a fixed text. *)
Inductive Msg :=
| Line (text : string)
| MemberRegisteredWithID (member_id : Z)
| ErrorRegisteringMember (e : Exn)
| UnexpectedError (e : Exn)
| ProfileName (v : string)
| ProfileEmail (v : string)
| ProfilePhone (v : option string)
| ProfileDateOfBirth (v : option Date)
| ProfileGender (v : option string)
| UpdatingName (old new : string)
| UpdatingPhone (old : option string) (new : string)
| ErrorUpdatingProfile (e : Exn)
| ErrorRecordingMetric (e : Exn)
| ErrorBookingSession (orig : PgError)
| ClassRow (class_id : Z) (class_name : string) (class_time : DateTime)
    (trainer room : string) (enrolled capacity : Z) (status : Availability)
| ClassIsFull (capacity enrolled : Z)
| SuccessfullyEnrolledIn (class_name : string)
| EnrolledClassTime (class_time : DateTime)
| EnrolledTrainer (name : string)
| EnrolledRoom (name : string)
| SpacesRemaining (n : Z)
| ErrorEnrollingInClass (orig : PgError)
| SessionRow (session_id : Z) (session_time : DateTime) (member : string)
    (status : string)
| ScheduleClassRow (class_id : Z) (class_time : DateTime)
    (class_name room : string)
| MemberRow (member_id : Z) (name email : string)
| LatestMetricRow (metric_type : string) (metric_value : Numeric)
    (timestamp : DateTime)
| GoalRow (goal_type : string) (target_value : option Numeric)
    (start_date end_date : option Date)
| TrainerCreatedWithID (trainer_id : Z)
| EmailAlreadyRegistered (email : string)
| ErrorCreatingTrainer (e : Exn)
| RoomCreatedWithID (room_id : Z)
| ErrorCreatingRoomNameMayExist (e : Exn)
| ErrorCreatingRoom (e : Exn)
| ErrorCreatingClass (orig : PgError)
| AuthenticatedAs (name : string).

(** Write statements and transaction ends, as the engine receives them. *)
Inductive Sql := INSERT (t : Table) | UPDATE (t : Table) | COMMIT | ROLLBACK.

(** The session's unit of work: objects given to [session.add], and loaded
    members with assigned attributes. *)
Inductive Write :=
| NewMember (name email : option string) (date_of_birth : option Date)
    (gender phone : option string)
| NewTrainer (name email specialization : option string)
| NewAdmin (username password_hash name email : option string)
| NewHealthMetric (member_id : Z) (metric_type : option string)
    (metric_value : PyFloat) (timestamp : DateTime)
| NewRoom (name : option string) (capacity : Z)
| NewClass (trainer_id room_id : Z) (class_name : option string)
    (class_time : DateTime) (capacity : Z)
| NewPTSession (member_id trainer_id : Z) (session_time : DateTime)
    (status : option string)
| NewClassEnrollment (member_id class_id : Z) (enrollment_date : DateTime)
| DirtyMember (member_id : Z) (name phone : option string).

Definition statement (w : Write) : Sql * Stmt Z :=
  match w with
  | NewMember n e d g p => (INSERT TMember, insert_Member n e d g p)
  | NewTrainer n e s => (INSERT TTrainer, insert_Trainer n e s)
  | NewAdmin u p n e => (INSERT TAdmin, insert_Admin u p n e)
  | NewHealthMetric m t v ts =>
      (INSERT THealthMetric, insert_HealthMetric m t v ts)
  | NewRoom n c => (INSERT TRoom, insert_Room n c)
  | NewClass t r n ct c => (INSERT TClass, insert_Class t r n ct c)
  | NewPTSession m t st s => (INSERT TPTSession, insert_PTSession m t st s)
  | NewClassEnrollment m c d =>
      (INSERT TClassEnrollment, insert_ClassEnrollment m c d)
  | DirtyMember m n p => (UPDATE TMember, update_Member m n p)
  end.

Record World := {
  store : DB;
  pending : list Write;
  stdin : list string;
  stdout : list Msg;
  sql : list Sql;
  clock : DateTime
}.

(** A world at the start of an operation. *)
Definition world (db : DB) (lines : list string) (now : DateTime) : World :=
  {| store := db; pending := []; stdin := lines; stdout := []; sql := [];
     clock := now |}.

(** A computation that may raise. *)
Definition Op (A : Type) : Type := World -> Res A * World.

Definition ret {A : Type} (a : A) : Op A := fun w => (Ok a, w).

Definition bind {A B : Type} (m : Op A) (k : A -> Op B) : Op B :=
  fun w =>
    match m w with
    | (Ok a, w') => k a w'
    | (Raise e, w') => (Raise e, w')
    end.

Definition raise {A : Type} (e : Exn) : Op A := fun w => (Raise e, w).

Declare Scope op_scope.
Delimit Scope op_scope with op.
Notation "x <- m ;; k" := (bind m (fun x => k))
  (at level 61, m at next level, right associativity) : op_scope.
Notation "m ;; k" := (bind m (fun _ => k))
  (at level 61, right associativity) : op_scope.
Local Open Scope op_scope.

(** try: [m] except: the clause [handler] selects; [None] when no clause
    matches the exception, which then propagates. *)
Definition try {A : Type} (m : Op A) (handler : Exn -> option (Op A))
    : Op A :=
  fun w =>
    match m w with
    | (Ok a, w') => (Ok a, w')
    | (Raise e, w') =>
        match handler e with
        | Some h => h w'
        | None => (Raise e, w')
        end
    end.

(** [input()]: the next line the operator types; EOFError at end of input. *)
Definition input : Op string :=
  fun w =>
    match stdin w with
    | [] => (Raise EOFError, w)
    | l :: rest =>
        (Ok l, {| store := store w; pending := pending w; stdin := rest;
                  stdout := stdout w; sql := sql w; clock := clock w |})
    end.

Definition print (m : Msg) : Op unit :=
  fun w =>
    (Ok tt, {| store := store w; pending := pending w; stdin := stdin w;
               stdout := stdout w ++ [m]; sql := sql w; clock := clock w |}).

(** [datetime.now()]. *)
Definition now : Op DateTime := fun w => (Ok (clock w), w).

(** A query: reads the committed rows. *)
Definition query {A : Type} (q : Tables -> A) : Op A :=
  fun w => (Ok (q (rows (store w))), w).

(** A builtin that raises ValueError on a text it cannot convert. *)
Definition convert {A : Type} (f : string -> option A) (s : string) : Op A :=
  match f s with
  | Some a => ret a
  | None => raise ValueError
  end.

(** [session.add(obj)]. *)
Definition session_add (x : Write) : Op unit :=
  fun w =>
    (Ok tt, {| store := store w; pending := pending w ++ [x];
               stdin := stdin w; stdout := stdout w; sql := sql w;
               clock := clock w |}).

(** Assignment to an attribute of a loaded member: the member becomes dirty
    unless the value assigned is the one it has. *)
Fixpoint assign (member_id : Z) (name phone : option string)
    (l : list Write) : list Write :=
  match l with
  | [] => [DirtyMember member_id name phone]
  | DirtyMember i n p :: l' =>
      if i =? member_id then
        DirtyMember i (match name with Some _ => name | None => n end)
                      (match phone with Some _ => phone | None => p end) :: l'
      else DirtyMember i n p :: assign member_id name phone l'
  | x :: l' => x :: assign member_id name phone l'
  end.

Definition set_name (member : Member.t) (name : string) : Op unit :=
  fun w =>
    if (Member.name member =? name)%string then (Ok tt, w) else
    (Ok tt, {| store := store w;
               pending := assign (Member.member_id member) (Some name) None
                            (pending w);
               stdin := stdin w; stdout := stdout w; sql := sql w;
               clock := clock w |}).

Definition set_phone (member : Member.t) (phone : string) : Op unit :=
  fun w =>
    if match Member.phone member with
       | Some old => (old =? phone)%string
       | None => false
       end
    then (Ok tt, w) else
    (Ok tt, {| store := store w;
               pending := assign (Member.member_id member) None (Some phone)
                            (pending w);
               stdin := stdin w; stdout := stdout w; sql := sql w;
               clock := clock w |}).

(** The flush of the unit of work: one statement per object, in order, until
    one fails.  Returns the keys of the rows written. *)
Fixpoint flush (l : list Write) (db : DB) (log : list Sql)
    : Res (list Z) * DB * list Sql :=
  match l with
  | [] => (Ok [], db, log)
  | x :: l' =>
      match snd (statement x) db with
      | (Ok id, db') =>
          match flush l' db' (log ++ [fst (statement x)]) with
          | (Ok ids, db'', log') => (Ok (id :: ids), db'', log')
          | failed => failed
          end
      | (Raise e, db') => (Raise e, db', log ++ [fst (statement x)])
      end
  end.

(** [session.commit()]: flush, then COMMIT.  When a statement fails the
    transaction is aborted: the rows are those before the flush (the
    sequences keep the values drawn) and the added objects leave the
    session. *)
Definition session_commit : Op (list Z) :=
  fun w =>
    match flush (pending w) (store w) (sql w) with
    | (Ok ids, db', log) =>
        (Ok ids, {| store := db'; pending := []; stdin := stdin w;
                    stdout := stdout w; sql := log ++ [COMMIT];
                    clock := clock w |})
    | (Raise e, db', log) =>
        (Raise e, {| store := with_rows (rows (store w)) db'; pending := [];
                     stdin := stdin w; stdout := stdout w; sql := log;
                     clock := clock w |})
    end.

(** [session.rollback()]. *)
Definition session_rollback : Op unit :=
  fun w =>
    (Ok tt, {| store := store w; pending := []; stdin := stdin w;
               stdout := stdout w; sql := sql w ++ [ROLLBACK];
               clock := clock w |}).

(** The key a flush gave to the one object that was added. *)
Definition primary_key (ids : list Z) : Z := hd 0 ids.

(** ** Python's builtins

    [int], [float] and [datetime.strptime] belong to the language, not to the
    repository: the operations take them as an interface, [None] standing for
    ValueError. *)
Class Builtins := {
  (** [int(s)] *)
  py_int : string -> option Z;
  (** [float(s)] *)
  py_float : string -> option PyFloat;
  (** [datetime.strptime(s, "%Y-%m-%d").date()] *)
  strptime_date : string -> option Date;
  (** [datetime.strptime(s, "%Y-%m-%d %H:%M")] *)
  strptime_datetime : string -> option DateTime
}.

(** [str.isspace] of one character. *)
Definition isspace (c : ascii) : bool :=
  let n := nat_of_ascii c in
  ((9 <=? n) && (n <=? 13) || (28 <=? n) && (n <=? 32))%nat.

Fixpoint lstrip (s : string) : string :=
  match s with
  | String c s' => if isspace c then lstrip s' else s
  | EmptyString => EmptyString
  end.

Fixpoint rstrip (s : string) : string :=
  match s with
  | String c s' =>
      match rstrip s' with
      | EmptyString => if isspace c then EmptyString else String c EmptyString
      | r => String c r
      end
  | EmptyString => EmptyString
  end.

(** [s.strip()] *)
Definition strip (s : string) : string := rstrip (lstrip s).

(** [s or None] *)
Definition or_None (s : string) : option string :=
  match s with EmptyString => None | _ => Some s end.

(** [v if v else ..]: the value when it is neither None nor empty. *)
Definition truthy (v : option string) : option string :=
  match v with Some EmptyString => None | _ => v end.

(** [s.lower()] and SQL lower(s). *)
Definition lower_char (c : ascii) : ascii :=
  let n := nat_of_ascii c in
  if ((65 <=? n) && (n <=? 90))%nat then ascii_of_nat (n + 32) else c.

Fixpoint lower (s : string) : string :=
  match s with
  | String c s' => String (lower_char c) (lower s')
  | EmptyString => EmptyString
  end.

(** SQL [s LIKE pattern], with the default escape character. *)
Fixpoint like (pattern : string) (s : string) : bool :=
  match pattern with
  | EmptyString => match s with EmptyString => true | _ => false end
  | String "%" p =>
      (fix any (s : string) : bool :=
         like p s || match s with
                     | EmptyString => false
                     | String _ s' => any s'
                     end) s
  | String "_" p =>
      match s with EmptyString => false | String _ s' => like p s' end
  | String "\" (String c p) =>
      match s with
      | EmptyString => false
      | String d s' => Ascii.eqb c d && like p s'
      end
  | String c p =>
      match s with
      | EmptyString => false
      | String d s' => Ascii.eqb c d && like p s'
      end
  end.

Fixpoint for_each {A : Type} (l : list A) (body : A -> Op unit) : Op unit :=
  match l with
  | [] => ret tt
  | x :: l' => body x;; for_each l' body
  end.

(** except ValueError: *)
Definition except_ValueError {A : Type} (h : Op A) (e : Exn) : option (Op A) :=
  match e with ValueError => Some h | _ => None end.

(** ** The operations of main.py *)

Section Operations.

Context {builtins : Builtins}.

Definition register_member : Op unit :=
  print (Line "=== Register New Member ===");;
  name <- input;;
  email <- input;;
  dob_str <- input;;
  gender <- input;;
  phone <- input;;
  dob <- match or_None dob_str with
         | Some dob_str =>
             try (d <- convert strptime_date dob_str;; ret (Some d))
               (except_ValueError
                  (print (Line "Invalid date format. Member registered without date of birth.");;
                   ret None))
         | None => ret None
         end;;
  try (session_add (NewMember (Some name) (Some email) dob (or_None gender)
                      (or_None phone));;
       ids <- session_commit;;
       print (MemberRegisteredWithID (primary_key ids)))
    (fun e =>
       Some match e with
            | IntegrityError _ =>
                session_rollback;; print (ErrorRegisteringMember e)
            | _ => session_rollback;; print (UnexpectedError e)
            end).

Definition update_member_profile : Op unit :=
  print (Line "=== Update Member Profile ===");;
  s <- input;;
  member_id <- convert py_int s;;
  member <- query (fun T => get_Member T member_id);;
  match member with
  | None => print (Line "Member not found.")
  | Some member =>
      print (Line "Current Profile:");;
      print (ProfileName (Member.name member));;
      print (ProfileEmail (Member.email member));;
      print (ProfilePhone (truthy (Member.phone member)));;
      print (ProfileDateOfBirth (Member.date_of_birth member));;
      print (ProfileGender (truthy (Member.gender member)));;
      print (Line "Leave field blank to keep current value.");;
      name <- input;;
      phone <- input;;
      match or_None (strip name) with
      | Some name =>
          print (UpdatingName (Member.name member) name);;
          set_name member name
      | None => ret tt
      end;;
      match or_None (strip phone) with
      | Some phone =>
          print (UpdatingPhone (truthy (Member.phone member)) phone);;
          set_phone member phone
      | None => ret tt
      end;;
      try (session_commit;; print (Line "Profile updated successfully!"))
        (fun e => Some (session_rollback;; print (ErrorUpdatingProfile e)))
  end.

Definition add_health_metric : Op unit :=
  print (Line "=== Add Health Metric ===");;
  s <- input;;
  member_id <- convert py_int s;;
  metric_type <- input;;
  s <- input;;
  metric_value <- convert py_float s;;
  member <- query (fun T => get_Member T member_id);;
  match member with
  | None => print (Line "Member not found.")
  | Some _ =>
      try (timestamp <- now;;
           session_add (NewHealthMetric member_id (Some metric_type)
                          metric_value timestamp);;
           session_commit;;
           print (Line "Metric recorded."))
        (fun e => Some (session_rollback;; print (ErrorRecordingMetric e)))
  end.

Definition book_pt_session : Op unit :=
  print (Line "=== Book PT Session ===");;
  member_id <- try (s <- input;; i <- convert py_int s;; ret (Some i))
                 (except_ValueError
                    (print (Line "Invalid member ID. Please enter a number.");;
                     ret None));;
  match member_id with
  | None => ret tt
  | Some member_id =>
  trainer_id <- try (s <- input;; i <- convert py_int s;; ret (Some i))
                  (except_ValueError
                     (print (Line "Invalid trainer ID. Please enter a number.");;
                      ret None));;
  match trainer_id with
  | None => ret tt
  | Some trainer_id =>
  session_time_str <- input;;
  session_time <- try (t <- convert strptime_datetime session_time_str;;
                       ret (Some t))
                    (except_ValueError
                       (print (Line "Invalid date/time format. Please use YYYY-MM-DD HH:MM");;
                        ret None));;
  match session_time with
  | None => ret tt
  | Some session_time =>
      try (session_add (NewPTSession member_id trainer_id session_time
                          (Some "scheduled"));;
           session_commit;;
           print (Line "Session booked."))
        (fun e =>
           Some match e with
                | IntegrityError orig =>
                    session_rollback;; print (ErrorBookingSession orig)
                | _ => session_rollback;; print (UnexpectedError e)
                end)
  end end end.

(** session.query(Class).join(Room).join(Trainer).order_by(Class.class_time) *)
Definition classes_with_room_and_trainer (T : Tables)
    : list (Class.t * Room.t * Trainer.t) :=
  order_by (fun x => DateTime_key (Class.class_time (fst (fst x))))
    (flat_map
       (fun c =>
          match get_Room T (Class.room_id c),
                get_Trainer T (Class.trainer_id c) with
          | Some r, Some t => [(c, r, t)]
          | _, _ => []
          end)
       (Classes T)).

Definition view_available_classes : Op unit :=
  print (Line "=== Available Classes ===");;
  classes <- query classes_with_room_and_trainer;;
  match classes with
  | [] => print (Line "No classes available.")
  | _ =>
      print (Line "ID Class Name Time Trainer Room Enrolled Capacity");;
      print (Line "----------");;
      for_each classes
        (fun x =>
           let '(class_obj, room, trainer) := x in
           enrollment_count <-
             query (fun T => enrollment_count T (Class.class_id class_obj));;
           let spaces_available :=
             Class.capacity class_obj - enrollment_count in
           let status := if spaces_available =? 0 then FULL
                         else spots spaces_available in
           print (ClassRow (Class.class_id class_obj)
                    (Class.class_name class_obj) (Class.class_time class_obj)
                    (Trainer.name trainer) (Room.name room)
                    enrollment_count (Class.capacity class_obj) status))
  end.

(** [obj.attr] on the object a relationship loads: AttributeError on None. *)
Definition attr {A B : Type} (obj : option A) (f : A -> B) : Op B :=
  match obj with
  | Some x => ret (f x)
  | None => raise AttributeError
  end.

Definition signup_for_class : Op unit :=
  print (Line "=== Sign Up for Class ===");;
  member_id <- try (s <- input;; i <- convert py_int s;; ret (Some i))
                 (except_ValueError
                    (print (Line "Invalid member ID. Please enter a number.");;
                     ret None));;
  match member_id with
  | None => ret tt
  | Some member_id =>
  member <- query (fun T => get_Member T member_id);;
  match member with
  | None => print (Line "Member not found.")
  | Some _ =>
  view_available_classes;;
  class_id <- try (s <- input;; i <- convert py_int s;; ret (Some i))
                (except_ValueError
                   (print (Line "Invalid class ID. Please enter a number.");;
                    ret None));;
  match class_id with
  | None => ret tt
  | Some class_id =>
  class_obj <- query (fun T => get_Class T class_id);;
  match class_obj with
  | None => print (Line "Class not found.")
  | Some class_obj =>
  existing_enrollment <-
    query (fun T => existing_enrollment T member_id class_id);;
  match existing_enrollment with
  | Some _ => print (Line "You are already enrolled in this class.")
  | None =>
  enrollment_count <- query (fun T => enrollment_count T class_id);;
  if Class.capacity class_obj <=? enrollment_count then
    print (ClassIsFull (Class.capacity class_obj) enrollment_count)
  else
    try (enrollment_date <- now;;
         session_add (NewClassEnrollment member_id class_id enrollment_date);;
         session_commit;;
         let spaces_remaining :=
           Class.capacity class_obj - enrollment_count - 1 in
         print (SuccessfullyEnrolledIn (Class.class_name class_obj));;
         print (EnrolledClassTime (Class.class_time class_obj));;
         trainer <- query (fun T => get_Trainer T (Class.trainer_id class_obj));;
         trainer_name <- attr trainer Trainer.name;;
         print (EnrolledTrainer trainer_name);;
         room <- query (fun T => get_Room T (Class.room_id class_obj));;
         room_name <- attr room Room.name;;
         print (EnrolledRoom room_name);;
         print (SpacesRemaining spaces_remaining))
      (fun e =>
         Some match e with
              | IntegrityError orig =>
                  session_rollback;; print (ErrorEnrollingInClass orig)
              | _ => session_rollback;; print (UnexpectedError e)
              end)
  end end end end end.

Definition view_trainer_schedule : Op unit :=
  print (Line "=== Trainer Schedule ===");;
  s <- input;;
  trainer_id <- convert py_int s;;
  trainer <- query (fun T => get_Trainer T trainer_id);;
  match trainer with
  | None => print (Line "Trainer not found.")
  | Some _ =>
      print (Line "-- PT Sessions --");;
      pt_sessions <-
        query (fun T =>
                 order_by
                   (fun x => DateTime_key (PTSession.session_time (fst x)))
                   (flat_map
                      (fun s =>
                         match get_Member T (PTSession.member_id s) with
                         | Some m =>
                             if PTSession.trainer_id s =? trainer_id
                             then [(s, m)] else []
                         | None => []
                         end)
                      (PTSessions T)));;
      match pt_sessions with
      | [] => print (Line "No PT sessions scheduled.")
      | _ =>
          for_each pt_sessions
            (fun x =>
               print (SessionRow (PTSession.session_id (fst x))
                        (PTSession.session_time (fst x))
                        (Member.name (snd x)) (PTSession.status (fst x))))
      end;;
      print (Line "-- Classes --");;
      classes <-
        query (fun T =>
                 order_by (fun x => DateTime_key (Class.class_time (fst x)))
                   (flat_map
                      (fun c =>
                         match get_Room T (Class.room_id c) with
                         | Some r =>
                             if Class.trainer_id c =? trainer_id
                             then [(c, r)] else []
                         | None => []
                         end)
                      (Classes T)));;
      match classes with
      | [] => print (Line "No classes scheduled.")
      | _ =>
          for_each classes
            (fun x =>
               print (ScheduleClassRow (Class.class_id (fst x))
                        (Class.class_time (fst x))
                        (Class.class_name (fst x)) (Room.name (snd x))))
      end
  end.

Definition member_lookup : Op unit :=
  print (Line "=== Member Lookup (Trainer) ===");;
  name_like <- input;;
  members <-
    query (fun T =>
             filter (fun m => like ("%" ++ lower name_like ++ "%")%string
                                (lower (Member.name m)))
               (Members T));;
  match members with
  | [] => print (Line "No members found.")
  | _ =>
      for_each members
        (fun m => print (MemberRow (Member.member_id m) (Member.name m)
                           (Member.email m)));;
      s <- input;;
      member_id <- convert py_int s;;
      member <- query (fun T => get_Member T member_id);;
      match member with
      | None => print (Line "Member not found.")
      | Some _ =>
          latest_metric <- query (fun T => latest_metric T member_id);;
          goals <-
            query (fun T =>
                     filter (fun g => FitnessGoal.member_id g =? member_id)
                       (FitnessGoals T));;
          print (Line "-- Latest Metric --");;
          match latest_metric with
          | Some h =>
              print (LatestMetricRow (HealthMetric.metric_type h)
                       (HealthMetric.metric_value h)
                       (HealthMetric.timestamp h))
          | None => print (Line "No metrics recorded.")
          end;;
          print (Line "-- Goals --");;
          match goals with
          | [] => print (Line "No goals defined.")
          | _ =>
              for_each goals
                (fun g => print (GoalRow (FitnessGoal.goal_type g)
                                   (FitnessGoal.target_value g)
                                   (FitnessGoal.start_date g)
                                   (FitnessGoal.end_date g)))
          end
      end
  end.

(** ["email" in error_msg.lower() or "unique" in error_msg.lower()]; the
    engine's message is reduced to the constraint or column it names: a
    unique violation reads "violates unique constraint". *)
Definition mentions_email_or_unique (orig : PgError) : bool :=
  match orig with
  | UniqueViolation _ => true
  | NotNullViolation column => like "%email%" (lower column)
  | CheckViolation c | ForeignKeyViolation c =>
      like "%email%" (lower c) || like "%unique%" (lower c)
  | _ => false
  end.

Definition create_trainer : Op unit :=
  print (Line "=== Create Trainer ===");;
  name <- input;;
  email <- input;;
  specialization <- input;;
  try (session_add (NewTrainer (Some name) (Some email)
                      (or_None specialization));;
       ids <- session_commit;;
       print (TrainerCreatedWithID (primary_key ids)))
    (fun e =>
       Some match e with
            | IntegrityError orig =>
                session_rollback;;
                if mentions_email_or_unique orig
                then print (EmailAlreadyRegistered email)
                else print (ErrorCreatingTrainer e)
            | _ => session_rollback;; print (ErrorCreatingTrainer e)
            end).

Definition create_room : Op unit :=
  print (Line "=== Create Room ===");;
  name <- input;;
  s <- input;;
  capacity <- convert py_int s;;
  try (session_add (NewRoom (Some name) capacity);;
       ids <- session_commit;;
       print (RoomCreatedWithID (primary_key ids)))
    (fun e =>
       Some match e with
            | IntegrityError _ =>
                session_rollback;; print (ErrorCreatingRoomNameMayExist e)
            | _ => session_rollback;; print (ErrorCreatingRoom e)
            end).

Definition create_class : Op unit :=
  print (Line "=== Create Class ===");;
  s <- input;;
  trainer_id <- convert py_int s;;
  s <- input;;
  room_id <- convert py_int s;;
  class_name <- input;;
  class_time_str <- input;;
  s <- input;;
  capacity <- convert py_int s;;
  class_time <- try (t <- convert strptime_datetime class_time_str;;
                     ret (Some t))
                  (except_ValueError
                     (print (Line "Invalid date/time format. Please use YYYY-MM-DD HH:MM");;
                      ret None));;
  match class_time with
  | None => ret tt
  | Some class_time =>
      try (session_add (NewClass trainer_id room_id (Some class_name)
                          class_time capacity);;
           session_commit;;
           print (Line "Class created."))
        (fun e =>
           Some match e with
                | IntegrityError orig =>
                    session_rollback;; print (ErrorCreatingClass orig)
                | _ => session_rollback;; print (UnexpectedError e)
                end)
  end.

Definition authenticate_admin : Op (option Admin.t) :=
  print (Line "=== Admin Authentication ===");;
  username <- input;;
  password <- input;;
  admin <- query (fun T =>
                    first (filter (fun a => Admin.username a =? username)%string
                             (Admins T)));;
  match admin with
  | Some admin =>
      if (Admin.password_hash admin =? password)%string then
        print (AuthenticatedAs (Admin.name admin));;
        ret (Some admin)
      else
        print (Line "Authentication failed. Invalid username or password.");;
        ret None
  | None =>
      print (Line "Authentication failed. Invalid username or password.");;
      ret None
  end.

Definition create_default_admin : Op unit :=
  admin <- query (fun T =>
                    first (filter (fun a => Admin.username a =? "admin")%string
                             (Admins T)));;
  match admin with
  | Some _ => ret tt
  | None =>
      session_add (NewAdmin (Some "admin") (Some "admin123")
                     (Some "System Administrator")
                     (Some "admin@fitnessclub.com"));;
      session_commit;;
      print (Line "Default admin account created (username: admin, password: admin123).")
  end.

(** The member menu: one choice per turn, until "0".  An exception that
    leaves an operation leaves the menu too (there is no handler here, nor
    in main_menu), which ends the process.  [fuel] bounds the number of
    turns; each turn reads a line. *)
Fixpoint member_menu_loop (fuel : nat) : Op unit :=
  match fuel with
  | O => ret tt
  | S fuel' =>
      print (Line "--- Member Menu ---");;
      print (Line "1. Register Member");;
      print (Line "2. Update Member Profile");;
      print (Line "3. Add Health Metric");;
      print (Line "4. Book PT Session");;
      print (Line "5. View Available Classes");;
      print (Line "6. Sign Up for Class");;
      print (Line "0. Back");;
      choice <- input;;
      if (choice =? "1")%string then
        register_member;; member_menu_loop fuel'
      else if (choice =? "2")%string then
        update_member_profile;; member_menu_loop fuel'
      else if (choice =? "3")%string then
        add_health_metric;; member_menu_loop fuel'
      else if (choice =? "4")%string then
        book_pt_session;; member_menu_loop fuel'
      else if (choice =? "5")%string then
        view_available_classes;; member_menu_loop fuel'
      else if (choice =? "6")%string then
        signup_for_class;; member_menu_loop fuel'
      else if (choice =? "0")%string then
        ret tt
      else
        print (Line "Invalid choice.");; member_menu_loop fuel'
  end.

(** The menu with a turn for every line the operator will type, and one
    more. *)
Definition member_menu : Op unit :=
  fun w => member_menu_loop (S (List.length (stdin w))) w.

End Operations.

(** ** A reference implementation of the builtins

    Enough of Python's behaviour to run the operations on examples: decimal
    integers (sign, surrounding blanks, single underscores between digits),
    plain decimal fractions, and the two strptime formats with the field
    patterns of the standard library tried in its order. *)

Definition digit (c : ascii) : option Z :=
  let n := nat_of_ascii c in
  if ((48 <=? n) && (n <=? 57))%nat then Some (Z.of_nat (n - 48)) else None.

Fixpoint digits (s : string) (acc : Z) (after_digit : bool) : option Z :=
  match s with
  | EmptyString => if after_digit then Some acc else None
  | String c s' =>
      match digit c with
      | Some d => digits s' (acc * 10 + d) true
      | None =>
          if Ascii.eqb c "_" && after_digit then digits s' acc false else None
      end
  end.

Definition signed {A : Type} (f : string -> option A) (neg : A -> A)
    (s : string) : option A :=
  match s with
  | String "-" r => option_map neg (f r)
  | String "+" r => f r
  | _ => f s
  end.

Definition ascii_int (s : string) : option Z :=
  signed (fun r => digits r 0 false) Z.opp (strip s).

(** Digits of a fraction: the numerator and the power of ten below it. *)
Fixpoint fraction (s : string) (num : Z) (den : positive)
    : option (Z * positive) :=
  match s with
  | EmptyString => Some (num, den)
  | String c s' =>
      match digit c with
      | Some d => fraction s' (num * 10 + d) (den * 10)
      | None => None
      end
  end.

Fixpoint decimal (s : string) (acc : Z) (seen : bool) : option Q :=
  match s with
  | EmptyString => if seen then Some (acc # 1) else None
  | String c s' =>
      match digit c with
      | Some d => decimal s' (acc * 10 + d) true
      | None =>
          if Ascii.eqb c "." then
            match s' with
            | EmptyString => if seen then Some (acc # 1) else None
            | _ => option_map (fun nd => fst nd # snd nd) (fraction s' acc 1)
            end
          else None
      end
  end.

Definition ascii_float (s : string) : option PyFloat :=
  option_map FNum (signed (fun r => decimal r 0 false) Qopp (strip s)).

Definition Parser (A : Type) : Type := string -> option (A * string).

Definition orelse {A : Type} (p q : Parser A) : Parser A :=
  fun s => match p s with Some r => Some r | None => q s end.

(** One digit accepted by [ok]. *)
Definition one (ok : Z -> bool) : Parser Z :=
  fun s =>
    match s with
    | String a r =>
        match digit a with
        | Some x => if ok x then Some (x, r) else None
        | None => None
        end
    | EmptyString => None
    end.

(** Two digits accepted by [ok]. *)
Definition two (ok : Z -> Z -> bool) : Parser Z :=
  fun s =>
    match s with
    | String a (String b r) =>
        match digit a, digit b with
        | Some x, Some y => if ok x y then Some (10 * x + y, r) else None
        | _, _ => None
        end
    | _ => None
    end.

Definition lit (c : ascii) : Parser unit :=
  fun s =>
    match s with
    | String a r => if Ascii.eqb a c then Some (tt, r) else None
    | EmptyString => None
    end.

Definition then_ {A B : Type} (p : Parser A) (k : A -> Parser B) : Parser B :=
  fun s => match p s with Some (a, r) => k a r | None => None end.

(** %Y *)
Definition field_Y : Parser Z :=
  then_ (two (fun _ _ => true)) (fun hi =>
  then_ (two (fun _ _ => true)) (fun lo s => Some (100 * hi + lo, s))).

(** %m: 1[0-2]|0[1-9]|[1-9] *)
Definition field_m : Parser Z :=
  orelse (two (fun a b => (a =? 1) && (b <=? 2)))
 (orelse (two (fun a b => (a =? 0) && (1 <=? b)))
         (one (fun a => 1 <=? a))).

(** %d: 3[0-1]|[1-2]\d|0[1-9]|[1-9]| [1-9] *)
Definition field_d : Parser Z :=
  orelse (two (fun a b => (a =? 3) && (b <=? 1)))
 (orelse (two (fun a _ => (1 <=? a) && (a <=? 2)))
 (orelse (two (fun a b => (a =? 0) && (1 <=? b)))
 (orelse (one (fun a => 1 <=? a))
         (then_ (lit " ") (fun _ => one (fun a => 1 <=? a)))))).

(** %H: 2[0-3]|[0-1]\d|\d *)
Definition field_H : Parser Z :=
  orelse (two (fun a b => (a =? 2) && (b <=? 3)))
 (orelse (two (fun a _ => a <=? 1))
         (one (fun _ => true))).

(** %M: [0-5]\d|\d *)
Definition field_M : Parser Z :=
  orelse (two (fun a _ => a <=? 5)) (one (fun _ => true)).

(** A blank of the format: \s+ *)
Definition blanks : Parser unit :=
  fun s =>
    match s with
    | String a r => if isspace a then Some (tt, lstrip r) else None
    | EmptyString => None
    end.

Definition is_leap (y : Z) : bool :=
  (y mod 4 =? 0) && (negb (y mod 100 =? 0) || (y mod 400 =? 0)).

Definition days_in_month (y m : Z) : Z :=
  if m =? 2 then (if is_leap y then 29 else 28)
  else if (m =? 4) || (m =? 6) || (m =? 9) || (m =? 11) then 30
  else 31.

(** The constructor of [date]: ValueError outside the calendar. *)
Definition make_date (y m d : Z) : option Date :=
  if (1 <=? y) && (d <=? days_in_month y m)
  then Some {| year := y; month := m; day := d |} else None.

Definition Y_m_d : Parser (Z * Z * Z) :=
  then_ field_Y (fun y =>
  then_ (lit "-") (fun _ =>
  then_ field_m (fun m =>
  then_ (lit "-") (fun _ =>
  then_ field_d (fun d s => Some ((y, m, d), s)))))).

Definition ascii_strptime_date (s : string) : option Date :=
  match Y_m_d s with
  | Some ((y, m, d), EmptyString) => make_date y m d
  | _ => None
  end.

Definition ascii_strptime_datetime (s : string) : option DateTime :=
  match then_ Y_m_d (fun ymd =>
        then_ blanks (fun _ =>
        then_ field_H (fun H =>
        then_ (lit ":") (fun _ =>
        then_ field_M (fun M r => Some ((ymd, H, M), r)))))) s with
  | Some (((y, m, d), H, M), EmptyString) =>
      option_map (fun dt => {| date := dt; hour := H; minute := M;
                               second := 0; microsecond := 0 |})
        (make_date y m d)
  | _ => None
  end.

Definition ascii_builtins : Builtins :=
  {| py_int := ascii_int; py_float := ascii_float;
     strptime_date := ascii_strptime_date;
     strptime_datetime := ascii_strptime_datetime |}.

(** A clock reading for the examples. *)
Definition noon : DateTime :=
  {| date := {| year := 2025; month := 6; day := 1 |};
     hour := 12; minute := 0; second := 0; microsecond := 0 |}.

(** The operation [op] run on the store [db] with the operator typing
    [lines] at the time [clock]. *)
Definition run {A : Type} (op : Op A) (db : DB) (lines : list string)
    (clock : DateTime) : Res A * World :=
  op (world db lines clock).

(** ** Stores used in the examples *)

Definition monday_10 : DateTime :=
  {| date := {| year := 2025; month := 6; day := 2 |};
     hour := 10; minute := 0; second := 0; microsecond := 0 |}.

(** One trainer, the room "Studio A" for ten, three members, the class
    "Yoga" for two in that room with Ann enrolled, and two weights recorded
    for Ann. *)
Definition studio : DB :=
  {| rows :=
       {| Members :=
            [{| Member.member_id := 1; Member.name := "Ann";
                Member.email := "ann@club.org"; Member.date_of_birth := None;
                Member.gender := None; Member.phone := Some "555-0101" |};
             {| Member.member_id := 2; Member.name := "Bob";
                Member.email := "bob@club.org"; Member.date_of_birth := None;
                Member.gender := None; Member.phone := None |};
             {| Member.member_id := 3; Member.name := "Cy";
                Member.email := "cy@club.org"; Member.date_of_birth := None;
                Member.gender := None; Member.phone := None |}];
          Trainers :=
            [{| Trainer.trainer_id := 1; Trainer.name := "Tess";
                Trainer.email := "tess@club.org";
                Trainer.specialization := None |}];
          Admins := [];
          FitnessGoals := [];
          HealthMetrics :=
            [{| HealthMetric.metric_id := 1; HealthMetric.member_id := 1;
                HealthMetric.metric_type := "Weight (kg)";
                HealthMetric.metric_value := NumVal 7050;
                HealthMetric.timestamp := noon |};
             {| HealthMetric.metric_id := 2; HealthMetric.member_id := 1;
                HealthMetric.metric_type := "Weight (kg)";
                HealthMetric.metric_value := NumVal 6980;
                HealthMetric.timestamp := monday_10 |}];
          Rooms :=
            [{| Room.room_id := 1; Room.name := "Studio A";
                Room.capacity := 10 |}];
          Classes :=
            [{| Class.class_id := 1; Class.trainer_id := 1;
                Class.room_id := 1; Class.class_name := "Yoga";
                Class.class_time := monday_10; Class.capacity := 2 |}];
          PTSessions := [];
          ClassEnrollments :=
            [{| ClassEnrollment.enrollment_id := 1;
                ClassEnrollment.member_id := 1;
                ClassEnrollment.class_id := 1;
                ClassEnrollment.enrollment_date := noon |}] |};
     seq := fun t =>
              match t with
              | TMember => 4
              | THealthMetric => 3
              | TTrainer | TRoom | TClass | TClassEnrollment => 2
              | _ => 1
              end |}.

(** ** Runs of the application *)

(** The choices of the menus, and the startup step. *)
Inductive Command :=
| RegisterMember | UpdateMemberProfile | AddHealthMetric | BookPTSession
| ViewAvailableClasses | SignupForClass
| ViewTrainerSchedule | MemberLookup
| AuthenticateAdmin | CreateTrainer | CreateRoom | CreateClass
| CreateDefaultAdmin.

Section Runs.

Context {builtins : Builtins}.

Definition operation (c : Command) : Op unit :=
  match c with
  | RegisterMember => register_member
  | UpdateMemberProfile => update_member_profile
  | AddHealthMetric => add_health_metric
  | BookPTSession => book_pt_session
  | ViewAvailableClasses => view_available_classes
  | SignupForClass => signup_for_class
  | ViewTrainerSchedule => view_trainer_schedule
  | MemberLookup => member_lookup
  | AuthenticateAdmin => authenticate_admin;; ret tt
  | CreateTrainer => create_trainer
  | CreateRoom => create_room
  | CreateClass => create_class
  | CreateDefaultAdmin => create_default_admin
  end.

(** The store once [c] has run with the operator typing [lines]; it is the
    store the next operation (or the next launch, when [c] ended the process
    with an exception) starts from. *)
Definition after (c : Command) (lines : list string) (clock : DateTime)
    (db : DB) : DB :=
  store (snd (run (operation c) db lines clock)).

(** The stores a sequence of operations leads to, from the empty store. *)
Inductive reachable : DB -> Prop :=
| reachable_empty : reachable empty_db
| reachable_after (c : Command) (lines : list string) (clock : DateTime)
    (db : DB) : reachable db -> reachable (after c lines clock db).

End Runs.

(** The lines view_available_classes prints for the rows of the join. *)
Definition class_row (T : Tables) (x : Class.t * Room.t * Trainer.t) : Msg :=
  let '(class_obj, room, trainer) := x in
  let enrolled := enrollment_count T (Class.class_id class_obj) in
  ClassRow (Class.class_id class_obj) (Class.class_name class_obj)
    (Class.class_time class_obj) (Trainer.name trainer) (Room.name room)
    enrolled (Class.capacity class_obj)
    (if Class.capacity class_obj - enrolled =? 0 then FULL
     else spots (Class.capacity class_obj - enrolled)).

Definition available_classes (T : Tables) : list Msg :=
  Line "=== Available Classes ===" ::
  match classes_with_room_and_trainer T with
  | [] => [Line "No classes available."]
  | l => Line "ID Class Name Time Trainer Room Enrolled Capacity" ::
         Line "----------" :: map (class_row T) l
  end.

(** [w] with [ms] printed after what it shows. *)
Definition printed (ms : list Msg) (w : World) : World :=
  {| store := store w; pending := pending w; stdin := stdin w;
     stdout := stdout w ++ ms; sql := sql w; clock := clock w |}.

(** ** What the schema guarantees of a store *)

Record consistent (db : DB) : Prop := {
  member_keys : NoDup (map Member.member_id (Members (rows db)));
  member_keys_drawn :
    forall m, In m (Members (rows db)) -> Member.member_id m < seq db TMember;
  class_keys : NoDup (map Class.class_id (Classes (rows db)));
  class_keys_drawn :
    forall c, In c (Classes (rows db)) -> Class.class_id c < seq db TClass;
  class_trainer :
    forall c, In c (Classes (rows db)) ->
      present (get_Trainer (rows db) (Class.trainer_id c)) = true;
  class_room :
    forall c, In c (Classes (rows db)) ->
      present (get_Room (rows db) (Class.room_id c)) = true;
  enrollment_class :
    forall e, In e (ClassEnrollments (rows db)) ->
      present (get_Class (rows db) (ClassEnrollment.class_id e)) = true
}.

(** Enrollment count <= class capacity <= room capacity, for every class. *)
Definition capacity_bounds (T : Tables) : Prop :=
  forall c, In c (Classes T) ->
    enrollment_count T (Class.class_id c) <= Class.capacity c /\
    exists room, get_Room T (Class.room_id c) = Some room /\
                 Class.capacity c <= Room.capacity room.

(** The row create_default_admin adds. *)
Definition default_admin (admin_id : Z) : Admin.t :=
  {| Admin.admin_id := admin_id; Admin.username := "admin";
     Admin.password_hash := "admin123";
     Admin.name := "System Administrator";
     Admin.email := "admin@fitnessclub.com" |}.

(** The invariant of the store. *)
Definition invariant (db : DB) : Prop :=
  consistent db /\ capacity_bounds (rows db).

Definition is_enrollment (x : Write) : bool :=
  match x with NewClassEnrollment _ _ _ => true | _ => false end.

(** The sequences only advance. *)
Definition seq_le (db db' : DB) : Prop := forall t, seq db t <= seq db' t.

(** A property of the store that no statement other than an enrollment
    breaks, accepted or not, and that does not depend on how far the
    sequences have advanced. *)
Definition stable (P : DB -> Prop) : Prop :=
  (forall db db', P db -> rows db' = rows db -> seq_le db db' -> P db') /\
  (forall x db r db',
     is_enrollment x = false -> P db ->
     snd (statement x) db = (r, db') -> P db').

(** [P] holds of the store of a world in which no enrollment waits for the
    flush. *)
Definition holds (P : DB -> Prop) (w : World) : Prop :=
  P (store w) /\
  forall x, In x (pending w) -> is_enrollment x = false.

(** A computation that keeps [P]. *)
Definition preserves (P : DB -> Prop) {A : Type} (m : Op A) : Prop :=
  forall w, holds P w -> holds P (snd (m w)).

(** A computation that sends nothing to the engine: the store stays, and
    nothing is added to an empty unit of work. *)
Definition steady {A : Type} (m : Op A) : Prop :=
  forall w, store (snd (m w)) = store w /\
            (pending w = [] -> pending (snd (m w)) = []).

(** A computation that, started on the store [s0] with nothing pending,
    ends on a store that satisfies [Q]. *)
Definition ends {A : Type} (s0 : DB) (Q : DB -> Prop) (m : Op A) : Prop :=
  forall w, store w = s0 -> pending w = [] -> Q (store (snd (m w))).


(** A store built by the operations themselves: a trainer, a room for ten,
    a class for two in it, a member, and her enrollment. *)
Definition club : DB :=
  @after ascii_builtins SignupForClass ["1"; "1"] noon
    (@after ascii_builtins RegisterMember
       ["Ann"; "ann@club.org"; ""; ""; "555-0101"] noon
       (@after ascii_builtins CreateClass
          ["1"; "1"; "Yoga"; "2025-06-02 10:00"; "2"] noon
          (@after ascii_builtins CreateRoom ["Studio A"; "10"] noon
             (@after ascii_builtins CreateTrainer
                ["Tess"; "tess@club.org"; ""] noon empty_db)))).

(** [studio] once Bob too has signed up for "Yoga": the class is full. *)
Definition full_studio : DB :=
  @after ascii_builtins SignupForClass ["2"; "1"] noon studio.


(** ** The trainer menu *)

Section Menus.

Context {builtins : Builtins}.

(** The trainer menu of main.py, with [fuel] as in [member_menu_loop]. *)
Fixpoint trainer_menu_loop (fuel : nat) : Op unit :=
  match fuel with
  | O => ret tt
  | S fuel' =>
      print (Line "--- Trainer Menu ---");;
      print (Line "1. View Schedule");;
      print (Line "2. Member Lookup");;
      print (Line "0. Back");;
      choice <- input;;
      if (choice =? "1")%string then
        view_trainer_schedule;; trainer_menu_loop fuel'
      else if (choice =? "2")%string then
        member_lookup;; trainer_menu_loop fuel'
      else if (choice =? "0")%string then
        ret tt
      else
        print (Line "Invalid choice.");; trainer_menu_loop fuel'
  end.

Definition trainer_menu : Op unit :=
  fun w => trainer_menu_loop (S (List.length (stdin w))) w.

End Menus.

(** ** How a computation ends, and what it sends *)

(** The exceptions [m] lets out are those of [E], or EOFError once the
    operator's lines are used up. *)
Definition lets_out (E : Exn -> Prop) {A : Type} (m : Op A) : Prop :=
  forall w,
    match fst (m w) with
    | Ok _ => True
    | Raise e => E e \/ (e = EOFError /\ stdin (snd (m w)) = [])
    end.



(** [m] reads the store and the console only: the store, the unit of work
    and the statements sent are the same after it. *)
Definition sends_nothing {A : Type} (m : Op A) : Prop :=
  forall w,
    store (snd (m w)) = store w /\
    pending (snd (m w)) = pending w /\
    sql (snd (m w)) = sql w.

(** [m] takes its lines from the front of the input. *)
Definition reads_lines {A : Type} (m : Op A) : Prop :=
  forall w, exists typed, stdin w = typed ++ stdin (snd (m w)).


(** The lines a turn of a menu prints before it reads the choice. *)
Definition member_menu_lines : list Msg :=
  [Line "--- Member Menu ---"; Line "1. Register Member";
   Line "2. Update Member Profile"; Line "3. Add Health Metric";
   Line "4. Book PT Session"; Line "5. View Available Classes";
   Line "6. Sign Up for Class"; Line "0. Back"].

Definition trainer_menu_lines : list Msg :=
  [Line "--- Trainer Menu ---"; Line "1. View Schedule";
   Line "2. Member Lookup"; Line "0. Back"].

(** [w] once the lines [ms] are printed and one line is read, [rest] being
    the lines still to come. *)
Definition asked (ms : list Msg) (rest : list string) (w : World) : World :=
  {| store := store w; pending := pending w; stdin := rest;
     stdout := stdout w ++ ms; sql := sql w; clock := clock w |}.

(** The choices a menu knows. *)
Definition known (choices : list string) (choice : string) : bool :=
  existsb (String.eqb choice) choices.

(** ** Transactions *)

Definition is_write (s : Sql) : bool :=
  match s with INSERT _ | UPDATE _ => true | _ => false end.

(** [m] writes nothing: the store is the same after it, an empty unit of
    work stays empty, and what it sends holds no write statement (it may
    hold ROLLBACK). *)
Definition writes_nothing {A : Type} (m : Op A) : Prop :=
  forall w,
    store (snd (m w)) = store w /\
    (pending w = [] -> pending (snd (m w)) = []) /\
    exists log, sql (snd (m w)) = sql w ++ log /\ filter is_write log = [].

(** [m] is one transaction at most: started with an empty unit of work it
    ends with an empty one, sends one write statement at most, and changes
    the rows only if it sends COMMIT. *)
Definition one_transaction {A : Type} (m : Op A) : Prop :=
  forall w,
    pending w = [] ->
    pending (snd (m w)) = [] /\
    exists log,
      sql (snd (m w)) = sql w ++ log /\
      (List.length (filter is_write log) <= 1)%nat /\
      (rows (store (snd (m w))) = rows (store w) \/ In COMMIT log).

(** The unit of work holds nothing, or one change of the member [i]. *)
Definition at_most_dirty (i : Z) (l : list Write) : Prop :=
  l = [] \/ exists name phone, l = [DirtyMember i name phone].

(** [m] returns, sends nothing, and leaves a unit of work that held at
    most a change of the member [i] in that state. *)
Definition dirties (i : Z) {A : Type} (m : Op A) : Prop :=
  forall w,
    at_most_dirty i (pending w) ->
    (exists a, fst (m w) = Ok a) /\
    store (snd (m w)) = store w /\ sql (snd (m w)) = sql w /\
    at_most_dirty i (pending (snd (m w))).

(** ** What every statement keeps *)

(** The objects the operations give to the session: an administrator is
    added with the default values only, a session as scheduled only. *)
Definition issued (x : Write) : Prop :=
  match x with
  | NewAdmin username password_hash name email =>
      username = Some "admin" /\ password_hash = Some "admin123" /\
      name = Some "System Administrator" /\
      email = Some "admin@fitnessclub.com"
  | NewPTSession _ _ _ status => status = Some "scheduled"
  | _ => True
  end.

(** A property of the rows that no statement of the operations breaks,
    accepted or refused. *)
Definition kept (P : Tables -> Prop) : Prop :=
  forall (x : Write) (db db' : DB) (r : Res Z),
    issued x -> P (rows db) -> snd (statement x) db = (r, db') ->
    P (rows db').

(** A computation that ends on rows that have [P], when it starts on rows
    that have it with a unit of work that the operations filled. *)
Definition keeps (P : Tables -> Prop) {A : Type} (m : Op A) : Prop :=
  forall w,
    P (rows (store w)) -> Forall issued (pending w) ->
    P (rows (store (snd (m w)))) /\ Forall issued (pending (snd (m w))).

(** The unique constraints of models.py: [unique=True] on a column, and the
    UniqueConstraint of Class, PTSession and ClassEnrollment. *)
Record unique_keys (T : Tables) : Prop := {
  Member_email_key : NoDup (map Member.email (Members T));
  Trainer_email_key : NoDup (map Trainer.email (Trainers T));
  Admin_username_key : NoDup (map Admin.username (Admins T));
  Admin_email_key : NoDup (map Admin.email (Admins T));
  Room_name_key : NoDup (map Room.name (Rooms T));
  uq_room_time :
    NoDup (map (fun c => (Class.room_id c, Class.class_time c)) (Classes T));
  uq_trainer_time :
    NoDup (map (fun s => (PTSession.trainer_id s, PTSession.session_time s))
             (PTSessions T));
  uq_member_class :
    NoDup (map (fun e => (ClassEnrollment.member_id e,
                          ClassEnrollment.class_id e))
             (ClassEnrollments T))
}.

(** The foreign keys and the CheckConstraint of Room and Class. *)
Record references (T : Tables) : Prop := {
  FitnessGoal_member_id_fkey :
    forall g, In g (FitnessGoals T) ->
      present (get_Member T (FitnessGoal.member_id g)) = true;
  HealthMetric_member_id_fkey :
    forall h, In h (HealthMetrics T) ->
      present (get_Member T (HealthMetric.member_id h)) = true;
  Class_trainer_id_fkey :
    forall c, In c (Classes T) ->
      present (get_Trainer T (Class.trainer_id c)) = true;
  Class_room_id_fkey :
    forall c, In c (Classes T) ->
      present (get_Room T (Class.room_id c)) = true;
  PTSession_member_id_fkey :
    forall s, In s (PTSessions T) ->
      present (get_Member T (PTSession.member_id s)) = true;
  PTSession_trainer_id_fkey :
    forall s, In s (PTSessions T) ->
      present (get_Trainer T (PTSession.trainer_id s)) = true;
  ClassEnrollment_member_id_fkey :
    forall e, In e (ClassEnrollments T) ->
      present (get_Member T (ClassEnrollment.member_id e)) = true;
  ClassEnrollment_class_id_fkey :
    forall e, In e (ClassEnrollments T) ->
      present (get_Class T (ClassEnrollment.class_id e)) = true;
  check_capacity_positive :
    forall r, In r (Rooms T) -> 0 < Room.capacity r;
  check_class_capacity_positive :
    forall c, In c (Classes T) -> 0 < Class.capacity c
}.

(** The rows that only the application's defaults produce: no fitness
    goal, no administrator but the default one, no session that is not
    scheduled. *)
Definition defaults_only (T : Tables) : Prop :=
  FitnessGoals T = [] /\
  (Admins T = [] \/ exists admin_id, Admins T = [default_admin admin_id]) /\
  forall s, In s (PTSessions T) -> PTSession.status s = "scheduled".


(** ** What the schedule and the lookup show *)

(** The two queries of view_trainer_schedule. *)
Definition trainer_sessions (T : Tables) (trainer_id : Z)
    : list (PTSession.t * Member.t) :=
  order_by (fun x => DateTime_key (PTSession.session_time (fst x)))
    (flat_map
       (fun s =>
          match get_Member T (PTSession.member_id s) with
          | Some m => if PTSession.trainer_id s =? trainer_id
                      then [(s, m)] else []
          | None => []
          end)
       (PTSessions T)).

Definition trainer_classes (T : Tables) (trainer_id : Z)
    : list (Class.t * Room.t) :=
  order_by (fun x => DateTime_key (Class.class_time (fst x)))
    (flat_map
       (fun c =>
          match get_Room T (Class.room_id c) with
          | Some r => if Class.trainer_id c =? trainer_id
                      then [(c, r)] else []
          | None => []
          end)
       (Classes T)).

Definition session_row (x : PTSession.t * Member.t) : Msg :=
  SessionRow (PTSession.session_id (fst x)) (PTSession.session_time (fst x))
    (Member.name (snd x)) (PTSession.status (fst x)).

Definition schedule_class_row (x : Class.t * Room.t) : Msg :=
  ScheduleClassRow (Class.class_id (fst x)) (Class.class_time (fst x))
    (Class.class_name (fst x)) (Room.name (snd x)).

(** The lines view_trainer_schedule prints for a trainer that exists. *)
Definition trainer_schedule (T : Tables) (trainer_id : Z) : list Msg :=
  [Line "=== Trainer Schedule ==="; Line "-- PT Sessions --"] ++
  match trainer_sessions T trainer_id with
  | [] => [Line "No PT sessions scheduled."]
  | l => map session_row l
  end ++
  [Line "-- Classes --"] ++
  match trainer_classes T trainer_id with
  | [] => [Line "No classes scheduled."]
  | l => map schedule_class_row l
  end.

(** Ascending order of the keys. *)
Definition ascending {A : Type} (key : A -> Z) (l : list A) : Prop :=
  StronglySorted (fun a b => key a <= key b) l.





Definition member_row (m : Member.t) : Msg :=
  MemberRow (Member.member_id m) (Member.name m) (Member.email m).

(** What [m] prints is added after what was printed. *)
Definition prints_on {A : Type} (m : Op A) : Prop :=
  forall w, exists more, stdout (snd (m w)) = stdout w ++ more.

(** ** A session at a menu *)

(** A store in order: the invariant of the keys and the capacities, and
    the constraints that models.py declares. *)
Definition well_formed (db : DB) : Prop :=
  invariant db /\ unique_keys (rows db) /\ references (rows db).

(** [m], started with nothing pending on a store that has [P], ends with
    nothing pending on a store that has it, whether it returns or raises. *)
Definition maintains (P : DB -> Prop) {A : Type} (m : Op A) : Prop :=
  forall w,
    P (store w) -> pending w = [] ->
    P (store (snd (m w))) /\ pending (snd (m w)) = [].

(** * Properties *)

(** ** Stepping through an operation *)

Arguments insert_Member : simpl never.
Arguments insert_Trainer : simpl never.
Arguments insert_Admin : simpl never.
Arguments insert_HealthMetric : simpl never.
Arguments insert_Room : simpl never.
Arguments insert_Class : simpl never.
Arguments insert_PTSession : simpl never.
Arguments insert_ClassEnrollment : simpl never.
Arguments update_Member : simpl never.
Arguments get_Member : simpl never.
Arguments get_Trainer : simpl never.
Arguments get_Room : simpl never.
Arguments get_Class : simpl never.
Arguments existing_enrollment : simpl never.
Arguments enrollment_count : simpl never.
Arguments classes_with_room_and_trainer : simpl never.
Arguments latest_metric : simpl never.
Arguments strip : simpl never.
Arguments String.eqb : simpl never.
Arguments available_classes : simpl never.
Arguments last : simpl never.
Arguments view_available_classes : simpl never.

Lemma bind_convert_Some {A B : Type} (f : string -> option A) (s : string)
    (a : A) (k : A -> Op B) (w : World) :
  f s = Some a -> bind (convert f s) k w = k a w.
Proof. intros H. unfold bind, convert. rewrite H. reflexivity. Qed.

Lemma bind_convert_None {A B : Type} (f : string -> option A) (s : string)
    (k : A -> Op B) (w : World) :
  f s = None -> bind (convert f s) k w = (Raise ValueError, w).
Proof. intros H. unfold bind, convert. rewrite H. reflexivity. Qed.

Lemma try_convert_Some {A B : Type} (f : string -> option A) (s : string)
    (a : A) (h : Exn -> option (Op (option A))) (k : option A -> Op B)
    (w : World) :
  f s = Some a ->
  bind (try (bind (convert f s) (fun i => ret (Some i))) h) k w = k (Some a) w.
Proof. intros H. unfold bind, try, convert. rewrite H. reflexivity. Qed.

Lemma try_convert_None {A B : Type} (f : string -> option A) (s : string)
    (h : Op (option A)) (k : option A -> Op B) (w : World) :
  f s = None ->
  bind (try (bind (convert f s) (fun i => ret (Some i)))
          (except_ValueError h)) k w
  = bind h k w.
Proof. intros H. unfold bind, try, convert. rewrite H. reflexivity. Qed.

Lemma try_input_convert_Some {A B : Type} (f : string -> option A)
    (s : string) (a : A) (h : Exn -> option (Op (option A)))
    (k : option A -> Op B) (w w' : World) :
  input w = (Ok s, w') ->
  f s = Some a ->
  bind (try (bind input
               (fun s => bind (convert f s) (fun i => ret (Some i)))) h) k w
  = k (Some a) w'.
Proof.
  intros Hi H. unfold bind, try, convert. rewrite Hi, H. reflexivity.
Qed.

Lemma try_input_convert_None {A B : Type} (f : string -> option A)
    (s : string) (h : Op (option A)) (k : option A -> Op B) (w w' : World) :
  input w = (Ok s, w') ->
  f s = None ->
  bind (try (bind input
               (fun s => bind (convert f s) (fun i => ret (Some i))))
          (except_ValueError h)) k w
  = bind h k w'.
Proof.
  intros Hi H. unfold bind, try, convert. rewrite Hi, H. reflexivity.
Qed.

Ltac parse :=
  first
    [ erewrite try_input_convert_Some; [|reflexivity|eassumption]
    | erewrite try_input_convert_None; [|reflexivity|eassumption]
    | erewrite try_convert_Some by eassumption
    | erewrite try_convert_None by eassumption
    | erewrite bind_convert_Some by eassumption
    | erewrite bind_convert_None by eassumption ];
  cbn.

Lemma add_commit_Ok {B : Type} (x : Write) (k : list Z -> Op B) (w : World)
    (id : Z) (db' : DB) :
  pending w = [] ->
  snd (statement x) (store w) = (Ok id, db') ->
  bind (session_add x) (fun _ => bind session_commit k) w
  = k [id] {| store := db'; pending := []; stdin := stdin w;
              stdout := stdout w;
              sql := (sql w ++ [fst (statement x)]) ++ [COMMIT];
              clock := clock w |}.
Proof.
  intros Hp Hs. unfold bind, session_add, session_commit. cbn.
  rewrite Hp. cbn. rewrite Hs. reflexivity.
Qed.

Lemma add_commit_Raise {B : Type} (x : Write) (k : list Z -> Op B)
    (w : World) (e : Exn) (db' : DB) :
  pending w = [] ->
  snd (statement x) (store w) = (Raise e, db') ->
  bind (session_add x) (fun _ => bind session_commit k) w
  = (Raise e, {| store := with_rows (rows (store w)) db'; pending := [];
                 stdin := stdin w; stdout := stdout w;
                 sql := sql w ++ [fst (statement x)]; clock := clock w |}).
Proof.
  intros Hp Hs. unfold bind, session_add, session_commit. cbn.
  rewrite Hp. cbn. rewrite Hs. reflexivity.
Qed.

Lemma try_add_commit_Ok {B : Type} (x : Write) (k : list Z -> Op B)
    (h : Exn -> option (Op B)) (w : World) (id : Z) (db' : DB) :
  pending w = [] ->
  snd (statement x) (store w) = (Ok id, db') ->
  try (bind (session_add x) (fun _ => bind session_commit k)) h w
  = try (k [id]) h
      {| store := db'; pending := []; stdin := stdin w; stdout := stdout w;
         sql := (sql w ++ [fst (statement x)]) ++ [COMMIT];
         clock := clock w |}.
Proof.
  intros Hp Hs. unfold try. now rewrite (add_commit_Ok _ _ _ Hp Hs).
Qed.

Lemma try_add_commit_Raise {B : Type} (x : Write) (k : list Z -> Op B)
    (h : Exn -> option (Op B)) (w : World) (e : Exn) (db' : DB) :
  pending w = [] ->
  snd (statement x) (store w) = (Raise e, db') ->
  try (bind (session_add x) (fun _ => bind session_commit k)) h w
  = match h e with
    | Some h' =>
        h' {| store := with_rows (rows (store w)) db'; pending := [];
              stdin := stdin w; stdout := stdout w;
              sql := sql w ++ [fst (statement x)]; clock := clock w |}
    | None =>
        (Raise e, {| store := with_rows (rows (store w)) db'; pending := [];
                     stdin := stdin w; stdout := stdout w;
                     sql := sql w ++ [fst (statement x)];
                     clock := clock w |})
    end.
Proof.
  intros Hp Hs. unfold try. now rewrite (add_commit_Raise _ _ _ Hp Hs).
Qed.

Lemma try_bind_Ok {A B : Type} (m : Op A) (k : A -> Op B)
    (h : Exn -> option (Op B)) (w w' : World) (a : A) :
  m w = (Ok a, w') -> try (bind m k) h w = try (k a) h w'.
Proof. intros H. unfold try, bind. now rewrite H. Qed.

Lemma try_now {B : Type} (k : DateTime -> Op B) (h : Exn -> option (Op B))
    (w : World) :
  try (bind now k) h w = try (k (clock w)) h w.
Proof. reflexivity. Qed.

(** The statement of the added object is accepted: step over add and commit. *)
Ltac commit_Ok H :=
  first [ erewrite try_add_commit_Ok;
          [|reflexivity|cbn [statement snd store]; exact H]
        | erewrite add_commit_Ok;
          [|reflexivity|cbn [statement snd store]; exact H] ];
  cbn.

(** The statement is rejected: step to the handler. *)
Ltac commit_Raise H :=
  first [ erewrite try_add_commit_Raise;
          [|reflexivity|cbn [statement snd store]; exact H]
        | erewrite add_commit_Raise;
          [|reflexivity|cbn [statement snd store]; exact H] ];
  cbn.

Lemma last_app_nonempty {A : Type} (l l' : list A) (d : A) :
  l' <> [] -> last (l ++ l') d = last l' d.
Proof.
  intros H. induction l as [|a l IH]; [reflexivity|].
  cbn [app]. unfold last; fold (@last A). rewrite IH.
  destruct (l ++ l') eqn:E; [|reflexivity].
  apply app_eq_nil in E. destruct E as [_ E]. contradiction.
Qed.

(** The last line of an output that ends with known lines. *)
Ltac last_line :=
  repeat rewrite app_comm_cons;
  first [ rewrite last_app_nonempty by discriminate; reflexivity
        | reflexivity ].

Lemma bind_query {A B : Type} (q : Tables -> A) (k : A -> Op B) (w : World) :
  bind (query q) k w = k (q (rows (store w))) w.
Proof. reflexivity. Qed.

Lemma for_each_class_row (l : list (Class.t * Room.t * Trainer.t)) :
  forall w : World,
    for_each l
      (fun x =>
         let '(class_obj, room, trainer) := x in
         bind (query (fun T => enrollment_count T (Class.class_id class_obj)))
           (fun enrollment_count =>
              let spaces_available :=
                Class.capacity class_obj - enrollment_count in
              let status := if spaces_available =? 0 then FULL
                            else spots spaces_available in
              print (ClassRow (Class.class_id class_obj)
                       (Class.class_name class_obj)
                       (Class.class_time class_obj)
                       (Trainer.name trainer) (Room.name room)
                       enrollment_count (Class.capacity class_obj) status))) w
    = (Ok tt, printed (map (class_row (rows (store w))) l) w).
Proof.
  induction l as [|[[c r] t] l IH]; intros w.
  - cbn. unfold ret, printed. rewrite app_nil_r. now destruct w.
  - cbn [for_each]. unfold bind at 1. rewrite bind_query.
    unfold print at 1. cbn [fst snd]. rewrite IH. cbn [store rows].
    f_equal. unfold printed. cbn. now rewrite <- app_assoc.
Qed.

Lemma view_available_classes_eq (w : World) :
  view_available_classes w
  = (Ok tt, printed (available_classes (rows (store w))) w).
Proof.
  unfold view_available_classes, available_classes.
  unfold bind at 1. unfold print at 1. rewrite bind_query. cbn [store rows].
  destruct (classes_with_room_and_trainer (rows (store w))) as [|x l] eqn:E.
  - unfold print, printed. cbn. now rewrite <- app_assoc.
  - unfold bind at 1. unfold print at 1. unfold bind at 1. unfold print at 1.
    rewrite for_each_class_row. cbn [store rows]. f_equal.
    unfold printed. cbn. f_equal. now rewrite <- !app_assoc.
Qed.


(** ** The engine's checks *)



Lemma existsb_none {A : Type} (p : A -> bool) (l : list A) :
  (forall x, In x l -> p x = false) -> existsb p l = false.
Proof.
  induction l as [|a l IH]; intros H; [reflexivity|].
  cbn. rewrite (H a (or_introl eq_refl)). apply IH.
  intros x Hx. apply H. now right.
Qed.

(** An INSERT whose checks all pass stores the row under the next key. *)
Lemma INSERT_INTO_accepted (t : Table) (coercion : list (option PgError))
    (constraints : Z -> list (option PgError))
    (add : Z -> Tables -> Tables) (db : DB) :
  first_error coercion = None ->
  first_error (constraints (seq db t)) = None ->
  INSERT_INTO t coercion constraints add db
  = (Ok (seq db t), with_rows (add (seq db t) (rows db)) (nextval t db)).
Proof.
  intros H1 H2. unfold INSERT_INTO. now rewrite H1, H2.
Qed.

(** What a successful INSERT tells. *)
Lemma INSERT_INTO_Ok (t : Table) (coercion : list (option PgError))
    (constraints : Z -> list (option PgError))
    (add : Z -> Tables -> Tables) (db db' : DB) (id : Z) :
  INSERT_INTO t coercion constraints add db = (Ok id, db') ->
  first_error coercion = None /\
  first_error (constraints (seq db t)) = None /\
  id = seq db t /\
  db' = with_rows (add (seq db t) (rows db)) (nextval t db).
Proof.
  unfold INSERT_INTO.
  destruct (first_error coercion); [discriminate|].
  destruct (first_error (constraints (seq db t))); [discriminate|].
  intros [= <- <-]. repeat split.
Qed.

(** A rejected INSERT leaves the rows as they were. *)
Lemma INSERT_INTO_Raise (t : Table) (coercion : list (option PgError))
    (constraints : Z -> list (option PgError))
    (add : Z -> Tables -> Tables) (db db' : DB) (e : Exn) :
  INSERT_INTO t coercion constraints add db = (Raise e, db') ->
  rows db' = rows db /\ (db' = db \/ db' = nextval t db).
Proof.
  unfold INSERT_INTO.
  destruct (first_error coercion); [intros [= <- <-]; auto|].
  destruct (first_error (constraints (seq db t))); [|discriminate].
  intros [= <- <-]. auto.
Qed.

Section Properties.

Context {builtins : Builtins}.

(** ** Registration *)







(** ** Profile update *)

Lemma bind_commit_one {B : Type} (x : Write) (k : list Z -> Op B) (w : World)
    (r : Res Z) (db' : DB) :
  pending w = [x] ->
  snd (statement x) (store w) = (r, db') ->
  bind session_commit k w
  = match r with
    | Ok id =>
        k [id] {| store := db'; pending := []; stdin := stdin w;
                  stdout := stdout w;
                  sql := (sql w ++ [fst (statement x)]) ++ [COMMIT];
                  clock := clock w |}
    | Raise e =>
        (Raise e, {| store := with_rows (rows (store w)) db'; pending := [];
                     stdin := stdin w; stdout := stdout w;
                     sql := sql w ++ [fst (statement x)]; clock := clock w |})
    end.
Proof.
  intros Hp Hs. unfold bind, session_commit. rewrite Hp. cbn. rewrite Hs.
  destruct r; reflexivity.
Qed.

Lemma update_Member_rows (member_id : Z) (name phone : option string)
    (db db' : DB) (r : Res Z) :
  update_Member member_id name phone db = (r, db') ->
  (name = None ->
   map Member.name (Members (rows db')) = map Member.name (Members (rows db)))
  /\
  (phone = None ->
   map Member.phone (Members (rows db'))
   = map Member.phone (Members (rows db))).
Proof.
  unfold update_Member.
  destruct (first_error _); [intros [= <- <-]; auto|].
  destruct (get_Member (rows db) member_id); [|intros [= <- <-]; auto].
  intros [= <- <-]. cbn. split; intros ->; rewrite map_map; apply map_ext;
    intros m; destruct (Member.member_id m =? member_id); reflexivity.
Qed.

(** C6.  Profile update of an existing member.  With both answers blank the
    operation commits nothing, leaves the store as it was and reports
    success.  A blank answer for the name leaves every stored name as it
    was, whatever is typed for the phone, and the other way round. *)
Theorem update_member_profile_blank_keeps_value :
  forall (db : DB) (id_str name_str phone_str : string) (rest : list string)
         (clock : DateTime) (member_id : Z) (member : Member.t),
    py_int id_str = Some member_id ->
    get_Member (rows db) member_id = Some member ->
    let r := run update_member_profile db
               (id_str :: name_str :: phone_str :: rest) clock in
    (strip name_str = "" -> strip phone_str = "" ->
     fst r = Ok tt /\ store (snd r) = db /\ sql (snd r) = [COMMIT] /\
     last (stdout (snd r)) (Line "") = Line "Profile updated successfully!")
    /\
    (strip name_str = "" ->
     map Member.name (Members (rows (store (snd r))))
     = map Member.name (Members (rows db)))
    /\
    (strip phone_str = "" ->
     map Member.phone (Members (rows (store (snd r))))
     = map Member.phone (Members (rows db))).
Proof.
  intros db id_str name_str phone_str rest clock member_id member Hid Hm r.
  subst r. unfold update_member_profile, run, world. cbn.
  parse. rewrite Hm. cbn.
  split; [|split].
  - intros -> ->. cbn. repeat split.
  - intros ->. cbn [or_None].
    destruct (or_None (strip phone_str)) as [p|]; cbn; [|reflexivity].
    unfold set_phone.
    destruct (match Member.phone member with
              | Some old => (old =? p)%string
              | None => false
              end); cbn; [reflexivity|].
    destruct (update_Member (Member.member_id member) None (Some p) db)
      as [res db'] eqn:E.
    unfold try. erewrite bind_commit_one; [|reflexivity|exact E].
    apply update_Member_rows in E. destruct E as [E _].
    destruct res; cbn; auto.
  - intros ->. cbn [or_None].
    destruct (or_None (strip name_str)) as [n|]; cbn; [|reflexivity].
    unfold set_name.
    destruct (Member.name member =? n)%string; cbn; [reflexivity|].
    destruct (update_Member (Member.member_id member) (Some n) None db)
      as [res db'] eqn:E.
    unfold try. erewrite bind_commit_one; [|reflexivity|exact E].
    apply update_Member_rows in E. destruct E as [_ E].
    destruct res; cbn; auto.
Qed.

(** ** Administrators *)

Lemma filter_none {A : Type} (p : A -> bool) (l : list A) :
  (forall x, In x l -> p x = false) -> filter p l = [].
Proof.
  induction l as [|a l IH]; intros H; [reflexivity|].
  cbn. rewrite (H a (or_introl eq_refl)). apply IH.
  intros x Hx. apply H. now right.
Qed.

(** C9.  When no administrator is named "admin" (and none uses the default
    email, as on a fresh store, whose Admin table is empty),
    create_default_admin adds the administrator "admin" whose stored
    password_hash is the text "admin123" itself; from then on
    authenticate_admin accepts "admin" with "admin123" and with nothing
    else. *)
Theorem default_admin_is_created_and_authenticates :
  forall (db : DB) (lines : list string) (clock : DateTime),
    (forall a, In a (Admins (rows db)) -> Admin.username a <> "admin") ->
    (forall a, In a (Admins (rows db)) ->
               Admin.email a <> "admin@fitnessclub.com") ->
    let r := run create_default_admin db lines clock in
    fst r = Ok tt /\
    Admins (rows (store (snd r)))
    = Admins (rows db) ++ [default_admin (seq db TAdmin)] /\
    forall (password : string) (rest : list string) (clock' : DateTime),
      fst (run authenticate_admin (store (snd r))
             ("admin" :: password :: rest) clock')
      = Ok (if (password =? "admin123")%string
            then Some (default_admin (seq db TAdmin)) else None).
Proof.
  intros db lines clock Hu He r.
  assert (Hf : filter (fun a => (Admin.username a =? "admin")%string)
                 (Admins (rows db)) = []).
  { apply filter_none. intros a Ha. apply String.eqb_neq. now apply Hu. }
  assert (Hins :
            insert_Admin (Some "admin") (Some "admin123")
              (Some "System Administrator") (Some "admin@fitnessclub.com") db
            = (Ok (seq db TAdmin),
               with_rows (add_Admin (default_admin (seq db TAdmin)) (rows db))
                 (nextval TAdmin db))).
  { unfold insert_Admin. apply INSERT_INTO_accepted; [reflexivity|].
    cbn [first_error not_null value].
    rewrite !existsb_none; [reflexivity| |];
      intros a Ha; apply String.eqb_neq; auto. }
  assert (Hr : r = (Ok tt,
                    {| store := with_rows
                                  (add_Admin (default_admin (seq db TAdmin))
                                     (rows db)) (nextval TAdmin db);
                       pending := []; stdin := lines;
                       stdout := [Line "Default admin account created (username: admin, password: admin123)."];
                       sql := [INSERT TAdmin; COMMIT]; clock := clock |})).
  { subst r. unfold create_default_admin, run, world.
    rewrite bind_query. cbn [store rows]. rewrite Hf. cbn [first hd_error].
    erewrite add_commit_Ok; [|reflexivity|cbn [statement snd store]; exact Hins].
    reflexivity. }
  rewrite Hr. cbn [fst snd store rows with_rows add_Admin Admins].
  repeat split.
  intros password rest clock'.
  unfold authenticate_admin, run, world. cbn.
  rewrite filter_app, Hf. cbn. rewrite String.eqb_refl. cbn.
  rewrite (String.eqb_sym password).
  destruct ("admin123" =? password)%string; reflexivity.
Qed.

(** ** Class creation *)


(** ** Personal-training sessions *)

Lemma Date_eqb_refl (d : Date) : Date_eqb d d = true.
Proof. unfold Date_eqb. now rewrite !Z.eqb_refl. Qed.

Lemma DateTime_eqb_refl (t : DateTime) : DateTime_eqb t t = true.
Proof. unfold DateTime_eqb. now rewrite Date_eqb_refl, !Z.eqb_refl. Qed.

Lemma DateTime_eqb_eq (a b : DateTime) : DateTime_eqb a b = true -> a = b.
Proof.
  destruct a as [[y m d] h mi s us], b as [[y' m' d'] h' mi' s' us'].
  unfold DateTime_eqb, Date_eqb. cbn.
  rewrite !andb_true_iff, !Z.eqb_eq.
  intros [[[[[[-> ->] ->] ->] ->] ->] ->]. reflexivity.
Qed.

Lemma insert_PTSession_Ok (member_id trainer_id : Z) (session_time : DateTime)
    (status : string) (db db' : DB) (id : Z) :
  insert_PTSession member_id trainer_id session_time (Some status) db
  = (Ok id, db') ->
  int4 trainer_id = None /\
  id = seq db TPTSession /\
  db' = with_rows
          (add_PTSession
             {| PTSession.session_id := seq db TPTSession;
                PTSession.member_id := member_id;
                PTSession.trainer_id := trainer_id;
                PTSession.session_time := session_time;
                PTSession.status := status |} (rows db))
          (nextval TPTSession db).
Proof.
  unfold insert_PTSession. intros H.
  apply INSERT_INTO_Ok in H. destruct H as (Hc & _ & -> & ->).
  repeat split; try assumption.
  revert Hc. cbn [first_error]. destruct (int4 member_id); [discriminate|].
  destruct (int4 trainer_id); [discriminate|reflexivity].
Qed.

(** C5.  book_pt_session, with both identifiers numeric.
    - A session time that [strptime] rejects: the operation reports the
      format and sends nothing to the engine.
    - After a booking that succeeded, a second booking for the same trainer
      at the same time (any member whose identifier fits the column) is
      rejected by the engine with the unique violation of uq_trainer_time;
      the first session stays, with status "scheduled".
    - The operation looks up neither the member nor the trainer: with no
      session of the trainer at that time, the INSERT is sent, and a missing
      member or trainer comes back as a foreign-key violation. *)
Theorem book_pt_session_failures :
  forall (db : DB) (member_str trainer_str time_str : string)
         (rest : list string) (clock : DateTime) (member_id trainer_id : Z),
    py_int member_str = Some member_id ->
    py_int trainer_str = Some trainer_id ->
    let r := run book_pt_session db
               (member_str :: trainer_str :: time_str :: rest) clock in
    (strptime_datetime time_str = None ->
     fst r = Ok tt /\ store (snd r) = db /\ sql (snd r) = [] /\
     stdout (snd r)
     = [Line "=== Book PT Session ===";
        Line "Invalid date/time format. Please use YYYY-MM-DD HH:MM"])
    /\
    (forall (session_time : DateTime) (member_str' trainer_str' time_str'
               : string) (rest' : list string) (clock' : DateTime)
            (member_id' : Z),
       strptime_datetime time_str = Some session_time ->
       last (stdout (snd r)) (Line "") = Line "Session booked." ->
       py_int member_str' = Some member_id' ->
       int4 member_id' = None ->
       py_int trainer_str' = Some trainer_id ->
       strptime_datetime time_str' = Some session_time ->
       let r' := run book_pt_session (store (snd r))
                   (member_str' :: trainer_str' :: time_str' :: rest')
                   clock' in
       fst r' = Ok tt /\
       stdout (snd r')
       = [Line "=== Book PT Session ===";
          ErrorBookingSession (UniqueViolation "uq_trainer_time")] /\
       sql (snd r') = [INSERT TPTSession; ROLLBACK] /\
       rows (store (snd r')) = rows (store (snd r)) /\
       In {| PTSession.session_id := seq db TPTSession;
             PTSession.member_id := member_id;
             PTSession.trainer_id := trainer_id;
             PTSession.session_time := session_time;
             PTSession.status := "scheduled" |}
          (PTSessions (rows (store (snd r')))))
    /\
    (forall (session_time : DateTime) (fkey : string),
       strptime_datetime time_str = Some session_time ->
       int4 member_id = None ->
       int4 trainer_id = None ->
       (forall s, In s (PTSessions (rows db)) ->
                  PTSession.trainer_id s = trainer_id ->
                  PTSession.session_time s <> session_time) ->
       (get_Member (rows db) member_id = None /\
        fkey = "PTSession_member_id_fkey" \/
        get_Member (rows db) member_id <> None /\
        get_Trainer (rows db) trainer_id = None /\
        fkey = "PTSession_trainer_id_fkey") ->
       fst r = Ok tt /\
       stdout (snd r)
       = [Line "=== Book PT Session ===";
          ErrorBookingSession (ForeignKeyViolation fkey)] /\
       sql (snd r) = [INSERT TPTSession; ROLLBACK] /\
       rows (store (snd r)) = rows db).
Proof.
  intros db member_str trainer_str time_str rest clock member_id trainer_id
    Hm Ht r.
  subst r. unfold book_pt_session at 1 2 3 4 5 6 7 8 9 10 11, run, world. cbn.
  parse. parse.
  split; [|split].
  - intros Htime. parse. repeat split.
  - intros session_time member_str' trainer_str' time_str' rest' clock'
      member_id' Htime. parse.
    destruct (insert_PTSession member_id trainer_id session_time
                (Some "scheduled") db) as [res db'] eqn:E.
    destruct res as [id|e].
    + commit_Ok E. intros _ Hm' Hr' Ht' Htime'.
      apply insert_PTSession_Ok in E. destruct E as (Hi & -> & ->).
      unfold book_pt_session. cbn. parse. parse. parse.
      match goal with
      | |- context [try _ _ {| store := ?d |}] =>
          assert (E' : insert_PTSession member_id' trainer_id session_time
                         (Some "scheduled") d
                       = (Raise (IntegrityError
                                   (UniqueViolation "uq_trainer_time")),
                          nextval TPTSession d))
      end.
      { unfold insert_PTSession, INSERT_INTO. cbn [first_error].
        rewrite Hr', Hi. cbn [varchar String.length check Nat.leb].
        cbn [with_rows nextval seq rows add_PTSession PTSessions].
        cbn [not_null first_error]. rewrite existsb_app. cbn [existsb].
        cbn [PTSession.trainer_id PTSession.session_time].
        rewrite Z.eqb_refl, DateTime_eqb_refl. cbn.
        rewrite orb_true_r. reflexivity. }
      commit_Raise E'. repeat split.
      apply in_or_app. right. left. reflexivity.
    + commit_Raise E. destruct e; cbn; intros [=].
  - intros session_time fkey Htime Hi Hi' Hfree Hmissing. parse.
    assert (Hu : existsb
                   (fun s => (PTSession.trainer_id s =? trainer_id)
                             && DateTime_eqb (PTSession.session_time s)
                                  session_time)
                   (PTSessions (rows db)) = false).
    { apply existsb_none. intros s Hs.
      destruct (PTSession.trainer_id s =? trainer_id) eqn:Et; [|reflexivity].
      apply Z.eqb_eq in Et. cbn.
      destruct (DateTime_eqb (PTSession.session_time s) session_time) eqn:Ed;
        [|reflexivity].
      apply DateTime_eqb_eq in Ed. now apply Hfree in Hs. }
    assert (E : insert_PTSession member_id trainer_id session_time
                  (Some "scheduled") db
                = (Raise (IntegrityError (ForeignKeyViolation fkey)),
                   nextval TPTSession db)).
    { unfold insert_PTSession, INSERT_INTO. cbn [first_error].
      rewrite Hi, Hi'. cbn [varchar String.length check Nat.leb].
      cbn [not_null first_error]. rewrite Hu. cbn [negb check].
      destruct Hmissing as [[Hmem ->]|(Hmem & Htr & ->)].
      - rewrite Hmem. reflexivity.
      - destruct (get_Member (rows db) member_id); [|contradiction].
        rewrite Htr. reflexivity. }
    commit_Raise E. repeat split.
Qed.

(** ** Enrollment *)

Lemma bind_view_available_classes {B : Type} (k : unit -> Op B) (w : World) :
  bind view_available_classes k w
  = k tt (printed (available_classes (rows (store w))) w).
Proof. unfold bind. now rewrite view_available_classes_eq. Qed.

Lemma first_filter_None {A : Type} (p : A -> bool) (l : list A) :
  first (filter p l) = None -> existsb p l = false.
Proof.
  induction l as [|a l IH]; [reflexivity|].
  cbn. destruct (p a); [discriminate|]. exact IH.
Qed.

Lemma enrollment_count_add (T : Tables) (e : ClassEnrollment.t)
    (class_id : Z) :
  enrollment_count (add_ClassEnrollment e T) class_id
  = enrollment_count T class_id
    + (if ClassEnrollment.class_id e =? class_id then 1 else 0).
Proof.
  unfold enrollment_count. cbn [add_ClassEnrollment ClassEnrollments].
  rewrite filter_app, length_app. cbn [filter].
  destruct (ClassEnrollment.class_id e =? class_id); cbn [List.length]; lia.
Qed.

(** C4.  signup_for_class for a member and a class that exist.
    - The pair is already enrolled: the operation says so and changes
      nothing.
    - Otherwise, with as many enrollments as the capacity (or more): the
      class is reported full and nothing changes.
    - Otherwise one ClassEnrollment row is inserted, dated with the clock,
      and the operation reports the capacity minus the new count (the
      identifiers fit their columns and the class has its trainer and room,
      as the schema guarantees). *)
Theorem signup_for_class_outcomes :
  forall (db : DB) (member_str class_str : string) (rest : list string)
         (clock : DateTime) (member_id class_id : Z) (member : Member.t)
         (class_obj : Class.t),
    py_int member_str = Some member_id ->
    get_Member (rows db) member_id = Some member ->
    py_int class_str = Some class_id ->
    get_Class (rows db) class_id = Some class_obj ->
    let r := run signup_for_class db (member_str :: class_str :: rest) clock in
    let enrolled := enrollment_count (rows db) class_id in
    (existing_enrollment (rows db) member_id class_id <> None ->
     fst r = Ok tt /\ store (snd r) = db /\ sql (snd r) = [] /\
     last (stdout (snd r)) (Line "")
     = Line "You are already enrolled in this class.")
    /\
    (existing_enrollment (rows db) member_id class_id = None ->
     Class.capacity class_obj <= enrolled ->
     fst r = Ok tt /\ store (snd r) = db /\ sql (snd r) = [] /\
     last (stdout (snd r)) (Line "")
     = ClassIsFull (Class.capacity class_obj) enrolled)
    /\
    (existing_enrollment (rows db) member_id class_id = None ->
     enrolled < Class.capacity class_obj ->
     int4 member_id = None ->
     int4 class_id = None ->
     get_Trainer (rows db) (Class.trainer_id class_obj) <> None ->
     get_Room (rows db) (Class.room_id class_obj) <> None ->
     fst r = Ok tt /\
     rows (store (snd r))
     = add_ClassEnrollment
         {| ClassEnrollment.enrollment_id := seq db TClassEnrollment;
            ClassEnrollment.member_id := member_id;
            ClassEnrollment.class_id := class_id;
            ClassEnrollment.enrollment_date := clock |} (rows db) /\
     sql (snd r) = [INSERT TClassEnrollment; COMMIT] /\
     enrollment_count (rows (store (snd r))) class_id = enrolled + 1 /\
     last (stdout (snd r)) (Line "")
     = SpacesRemaining (Class.capacity class_obj - (enrolled + 1))).
Proof.
  intros db member_str class_str rest clock member_id class_id member
    class_obj Hm Hmem Hc Hcls r enrolled.
  subst r enrolled. unfold signup_for_class, run, world. cbn.
  parse. rewrite Hmem. cbn. rewrite bind_view_available_classes.
  parse. rewrite Hcls. cbn.
  split; [|split].
  - intros He.
    destruct (existing_enrollment (rows db) member_id class_id);
      [|contradiction].
    cbn. repeat split. last_line.
  - intros -> Hfull. cbn. apply Z.leb_le in Hfull. rewrite Hfull.
    cbn. repeat split. last_line.
  - intros He Hroom Hi Hi' Htr Hrm. rewrite He. cbn.
    assert (Hlt : (Class.capacity class_obj
                   <=? enrollment_count (rows db) class_id) = false)
      by now apply Z.leb_gt.
    rewrite Hlt. rewrite try_now. cbn.
    assert (E : insert_ClassEnrollment member_id class_id clock db
                = (Ok (seq db TClassEnrollment),
                   with_rows
                     (add_ClassEnrollment
                        {| ClassEnrollment.enrollment_id :=
                             seq db TClassEnrollment;
                           ClassEnrollment.member_id := member_id;
                           ClassEnrollment.class_id := class_id;
                           ClassEnrollment.enrollment_date := clock |}
                        (rows db))
                     (nextval TClassEnrollment db))).
    { unfold insert_ClassEnrollment. apply INSERT_INTO_accepted.
      - cbn [first_error]. now rewrite Hi, Hi'.
      - cbn [first_error]. unfold existing_enrollment in He.
        rewrite (first_filter_None _ _ He), Hmem, Hcls. reflexivity. }
    commit_Ok E.
    destruct (get_Trainer (rows db) (Class.trainer_id class_obj)) as [t|] eqn:Et;
      [|contradiction].
    destruct (get_Room (rows db) (Class.room_id class_obj)) as [rm|] eqn:Er;
      [|contradiction].
    do 3 (erewrite try_bind_Ok by reflexivity). cbn [store rows with_rows].
    change (get_Trainer (add_ClassEnrollment ?e (rows db)) ?i)
      with (get_Trainer (rows db) i).
    rewrite Et.
    do 3 (erewrite try_bind_Ok by reflexivity). cbn [store rows with_rows].
    change (get_Room (add_ClassEnrollment ?e (rows db)) ?i)
      with (get_Room (rows db) i).
    rewrite Er. cbn.
    repeat split.
    + rewrite enrollment_count_add. cbn. now rewrite Z.eqb_refl.
    + replace (Class.capacity class_obj
               - (enrollment_count (rows db) class_id + 1))
        with (Class.capacity class_obj
              - enrollment_count (rows db) class_id - 1) by lia.
      last_line.
Qed.


(** ** The summary view *)




Lemma filter_key_NoDup {A : Type} (key : A -> Z) (l : list A) (m : A) :
  NoDup (map key l) -> In m l ->
  filter (fun x => key x =? key m) l = [m].
Proof.
  induction l as [|a l IH]; intros Hnd Hin; [destruct Hin|].
  cbn [map] in Hnd. apply NoDup_cons_iff in Hnd. destruct Hnd as [Hna Hnd].
  cbn [filter]. destruct Hin as [->|Hin].
  - rewrite Z.eqb_refl. f_equal. apply filter_none.
    intros x Hx. apply Z.eqb_neq. intros Heq. apply Hna. rewrite <- Heq.
    now apply in_map.
  - destruct (key a =? key m) eqn:E; [|now apply IH].
    apply Z.eqb_eq in E. exfalso. apply Hna. rewrite E. now apply in_map.
Qed.



(** ** The invariant: engine statements *)

Lemma find_app_Some {A : Type} (p : A -> bool) (l l' : list A) (x : A) :
  find p l = Some x -> find p (l ++ l') = Some x.
Proof.
  induction l as [|a l IH]; [discriminate|].
  cbn. destruct (p a); auto.
Qed.

Lemma present_find_app {A : Type} (p : A -> bool) (l l' : list A) :
  present (find p l) = true -> present (find p (l ++ l')) = true.
Proof.
  destruct (find p l) as [x|] eqn:E; [|discriminate].
  intros _. now rewrite (find_app_Some _ _ l' E).
Qed.

Lemma find_key_NoDup {A : Type} (key : A -> Z) (l : list A) (x y : A) :
  NoDup (map key l) -> find (fun a => key a =? key y) l = Some x ->
  In y l -> x = y.
Proof.
  intros Hnd Hf Hy.
  pose proof (filter_key_NoDup key l y Hnd Hy) as Hfil.
  apply find_some in Hf. destruct Hf as [Hx Hk].
  assert (Hin : In x (filter (fun a => key a =? key y) l))
    by (apply filter_In; auto).
  rewrite Hfil in Hin. destruct Hin as [<-|[]]. reflexivity.
Qed.

Lemma NoDup_map_snoc {A : Type} (key : A -> Z) (l : list A) (x : A) :
  NoDup (map key l) -> (forall a, In a l -> key a < key x) ->
  NoDup (map key (l ++ [x])).
Proof.
  intros Hnd Hlt. rewrite map_app. cbn [map].
  apply NoDup_app; [exact Hnd| |].
  - constructor; [intros []|constructor].
  - intros k Hk [<-|[]]. apply in_map_iff in Hk.
    destruct Hk as (a & Hk & Ha). specialize (Hlt a Ha). lia.
Qed.

Lemma seq_le_refl (db : DB) : seq_le db db.
Proof. intros t. lia. Qed.

Lemma seq_le_trans (a b c : DB) : seq_le a b -> seq_le b c -> seq_le a c.
Proof. intros H1 H2 t. specialize (H1 t). specialize (H2 t). lia. Qed.

Lemma seq_le_nextval (t : Table) (db : DB) : seq_le db (nextval t db).
Proof.
  intros t'. cbn. destruct (Table_eqb t t') eqn:E; [|lia].
  destruct t, t'; try discriminate; lia.
Qed.

(** The invariant does not depend on the sequences, as long as they are
    beyond the keys. *)
Lemma invariant_seq_le (db db' : DB) :
  invariant db -> rows db' = rows db -> seq_le db db' -> invariant db'.
Proof.
  intros [Hc Hb] Hr Hs. split; [|now rewrite Hr].
  destruct Hc as [H1 H2 H3 H4 H5 H6 H7]. constructor; rewrite ?Hr; auto.
  - intros m Hm. specialize (H2 m Hm). specialize (Hs TMember). lia.
  - intros c Hc. specialize (H4 c Hc). specialize (Hs TClass). lia.
Qed.


Lemma INSERT_INTO_invariant (t : Table) (coercion : list (option PgError))
    (constraints : Z -> list (option PgError))
    (add : Z -> Tables -> Tables) (db db' : DB) (r : Res Z) :
  invariant db ->
  (first_error (constraints (seq db t)) = None ->
   invariant (with_rows (add (seq db t) (rows db)) (nextval t db))) ->
  INSERT_INTO t coercion constraints add db = (r, db') ->
  invariant db' /\ seq_le db db'.
Proof.
  intros Hinv Hadd. unfold INSERT_INTO.
  destruct (first_error coercion).
  - intros [= <- <-]. split; [exact Hinv|apply seq_le_refl].
  - destruct (first_error (constraints (seq db t))).
    + intros [= <- <-]. split; [|apply seq_le_nextval].
      apply (invariant_seq_le Hinv); [reflexivity|apply seq_le_nextval].
    + intros [= <- <-]. split; [now apply Hadd|].
      intros t'. apply (seq_le_nextval t db t').
Qed.

Ltac unfold_queries :=
  unfold capacity_bounds, get_Member, get_Trainer, get_Room, get_Class,
    enrollment_count in *.

Lemma invariant_add_Member (db : DB) (r : Member.t) :
  invariant db -> Member.member_id r = seq db TMember ->
  invariant (with_rows (add_Member r (rows db)) (nextval TMember db)).
Proof.
  intros [[H1 H2 H3 H4 H5 H6 H7] Hb] Hid. split; [constructor|]; auto.
  - cbn. apply NoDup_map_snoc; [exact H1|].
    intros a Ha. specialize (H2 a Ha). lia.
  - cbn. intros m Hm. apply in_app_or in Hm.
    destruct Hm as [Hm|[<-|[]]]; [specialize (H2 m Hm)|]; lia.
Qed.

Lemma invariant_add_Trainer (db : DB) (r : Trainer.t) :
  invariant db ->
  invariant (with_rows (add_Trainer r (rows db)) (nextval TTrainer db)).
Proof.
  intros [[H1 H2 H3 H4 H5 H6 H7] Hb]. split; [constructor|]; auto.
  unfold_queries. cbn. intros c Hc. apply present_find_app. now apply H5.
Qed.

Lemma invariant_add_Admin (db : DB) (r : Admin.t) :
  invariant db ->
  invariant (with_rows (add_Admin r (rows db)) (nextval TAdmin db)).
Proof.
  intros [[H1 H2 H3 H4 H5 H6 H7] Hb]. split; [constructor|]; auto.
Qed.

Lemma invariant_add_HealthMetric (db : DB) (r : HealthMetric.t) :
  invariant db ->
  invariant (with_rows (add_HealthMetric r (rows db))
               (nextval THealthMetric db)).
Proof.
  intros [[H1 H2 H3 H4 H5 H6 H7] Hb]. split; [constructor|]; auto.
Qed.

Lemma invariant_add_PTSession (db : DB) (r : PTSession.t) :
  invariant db ->
  invariant (with_rows (add_PTSession r (rows db)) (nextval TPTSession db)).
Proof.
  intros [[H1 H2 H3 H4 H5 H6 H7] Hb]. split; [constructor|]; auto.
Qed.

Lemma invariant_add_Room (db : DB) (r : Room.t) :
  invariant db ->
  invariant (with_rows (add_Room r (rows db)) (nextval TRoom db)).
Proof.
  intros [[H1 H2 H3 H4 H5 H6 H7] Hb]. split; [constructor|]; auto.
  - unfold_queries. cbn. intros c Hc. apply present_find_app. now apply H6.
  - unfold_queries. cbn. intros c Hc. destruct (Hb c Hc) as (Hn & room & Hr & Hle).
    split; [exact Hn|]. exists room. split; [|exact Hle].
    now apply find_app_Some.
Qed.

Lemma filter_length_zero {A : Type} (p : A -> bool) (l : list A) :
  (forall x, In x l -> p x = false) -> List.length (filter p l) = 0%nat.
Proof. intros H. now rewrite filter_none. Qed.

Lemma invariant_add_Class (db : DB) (trainer_id room_id : Z)
    (class_name : string) (class_time : DateTime) (capacity : Z) :
  invariant db ->
  check_class_capacity (rows db) room_id capacity = None ->
  0 < capacity ->
  present (get_Trainer (rows db) trainer_id) = true ->
  present (get_Room (rows db) room_id) = true ->
  invariant
    (with_rows
       (add_Class {| Class.class_id := seq db TClass;
                     Class.trainer_id := trainer_id;
                     Class.room_id := room_id;
                     Class.class_name := class_name;
                     Class.class_time := class_time;
                     Class.capacity := capacity |} (rows db))
       (nextval TClass db)).
Proof.
  intros [[H1 H2 H3 H4 H5 H6 H7] Hb] Htrig Hpos Htr Hrm.
  split; [constructor|]; auto.
  - cbn. apply NoDup_map_snoc; [exact H3|]. cbn. exact H4.
  - cbn. intros c Hc. apply in_app_or in Hc.
    destruct Hc as [Hc|[<-|[]]]; [specialize (H4 c Hc)|cbn]; lia.
  - cbn. intros c Hc. apply in_app_or in Hc.
    destruct Hc as [Hc|[<-|[]]]; [now apply H5|exact Htr].
  - cbn. intros c Hc. apply in_app_or in Hc.
    destruct Hc as [Hc|[<-|[]]]; [now apply H6|exact Hrm].
  - unfold_queries. cbn. intros e He. apply present_find_app. now apply H7.
  - unfold_queries. cbn. intros c Hc. apply in_app_or in Hc.
    destruct Hc as [Hc|[<-|[]]]; [now apply Hb|]. cbn.
    split.
    + rewrite filter_length_zero; [cbn; lia|].
      intros e He. apply Z.eqb_neq. intros Heq.
      specialize (H7 e He).
      destruct (find (fun c => Class.class_id c =? ClassEnrollment.class_id e)
                  (Classes (rows db))) as [c'|] eqn:Ef; [|discriminate].
      apply find_some in Ef. destruct Ef as [Hc' Hk]. apply Z.eqb_eq in Hk.
      specialize (H4 c' Hc'). lia.
    + unfold check_class_capacity, get_Room in Htrig.
      destruct (find (fun r => Room.room_id r =? room_id) (Rooms (rows db)))
        as [room|] eqn:Er; [|discriminate].
      exists room. split; [reflexivity|].
      destruct (Room.capacity room <? capacity) eqn:E; [discriminate|].
      now apply Z.ltb_ge.
Qed.

Lemma invariant_add_ClassEnrollment (db : DB) (e : ClassEnrollment.t)
    (class_obj : Class.t) :
  invariant db ->
  get_Class (rows db) (ClassEnrollment.class_id e) = Some class_obj ->
  enrollment_count (rows db) (ClassEnrollment.class_id e)
  < Class.capacity class_obj ->
  invariant (with_rows (add_ClassEnrollment e (rows db))
               (nextval TClassEnrollment db)).
Proof.
  intros [[H1 H2 H3 H4 H5 H6 H7] Hb] Hcls Hlt.
  split; [constructor|]; auto.
  - cbn. intros e' He'. apply in_app_or in He'.
    destruct He' as [He'|[<-|[]]]; [now apply H7|].
    change (present (get_Class (rows db) (ClassEnrollment.class_id e)) = true).
    now rewrite Hcls.
  - intros c Hc. cbn [with_rows rows] in *.
    change (Classes (add_ClassEnrollment e (rows db)))
      with (Classes (rows db)) in Hc.
    destruct (Hb c Hc) as (Hn & room & Hr & Hle).
    split; [|exists room; split; [exact Hr|exact Hle]].
    rewrite enrollment_count_add.
    destruct (ClassEnrollment.class_id e =? Class.class_id c) eqn:E; [|lia].
    apply Z.eqb_eq in E. rewrite E in Hcls, Hlt.
    assert (class_obj = c).
    { unfold get_Class in Hcls.
      eapply (find_key_NoDup Class.class_id); eassumption. }
    subst class_obj. lia.
Qed.

Lemma update_Member_invariant (member_id : Z) (name phone : option string)
    (db db' : DB) (r : Res Z) :
  invariant db ->
  update_Member member_id name phone db = (r, db') ->
  invariant db' /\ seq_le db db'.
Proof.
  intros Hinv. unfold update_Member.
  destruct (first_error _);
    [intros [= <- <-]; split; [exact Hinv|apply seq_le_refl]|].
  destruct (get_Member (rows db) member_id);
    [|intros [= <- <-]; split; [exact Hinv|apply seq_le_refl]].
  intros [= <- <-]. split; [|intros t'; cbn; lia].
  destruct Hinv as [[H1 H2 H3 H4 H5 H6 H7] Hb].
  assert (Hids : forall l : list Member.t,
             map Member.member_id
               (map (fun m =>
                       if Member.member_id m =? member_id
                       then {| Member.member_id := Member.member_id m;
                               Member.name := match name with
                                              | Some v => v
                                              | None => Member.name m
                                              end;
                               Member.email := Member.email m;
                               Member.date_of_birth := Member.date_of_birth m;
                               Member.gender := Member.gender m;
                               Member.phone := match phone with
                                               | Some v => Some v
                                               | None => Member.phone m
                                               end |}
                       else m) l)
             = map Member.member_id l).
  { intros l. rewrite map_map. apply map_ext. intros m.
    destruct (Member.member_id m =? member_id); reflexivity. }
  split; [constructor|]; auto.
  - cbn. rewrite Hids. exact H1.
  - cbn. intros m Hm. apply in_map_iff in Hm. destruct Hm as (m0 & <- & Hm0).
    specialize (H2 m0 Hm0).
    destruct (Member.member_id m0 =? member_id); exact H2.
Qed.

Lemma first_error_cons (a : option PgError) (l : list (option PgError)) :
  first_error (a :: l) = None -> a = None /\ first_error l = None.
Proof. destruct a; [discriminate|]. cbn. auto. Qed.

Lemma check_None (b : bool) (e : PgError) : check b e = None -> b = true.
Proof. destruct b; [reflexivity|discriminate]. Qed.

Lemma INSERT_INTO_seq_le (t : Table) (coercion : list (option PgError))
    (constraints : Z -> list (option PgError))
    (add : Z -> Tables -> Tables) (db db' : DB) (r : Res Z) :
  INSERT_INTO t coercion constraints add db = (r, db') -> seq_le db db'.
Proof.
  unfold INSERT_INTO.
  destruct (first_error coercion); [intros [= <- <-]; apply seq_le_refl|].
  destruct (first_error (constraints (seq db t))); intros [= <- <-];
    intros t'; apply (seq_le_nextval t db t').
Qed.

Lemma statement_seq_le (x : Write) (db db' : DB) (r : Res Z) :
  snd (statement x) db = (r, db') -> seq_le db db'.
Proof.
  destruct x; cbn [statement snd];
    try (unfold insert_Member, insert_Trainer, insert_Admin, insert_Room,
           insert_Class, insert_PTSession, insert_ClassEnrollment;
         apply INSERT_INTO_seq_le).
  - unfold insert_HealthMetric. destruct (numeric_6_2 metric_value);
      apply INSERT_INTO_seq_le.
  - unfold update_Member.
    destruct (first_error _); [intros [= <- <-]; apply seq_le_refl|].
    destruct (get_Member (rows db) member_id); intros [= <- <-];
      intros t'; cbn; lia.
Qed.

(** Every statement of the unit of work other than an enrollment keeps the
    invariant, whether the engine accepts it or not. *)
Lemma statement_invariant (x : Write) (db db' : DB) (r : Res Z) :
  is_enrollment x = false ->
  invariant db ->
  snd (statement x) db = (r, db') ->
  invariant db' /\ seq_le db db'.
Proof.
  intros Hx Hinv. destruct x; try discriminate Hx; cbn [statement snd].
  - unfold insert_Member. apply INSERT_INTO_invariant; [exact Hinv|].
    intros _. now apply invariant_add_Member.
  - unfold insert_Trainer. apply INSERT_INTO_invariant; [exact Hinv|].
    intros _. now apply invariant_add_Trainer.
  - unfold insert_Admin. apply INSERT_INTO_invariant; [exact Hinv|].
    intros _. now apply invariant_add_Admin.
  - unfold insert_HealthMetric. destruct (numeric_6_2 metric_value).
    + apply INSERT_INTO_invariant; [exact Hinv|]. intros _.
      apply (invariant_seq_le Hinv); [reflexivity|apply seq_le_nextval].
    + apply INSERT_INTO_invariant; [exact Hinv|].
      intros _. now apply invariant_add_HealthMetric.
  - unfold insert_Room. apply INSERT_INTO_invariant; [exact Hinv|].
    intros _. now apply invariant_add_Room.
  - unfold insert_Class. apply INSERT_INTO_invariant; [exact Hinv|].
    intros Hc.
    apply first_error_cons in Hc. destruct Hc as [Htrig Hc].
    apply first_error_cons in Hc. destruct Hc as [_ Hc].
    apply first_error_cons in Hc. destruct Hc as [Hpos Hc].
    apply first_error_cons in Hc. destruct Hc as [_ Hc].
    apply first_error_cons in Hc. destruct Hc as [Htr Hc].
    apply first_error_cons in Hc. destruct Hc as [Hrm _].
    apply check_None in Hpos, Htr, Hrm. apply Z.ltb_lt in Hpos.
    now apply invariant_add_Class.
  - unfold insert_PTSession. apply INSERT_INTO_invariant; [exact Hinv|].
    intros _. now apply invariant_add_PTSession.
  - now apply update_Member_invariant.
Qed.


Lemma stable_invariant : stable invariant.
Proof.
  split.
  - intros db db'. apply invariant_seq_le.
  - intros x db r db' Hx Hinv E.
    exact (proj1 (statement_invariant x Hx Hinv E)).
Qed.


(** ** Keeping a stable property: the primitives of an operation *)

Section Stable.

Variable P : DB -> Prop.
Hypothesis HP : stable P.

Lemma flush_stable (l : list Write) :
  forall (db db' : DB) (log log' : list Sql) (r : Res (list Z)),
    (forall x, In x l -> is_enrollment x = false) ->
    P db ->
    flush l db log = (r, db', log') ->
    P db' /\ seq_le db db'.
Proof.
  induction l as [|x l IH]; intros db db' log log' r Hl Hdb.
  - intros [= <- <- <-]. split; [exact Hdb|apply seq_le_refl].
  - cbn [flush].
    destruct (snd (statement x) db) as [[id|e] db1] eqn:E;
      pose proof (proj2 HP x db _ db1 (Hl x (or_introl eq_refl)) Hdb E)
        as Hdb1;
      pose proof (@statement_seq_le x _ _ _ E) as Hle1.
    + destruct (flush l db1 (log ++ [fst (statement x)]))
        as [[[ids|e] db2] log2] eqn:E2;
        destruct (IH _ _ _ _ _ (fun y Hy => Hl y (or_intror Hy)) Hdb1 E2)
          as [Hdb2 Hle2];
        intros [= <- <- <-];
        (split; [exact Hdb2|exact (seq_le_trans Hle1 Hle2)]).
    + intros [= <- <- <-]. split; assumption.
Qed.

Lemma preserves_ret {A : Type} (a : A) : preserves P (ret a).
Proof. intros w H. exact H. Qed.

Lemma preserves_raise {A : Type} (e : Exn) : preserves P (@raise A e).
Proof. intros w H. exact H. Qed.

Lemma preserves_bind {A B : Type} (m : Op A) (k : A -> Op B) :
  preserves P m -> (forall a, preserves P (k a)) -> preserves P (bind m k).
Proof.
  intros Hm Hk w H. unfold bind. specialize (Hm w H).
  destruct (m w) as [[a|e] w']; [now apply Hk|exact Hm].
Qed.

Lemma preserves_try {A : Type} (m : Op A) (h : Exn -> option (Op A)) :
  preserves P m ->
  (forall e, match h e with Some h' => preserves P h' | None => True end) ->
  preserves P (try m h).
Proof.
  intros Hm Hh w H. unfold try. specialize (Hm w H).
  destruct (m w) as [[a|e] w']; [exact Hm|].
  specialize (Hh e). destruct (h e); [now apply Hh|exact Hm].
Qed.

Lemma preserves_print (m : Msg) : preserves P (print m).
Proof. intros w H. exact H. Qed.

Lemma preserves_input : preserves P input.
Proof. intros w H. unfold input. destruct (stdin w); exact H. Qed.

Lemma preserves_now : preserves P now.
Proof. intros w H. exact H. Qed.

Lemma preserves_query {A : Type} (q : Tables -> A) : preserves P (query q).
Proof. intros w H. exact H. Qed.

Lemma preserves_convert {A : Type} (f : string -> option A) (s : string) :
  preserves P (convert f s).
Proof. intros w H. unfold convert. destruct (f s); exact H. Qed.

Lemma preserves_attr {A B : Type} (o : option A) (f : A -> B) :
  preserves P (attr o f).
Proof. intros w H. destruct o; exact H. Qed.

Lemma preserves_session_add (x : Write) :
  is_enrollment x = false -> preserves P (session_add x).
Proof.
  intros Hx w [Hdb Hp]. split; [exact Hdb|].
  cbn. intros y Hy. apply in_app_or in Hy.
  destruct Hy as [Hy|[<-|[]]]; auto.
Qed.

Lemma assign_no_enrollment (member_id : Z) (name phone : option string)
    (l : list Write) :
  (forall x, In x l -> is_enrollment x = false) ->
  forall x, In x (assign member_id name phone l) -> is_enrollment x = false.
Proof.
  induction l as [|y l IH]; intros Hl x Hx.
  - destruct Hx as [<-|[]]. reflexivity.
  - assert (Hy := Hl y (or_introl eq_refl)).
    assert (Hl' : forall x, In x l -> is_enrollment x = false)
      by (intros z Hz; apply Hl; now right).
    destruct y; cbn [assign] in Hx;
      try (destruct Hx as [<-|Hx]; [exact Hy|now apply IH]).
    destruct (member_id0 =? member_id).
    + destruct Hx as [<-|Hx]; [reflexivity|now apply Hl'].
    + destruct Hx as [<-|Hx]; [reflexivity|now apply IH].
Qed.

Lemma preserves_set_name (member : Member.t) (name : string) :
  preserves P (set_name member name).
Proof.
  intros w [Hdb Hp]. unfold set_name.
  destruct (Member.name member =? name)%string; [now split|].
  split; [exact Hdb|]. cbn. now apply assign_no_enrollment.
Qed.

Lemma preserves_set_phone (member : Member.t) (phone : string) :
  preserves P (set_phone member phone).
Proof.
  intros w [Hdb Hp]. unfold set_phone.
  destruct (match Member.phone member with
            | Some old => (old =? phone)%string
            | None => false
            end); [now split|].
  split; [exact Hdb|]. cbn. now apply assign_no_enrollment.
Qed.

Lemma preserves_session_commit : preserves P session_commit.
Proof.
  intros w [Hdb Hp]. unfold session_commit.
  destruct (flush (pending w) (store w) (sql w)) as [[[ids|e] db'] log] eqn:E;
    destruct (flush_stable (pending w) (sql w) Hp Hdb E) as [Hdb' Hle].
  - split; [exact Hdb'|intros x []].
  - split; [|intros x []]. cbn.
    apply (proj1 HP (store w)); [exact Hdb|reflexivity|exact Hle].
Qed.

Lemma preserves_session_rollback : preserves P session_rollback.
Proof. intros w [Hdb Hp]. split; [exact Hdb|intros x []]. Qed.

Lemma preserves_for_each {A : Type} (l : list A) (body : A -> Op unit) :
  (forall x, preserves P (body x)) -> preserves P (for_each l body).
Proof.
  intros Hb. induction l as [|x l IH]; [apply preserves_ret|].
  cbn [for_each]. apply preserves_bind; [apply Hb|intros _; exact IH].
Qed.

Lemma preserves_view_available_classes :
  preserves P view_available_classes.
Proof. intros w H. rewrite view_available_classes_eq. exact H. Qed.

End Stable.

(** ** Keeping a stable property: the operations *)


Ltac preserve :=
  repeat match goal with
    | |- preserves _ (bind _ _) => apply preserves_bind; [|intros ?]
    | |- preserves _ (try _ _) =>
        apply preserves_try;
        [|let e := fresh "e" in
          intros e; try unfold except_ValueError; destruct e; cbn beta iota;
          try exact I]
    | |- preserves _ (ret _) => apply preserves_ret
    | |- preserves _ (raise _) => apply preserves_raise
    | |- preserves _ (print _) => apply preserves_print
    | |- preserves _ input => apply preserves_input
    | |- preserves _ now => apply preserves_now
    | |- preserves _ (query _) => apply preserves_query
    | |- preserves _ (convert _ _) => apply preserves_convert
    | |- preserves _ (attr _ _) => apply preserves_attr
    | |- preserves _ (set_name _ _) => apply preserves_set_name
    | |- preserves _ (set_phone _ _) => apply preserves_set_phone
    | |- preserves _ session_commit =>
        apply preserves_session_commit; assumption
    | |- preserves _ session_rollback => apply preserves_session_rollback
    | |- preserves _ view_available_classes =>
        apply preserves_view_available_classes
    | |- preserves _ (session_add _) =>
        apply preserves_session_add; reflexivity
    | |- preserves _ (for_each _ _) => apply preserves_for_each; intros ?
    | |- preserves _ (match ?x with _ => _ end) => destruct x
    end.

Lemma preserves_register_member (P : DB -> Prop) :
  stable P -> preserves P register_member.
Proof. intros HP. unfold register_member. preserve. Qed.

Lemma preserves_update_member_profile (P : DB -> Prop) :
  stable P -> preserves P update_member_profile.
Proof. intros HP. unfold update_member_profile. preserve. Qed.

Lemma preserves_add_health_metric (P : DB -> Prop) :
  stable P -> preserves P add_health_metric.
Proof. intros HP. unfold add_health_metric. preserve. Qed.

Lemma preserves_book_pt_session (P : DB -> Prop) :
  stable P -> preserves P book_pt_session.
Proof. intros HP. unfold book_pt_session. preserve. Qed.

Lemma preserves_view_trainer_schedule (P : DB -> Prop) :
  stable P -> preserves P view_trainer_schedule.
Proof. intros HP. unfold view_trainer_schedule. preserve. Qed.

Lemma preserves_member_lookup (P : DB -> Prop) :
  stable P -> preserves P member_lookup.
Proof. intros HP. unfold member_lookup. preserve. Qed.

Lemma preserves_create_trainer (P : DB -> Prop) :
  stable P -> preserves P create_trainer.
Proof. intros HP. unfold create_trainer. preserve. Qed.

Lemma preserves_create_room (P : DB -> Prop) :
  stable P -> preserves P create_room.
Proof. intros HP. unfold create_room. preserve. Qed.

Lemma preserves_create_class (P : DB -> Prop) :
  stable P -> preserves P create_class.
Proof. intros HP. unfold create_class. preserve. Qed.

Lemma preserves_authenticate_admin (P : DB -> Prop) :
  stable P -> preserves P authenticate_admin.
Proof. intros HP. unfold authenticate_admin. preserve. Qed.

Lemma preserves_create_default_admin (P : DB -> Prop) :
  stable P -> preserves P create_default_admin.
Proof. intros HP. unfold create_default_admin. preserve. Qed.

Lemma preserves_operation (P : DB -> Prop) (c : Command) :
  stable P -> c <> SignupForClass -> preserves P (operation c).
Proof.
  intros HP Hc. destruct c; cbn [operation]; try contradiction;
    first [ now apply preserves_register_member
          | now apply preserves_update_member_profile
          | now apply preserves_add_health_metric
          | now apply preserves_book_pt_session
          | apply preserves_view_available_classes
          | now apply preserves_view_trainer_schedule
          | now apply preserves_member_lookup
          | now apply preserves_create_trainer
          | now apply preserves_create_room
          | now apply preserves_create_class
          | now apply preserves_create_default_admin
          | (apply preserves_bind;
             [now apply preserves_authenticate_admin
             |intros ?; apply preserves_ret]) ].
Qed.


(** ** Operations that send nothing, and the enrollment *)

Lemma steady_print (m : Msg) : steady (print m).
Proof. intros w. now split. Qed.

Lemma steady_ret {A : Type} (a : A) : steady (ret a).
Proof. intros w. now split. Qed.

Lemma steady_input : steady input.
Proof. intros w. unfold input. destruct (stdin w); now split. Qed.

Lemma steady_query {A : Type} (q : Tables -> A) : steady (query q).
Proof. intros w. now split. Qed.

Lemma steady_attr {A B : Type} (o : option A) (f : A -> B) :
  steady (attr o f).
Proof. intros w. destruct o; now split. Qed.

Lemma steady_convert {A : Type} (f : string -> option A) (s : string) :
  steady (convert f s).
Proof. intros w. unfold convert. destruct (f s); now split. Qed.

Lemma steady_session_rollback : steady session_rollback.
Proof. intros w. now split. Qed.

Lemma steady_bind {A B : Type} (m : Op A) (k : A -> Op B) :
  steady m -> (forall a, steady (k a)) -> steady (bind m k).
Proof.
  intros Hm Hk w. unfold bind. destruct (Hm w) as [Hs Hp].
  destruct (m w) as [[a|e] w']; [|now split].
  cbn in Hs, Hp. destruct (Hk a w') as [Hs' Hp'].
  split; [congruence|auto].
Qed.

Lemma steady_try {A : Type} (m : Op A) (h : Exn -> option (Op A)) :
  steady m ->
  (forall e, match h e with Some h' => steady h' | None => True end) ->
  steady (try m h).
Proof.
  intros Hm Hh w. unfold try. destruct (Hm w) as [Hs Hp].
  destruct (m w) as [[a|e] w']; [now split|].
  specialize (Hh e). destruct (h e) as [h'|]; [|now split].
  cbn in Hs, Hp. destruct (Hh w') as [Hs' Hp'].
  split; [congruence|auto].
Qed.

Lemma steady_view_available_classes : steady view_available_classes.
Proof. intros w. rewrite view_available_classes_eq. now split. Qed.

Ltac steadily :=
  repeat match goal with
    | |- steady (bind _ _) => apply steady_bind; [|intros ?]
    | |- steady (try _ _) =>
        apply steady_try;
        [|let e := fresh "e" in
          intros e; try unfold except_ValueError; destruct e; cbn beta iota;
          try exact I]
    | |- steady (ret _) => apply steady_ret
    | |- steady (print _) => apply steady_print
    | |- steady input => apply steady_input
    | |- steady (query _) => apply steady_query
    | |- steady (attr _ _) => apply steady_attr
    | |- steady (convert _ _) => apply steady_convert
    | |- steady session_rollback => apply steady_session_rollback
    | |- steady view_available_classes =>
        apply steady_view_available_classes
    | |- steady (match ?x with _ => _ end) => destruct x
    end.

Lemma ends_steady {A : Type} (s0 : DB) (Q : DB -> Prop) (m : Op A) :
  Q s0 -> steady m -> ends s0 Q m.
Proof. intros HQ Hm w Hs _. destruct (Hm w) as [-> _]. now rewrite Hs. Qed.

Lemma ends_bind {A B : Type} (s0 : DB) (Q : DB -> Prop) (m : Op A)
    (k : A -> Op B) :
  Q s0 -> steady m -> (forall a, ends s0 Q (k a)) -> ends s0 Q (bind m k).
Proof.
  intros HQ Hm Hk w Hs Hp. unfold bind. destruct (Hm w) as [Hs' Hp'].
  destruct (m w) as [[a|e] w']; cbn in Hs', Hp'.
  - apply Hk; [congruence|auto].
  - cbn. now rewrite Hs', Hs.
Qed.

Lemma ends_bind_query {A B : Type} (s0 : DB) (Q : DB -> Prop)
    (q : Tables -> A) (k : A -> Op B) :
  ends s0 Q (k (q (rows s0))) -> ends s0 Q (bind (query q) k).
Proof. intros Hk w Hs Hp. rewrite bind_query, Hs. now apply Hk. Qed.

(** signup_for_class reaches the enrollment only for a class that exists
    and has fewer enrollments than its capacity; on every other path it
    sends nothing to the engine. *)
Lemma ends_signup_for_class (s0 : DB) (Q : DB -> Prop) :
  Q s0 ->
  (forall (member_id class_id : Z) (class_obj : Class.t),
     get_Class (rows s0) class_id = Some class_obj ->
     enrollment_count (rows s0) class_id < Class.capacity class_obj ->
     ends s0 Q
       (try (bind now (fun enrollment_date =>
             bind (session_add
                     (NewClassEnrollment member_id class_id enrollment_date))
               (fun _ =>
             bind session_commit (fun _ =>
             bind (print (SuccessfullyEnrolledIn (Class.class_name class_obj)))
               (fun _ =>
             bind (print (EnrolledClassTime (Class.class_time class_obj)))
               (fun _ =>
             bind (query (fun T => get_Trainer T (Class.trainer_id class_obj)))
               (fun trainer =>
             bind (attr trainer Trainer.name) (fun trainer_name =>
             bind (print (EnrolledTrainer trainer_name)) (fun _ =>
             bind (query (fun T => get_Room T (Class.room_id class_obj)))
               (fun room =>
             bind (attr room Room.name) (fun room_name =>
             bind (print (EnrolledRoom room_name)) (fun _ =>
             print (SpacesRemaining
                      (Class.capacity class_obj
                       - enrollment_count (rows s0) class_id - 1))))))))))))))
          (fun e =>
             Some match e with
                  | IntegrityError orig =>
                      bind session_rollback
                        (fun _ => print (ErrorEnrollingInClass orig))
                  | _ => bind session_rollback
                           (fun _ => print (UnexpectedError e))
                  end))) ->
  ends s0 Q signup_for_class.
Proof.
  intros HQ Hleaf. unfold signup_for_class.
  apply ends_bind; [exact HQ|steadily|intros _].
  apply ends_bind; [exact HQ|steadily|intros [member_id|]];
    [|apply ends_steady; [exact HQ|steadily]].
  apply ends_bind_query.
  destruct (get_Member (rows s0) member_id) as [member|];
    [|apply ends_steady; [exact HQ|steadily]].
  apply ends_bind; [exact HQ|steadily|intros _].
  apply ends_bind; [exact HQ|steadily|intros [class_id|]];
    [|apply ends_steady; [exact HQ|steadily]].
  apply ends_bind_query.
  destruct (get_Class (rows s0) class_id) as [class_obj|] eqn:Hcls;
    [|apply ends_steady; [exact HQ|steadily]].
  apply ends_bind_query.
  destruct (existing_enrollment (rows s0) member_id class_id);
    [apply ends_steady; [exact HQ|steadily]|].
  apply ends_bind_query.
  destruct (Class.capacity class_obj <=? enrollment_count (rows s0) class_id)
    eqn:Hfull; [apply ends_steady; [exact HQ|steadily]|].
  apply Z.leb_gt in Hfull.
  now apply Hleaf.
Qed.

(** The enrollment, sent below capacity only, under a continuation [k] and
    handlers [h] that keep the invariant. *)
Lemma ends_enroll_invariant {B : Type} (s0 : DB) (member_id class_id : Z)
    (class_obj : Class.t) (k : list Z -> Op B) (h : Exn -> option (Op B)) :
  invariant s0 ->
  get_Class (rows s0) class_id = Some class_obj ->
  enrollment_count (rows s0) class_id < Class.capacity class_obj ->
  (forall ids, preserves invariant (k ids)) ->
  (forall e, match h e with
             | Some h' => preserves invariant h'
             | None => True
             end) ->
  ends s0 invariant
    (try (bind now
            (fun d =>
               bind (session_add (NewClassEnrollment member_id class_id d))
                 (fun _ => bind session_commit k))) h).
Proof.
  intros Hinv Hcls Hlt Hk Hh w Hs Hp. rewrite try_now.
  destruct (insert_ClassEnrollment member_id class_id (clock w) s0)
    as [[id|e] db'] eqn:E.
  - erewrite try_add_commit_Ok;
      [|exact Hp|cbn [statement snd]; rewrite Hs; exact E].
    apply (@preserves_try invariant _ (k [id]) h (Hk [id]) Hh).
    split; [|intros x []]. cbn [store].
    unfold insert_ClassEnrollment in E.
    apply INSERT_INTO_invariant in E; [apply E|exact Hinv|].
    intros _. now apply invariant_add_ClassEnrollment with class_obj.
  - erewrite try_add_commit_Raise;
      [|exact Hp|cbn [statement snd]; rewrite Hs; exact E].
    assert (Hw : forall W, store W = with_rows (rows (store w)) db' ->
                           pending W = [] -> holds invariant W).
    { intros W HW HP. split; [|rewrite HP; intros x []]. rewrite HW, Hs.
      unfold insert_ClassEnrollment in E.
      apply INSERT_INTO_Raise in E. destruct E as [_ [->| ->]].
      - now destruct s0.
      - apply (invariant_seq_le Hinv); [reflexivity|apply seq_le_nextval]. }
    specialize (Hh e). destruct (h e) as [h'|].
    + apply Hh. now apply Hw.
    + now apply Hw.
Qed.


Lemma signup_for_class_invariant (db : DB) (lines : list string)
    (clock : DateTime) :
  invariant db -> invariant (after SignupForClass lines clock db).
Proof.
  intros Hinv. unfold after, run. cbn [operation].
  pose proof stable_invariant as HP.
  apply (@ends_signup_for_class db invariant Hinv); [|reflexivity..].
  intros member_id class_id class_obj Hcls Hlt.
  apply ends_enroll_invariant with class_obj; try assumption.
  - intros ids. preserve.
  - intros e. destruct e; cbn beta iota; preserve.
Qed.


(** Every operation, started with nothing pending on a store that has the
    invariant, leaves a store that has it. *)
Lemma operation_invariant (c : Command) (lines : list string)
    (clock : DateTime) (db : DB) :
  invariant db -> invariant (after c lines clock db).
Proof.
  intros Hinv.
  assert (Hc : c = SignupForClass \/ c <> SignupForClass)
    by (destruct c; auto; right; discriminate).
  destruct Hc as [->|Hc]; [now apply signup_for_class_invariant|].
  unfold after, run.
  apply (@preserves_operation invariant c stable_invariant Hc).
  split; [exact Hinv|].
  intros x [].
Qed.


Lemma invariant_empty_db : invariant empty_db.
Proof.
  split; [constructor|]; cbn; try (intros ? []); constructor.
Qed.

Lemma reachable_invariant (db : DB) : reachable db -> invariant db.
Proof.
  induction 1 as [|c lines clock db _ IH];
    [exact invariant_empty_db|now apply operation_invariant].
Qed.

(** ** The capacity bounds *)




(** ** Exceptions that leave an operation *)

Lemma lets_out_weaken {A : Type} (E E' : Exn -> Prop) (m : Op A) :
  (forall e, E e -> E' e) -> lets_out E m -> lets_out E' m.
Proof.
  intros HE Hm w. specialize (Hm w). destruct (fst (m w)); [exact I|].
  destruct Hm as [Hm|Hm]; [left; now apply HE|now right].
Qed.



Lemma lets_out_raise {A : Type} (E : Exn -> Prop) (e : Exn) :
  E e -> lets_out E (@raise A e).
Proof. intros He w. now left. Qed.






Lemma lets_out_attr {A B : Type} (E : Exn -> Prop) (obj : option A)
    (f : A -> B) :
  E AttributeError -> lets_out E (attr obj f).
Proof. intros He w. destruct obj; cbn; auto. Qed.











(** ** Operations that only read *)

Lemma sends_nothing_ret {A : Type} (a : A) : sends_nothing (ret a).
Proof. intros w. now repeat split. Qed.

Lemma sends_nothing_raise {A : Type} (e : Exn) : sends_nothing (@raise A e).
Proof. intros w. now repeat split. Qed.

Lemma sends_nothing_print (m : Msg) : sends_nothing (print m).
Proof. intros w. now repeat split. Qed.

Lemma sends_nothing_input : sends_nothing input.
Proof. intros w. unfold input. destruct (stdin w); now repeat split. Qed.

Lemma sends_nothing_query {A : Type} (q : Tables -> A) :
  sends_nothing (query q).
Proof. intros w. now repeat split. Qed.

Lemma sends_nothing_convert {A : Type} (f : string -> option A) (s : string) :
  sends_nothing (convert f s).
Proof. intros w. unfold convert. destruct (f s); now repeat split. Qed.

Lemma sends_nothing_bind {A B : Type} (m : Op A) (k : A -> Op B) :
  sends_nothing m -> (forall a, sends_nothing (k a)) ->
  sends_nothing (bind m k).
Proof.
  intros Hm Hk w. unfold bind. destruct (Hm w) as (H1 & H2 & H3).
  destruct (m w) as [[a|e] w']; cbn [snd] in *; [|now repeat split].
  destruct (Hk a w') as (K1 & K2 & K3).
  repeat split; congruence.
Qed.

Lemma sends_nothing_for_each {A : Type} (l : list A) (body : A -> Op unit) :
  (forall x, sends_nothing (body x)) -> sends_nothing (for_each l body).
Proof.
  intros Hb. induction l as [|x l IH]; [apply sends_nothing_ret|].
  cbn [for_each]. apply sends_nothing_bind; [apply Hb|intros _; exact IH].
Qed.

Lemma sends_nothing_view_available_classes :
  sends_nothing view_available_classes.
Proof. intros w. rewrite view_available_classes_eq. now repeat split. Qed.

Ltac quiet :=
  repeat match goal with
    | |- sends_nothing (bind _ _) => apply sends_nothing_bind; [|intros ?]
    | |- sends_nothing (ret _) => apply sends_nothing_ret
    | |- sends_nothing (print _) => apply sends_nothing_print
    | |- sends_nothing input => apply sends_nothing_input
    | |- sends_nothing (query _) => apply sends_nothing_query
    | |- sends_nothing (convert _ _) => apply sends_nothing_convert
    | |- sends_nothing (for_each _ _) =>
        apply sends_nothing_for_each; intros ?
    | |- sends_nothing (match ?x with _ => _ end) => destruct x
    end.

Lemma sends_nothing_view_trainer_schedule :
  sends_nothing view_trainer_schedule.
Proof. unfold view_trainer_schedule. quiet. Qed.

Lemma sends_nothing_member_lookup : sends_nothing member_lookup.
Proof. unfold member_lookup. quiet. Qed.

Lemma sends_nothing_authenticate_admin : sends_nothing authenticate_admin.
Proof. unfold authenticate_admin. quiet. Qed.

(** X2.  The operations that show data never write: whatever is typed,
    and whether they return or end with an exception,
    view_available_classes, view_trainer_schedule, member_lookup and
    authenticate_admin leave the store and the session's unit of work as
    they were and send no statement. *)
Theorem read_only_operations_send_nothing :
  sends_nothing view_available_classes /\
  sends_nothing view_trainer_schedule /\
  sends_nothing member_lookup /\
  sends_nothing authenticate_admin.
Proof.
  repeat split;
    first [ apply sends_nothing_view_available_classes
          | apply sends_nothing_view_trainer_schedule
          | apply sends_nothing_member_lookup
          | apply sends_nothing_authenticate_admin ].
Qed.

(** ** The lines an operation reads *)

Lemma reads_lines_same {A : Type} (m : Op A) :
  (forall w, stdin (snd (m w)) = stdin w) -> reads_lines m.
Proof. intros H w. exists []. now rewrite H. Qed.

Lemma reads_lines_input : reads_lines input.
Proof.
  intros w. unfold input. destruct (stdin w) as [|l rest] eqn:E; cbn.
  - exists []. now rewrite E.
  - now exists [l].
Qed.

Lemma reads_lines_bind {A B : Type} (m : Op A) (k : A -> Op B) :
  reads_lines m -> (forall a, reads_lines (k a)) -> reads_lines (bind m k).
Proof.
  intros Hm Hk w. unfold bind. destruct (Hm w) as [t1 H1].
  destruct (m w) as [[a|e] w']; cbn [snd] in *; [|now exists t1].
  destruct (Hk a w') as [t2 H2]. exists (t1 ++ t2).
  now rewrite <- app_assoc, <- H2.
Qed.

Lemma reads_lines_try {A : Type} (m : Op A) (h : Exn -> option (Op A)) :
  reads_lines m ->
  (forall e, match h e with Some h' => reads_lines h' | None => True end) ->
  reads_lines (try m h).
Proof.
  intros Hm Hh w. unfold try. destruct (Hm w) as [t1 H1].
  destruct (m w) as [[a|e] w']; cbn [snd] in *; [now exists t1|].
  specialize (Hh e). destruct (h e) as [h'|]; [|now exists t1].
  destruct (Hh w') as [t2 H2]. exists (t1 ++ t2).
  now rewrite <- app_assoc, <- H2.
Qed.

Lemma reads_lines_for_each {A : Type} (l : list A) (body : A -> Op unit) :
  (forall x, reads_lines (body x)) -> reads_lines (for_each l body).
Proof.
  intros Hb. induction l as [|x l IH]; [now apply reads_lines_same|].
  cbn [for_each]. apply reads_lines_bind; [apply Hb|intros _; exact IH].
Qed.

Lemma reads_lines_session_commit : reads_lines session_commit.
Proof.
  apply reads_lines_same. intros w. unfold session_commit.
  now destruct (flush _ _ _) as [[[ids|e] db'] log].
Qed.

Lemma reads_lines_convert {A : Type} (f : string -> option A) (s : string) :
  reads_lines (convert f s).
Proof. apply reads_lines_same. intros w. unfold convert. now destruct (f s). Qed.

Lemma reads_lines_attr {A B : Type} (obj : option A) (f : A -> B) :
  reads_lines (attr obj f).
Proof. apply reads_lines_same. intros w. now destruct obj. Qed.

Lemma reads_lines_set_name (member : Member.t) (v : string) :
  reads_lines (set_name member v).
Proof.
  apply reads_lines_same. intros w. unfold set_name.
  now destruct (_ =? _)%string.
Qed.

Lemma reads_lines_set_phone (member : Member.t) (v : string) :
  reads_lines (set_phone member v).
Proof.
  apply reads_lines_same. intros w. unfold set_phone.
  now destruct (match Member.phone member with Some _ => _ | None => _ end).
Qed.

Lemma reads_lines_view_available_classes :
  reads_lines view_available_classes.
Proof.
  apply reads_lines_same. intros w. now rewrite view_available_classes_eq.
Qed.

Ltac lines :=
  repeat match goal with
    | |- reads_lines (bind _ _) => apply reads_lines_bind; [|intros ?]
    | |- reads_lines (try _ _) =>
        apply reads_lines_try;
        [|let e := fresh "e" in
          intros e; try unfold except_ValueError; destruct e; cbn beta iota;
          try exact I]
    | |- reads_lines input => apply reads_lines_input
    | |- reads_lines (convert _ _) => apply reads_lines_convert
    | |- reads_lines (attr _ _) => apply reads_lines_attr
    | |- reads_lines (set_name _ _) => apply reads_lines_set_name
    | |- reads_lines (set_phone _ _) => apply reads_lines_set_phone
    | |- reads_lines session_commit => apply reads_lines_session_commit
    | |- reads_lines view_available_classes =>
        apply reads_lines_view_available_classes
    | |- reads_lines (for_each _ _) => apply reads_lines_for_each; intros ?
    | |- reads_lines (match ?x with _ => _ end) => destruct x
    | |- reads_lines _ => apply reads_lines_same; reflexivity
    end.

Lemma reads_lines_operation (c : Command) : reads_lines (operation c).
Proof.
  destruct c; cbn [operation].
  - unfold register_member. lines.
  - unfold update_member_profile. lines.
  - unfold add_health_metric. lines.
  - unfold book_pt_session. lines.
  - apply reads_lines_view_available_classes.
  - unfold signup_for_class. lines.
  - unfold view_trainer_schedule. lines.
  - unfold member_lookup. lines.
  - unfold authenticate_admin. lines.
  - unfold create_trainer. lines.
  - unfold create_room. lines.
  - unfold create_class. lines.
  - unfold create_default_admin. lines.
Qed.

(** ** The menus *)

Lemma bind_same_after {A B : Type} (op : Op A) (k k' : Op B) (w : World) :
  reads_lines op ->
  (forall w', (List.length (stdin w') <= List.length (stdin w))%nat ->
              k w' = k' w') ->
  bind op (fun _ => k) w = bind op (fun _ => k') w.
Proof.
  intros Hop Hk. unfold bind. destruct (Hop w) as [typed Ht].
  destruct (op w) as [[a|e] w']; [|reflexivity]. cbn [snd] in Ht.
  apply Hk. rewrite Ht, length_app. lia.
Qed.

Lemma bind_Ok_after {A : Type} (op : Op A) (k : Op unit) (w : World) :
  reads_lines op ->
  fst (bind op (fun _ => k) w) = Ok tt ->
  exists typed w', stdin w = typed ++ stdin w' /\ fst (k w') = Ok tt.
Proof.
  intros Hop. unfold bind. destruct (Hop w) as [typed Ht].
  destruct (op w) as [[a|e] w']; [|discriminate]. cbn [snd] in Ht.
  intros Hk. now exists typed, w'.
Qed.

Lemma bind_print {B : Type} (m : Msg) (k : unit -> Op B) (w : World) :
  bind (print m) k w = k tt (printed [m] w).
Proof. reflexivity. Qed.

Lemma printed_twice (ms ms' : list Msg) (w : World) :
  printed ms' (printed ms w) = printed (ms ++ ms') w.
Proof. unfold printed. cbn. now rewrite app_assoc. Qed.

Lemma bind_input {B : Type} (k : string -> Op B) (w : World) :
  bind input k w
  = match stdin w with
    | [] => (Raise EOFError, w)
    | l :: rest => k l (asked [] rest w)
    end.
Proof.
  unfold bind, input, asked. destruct (stdin w); [reflexivity|].
  now rewrite app_nil_r.
Qed.

Lemma asked_printed (ms ms' : list Msg) (rest : list string) (w : World) :
  asked ms' rest (printed ms w) = asked (ms ++ ms') rest w.
Proof. unfold asked, printed. cbn. now rewrite app_assoc. Qed.

Lemma member_menu_loop_turn (n : nat) (w : World) :
  member_menu_loop (S n) w
  = match stdin w with
    | [] => (Raise EOFError, printed member_menu_lines w)
    | choice :: rest =>
        let w1 := asked member_menu_lines rest w in
        if (choice =? "1")%string then
          bind register_member (fun _ => member_menu_loop n) w1
        else if (choice =? "2")%string then
          bind update_member_profile (fun _ => member_menu_loop n) w1
        else if (choice =? "3")%string then
          bind add_health_metric (fun _ => member_menu_loop n) w1
        else if (choice =? "4")%string then
          bind book_pt_session (fun _ => member_menu_loop n) w1
        else if (choice =? "5")%string then
          bind view_available_classes (fun _ => member_menu_loop n) w1
        else if (choice =? "6")%string then
          bind signup_for_class (fun _ => member_menu_loop n) w1
        else if (choice =? "0")%string then (Ok tt, w1)
        else
          member_menu_loop n
            (asked (member_menu_lines ++ [Line "Invalid choice."]) rest w)
    end.
Proof.
  cbn [member_menu_loop]. rewrite !bind_print, !printed_twice. cbn [app].
  rewrite bind_input. cbn [stdin printed].
  destruct (stdin w) as [|choice rest]; [reflexivity|].
  rewrite asked_printed, app_nil_r. cbn zeta.
  repeat (destruct (_ =? _)%string; [reflexivity|]).
  rewrite bind_print. unfold printed, asked. cbn.
  now rewrite <- app_assoc.
Qed.

Lemma member_menu_loop_fuel :
  forall (n m : nat) (w : World),
    (List.length (stdin w) < n)%nat -> (List.length (stdin w) < m)%nat ->
    member_menu_loop n w = member_menu_loop m w.
Proof.
  induction n as [|n IH]; intros m w Hn Hm; [lia|].
  destruct m as [|m]; [lia|]. rewrite !member_menu_loop_turn.
  destruct (stdin w) as [|choice rest]; [reflexivity|].
  cbn [List.length] in Hn, Hm. cbn zeta.
  assert (K : forall w', (List.length (stdin w') <= List.length rest)%nat ->
                         member_menu_loop n w' = member_menu_loop m w')
    by (intros w' Hw'; apply IH; lia).
  assert (B : forall (op : Op unit) (ms : list Msg),
             reads_lines op ->
             bind op (fun _ => member_menu_loop n) (asked ms rest w)
             = bind op (fun _ => member_menu_loop m) (asked ms rest w))
    by (intros op ms Hop; apply bind_same_after; [exact Hop|exact K]).
  destruct (_ =? _)%string; [apply B, (reads_lines_operation RegisterMember)|].
  destruct (_ =? _)%string;
    [apply B, (reads_lines_operation UpdateMemberProfile)|].
  destruct (_ =? _)%string;
    [apply B, (reads_lines_operation AddHealthMetric)|].
  destruct (_ =? _)%string; [apply B, (reads_lines_operation BookPTSession)|].
  destruct (_ =? _)%string;
    [apply B, (reads_lines_operation ViewAvailableClasses)|].
  destruct (_ =? _)%string; [apply B, (reads_lines_operation SignupForClass)|].
  destruct (_ =? _)%string; [reflexivity|].
  apply K. reflexivity.
Qed.

Lemma member_menu_loop_Ok :
  forall (n : nat) (w : World),
    (List.length (stdin w) < n)%nat ->
    fst (member_menu_loop n w) = Ok tt -> In "0" (stdin w).
Proof.
  induction n as [|n IH]; intros w Hn; [lia|].
  rewrite member_menu_loop_turn.
  destruct (stdin w) as [|choice rest]; [discriminate|].
  cbn [List.length] in Hn. cbn zeta.
  assert (B : forall (op : Op unit) (ms : list Msg),
             reads_lines op ->
             fst (bind op (fun _ => member_menu_loop n) (asked ms rest w))
             = Ok tt ->
             In "0" (choice :: rest)).
  { intros op ms Hop H. apply bind_Ok_after in H; [|exact Hop].
    destruct H as (typed & w' & Ht & H). cbn [asked stdin] in Ht.
    right. rewrite Ht. apply in_or_app. right. apply IH; [|exact H].
    assert (List.length rest = List.length (typed ++ stdin w'))
      by now rewrite Ht.
    rewrite length_app in *. lia. }
  destruct (_ =? _)%string; [apply B, (reads_lines_operation RegisterMember)|].
  destruct (_ =? _)%string;
    [apply B, (reads_lines_operation UpdateMemberProfile)|].
  destruct (_ =? _)%string;
    [apply B, (reads_lines_operation AddHealthMetric)|].
  destruct (_ =? _)%string; [apply B, (reads_lines_operation BookPTSession)|].
  destruct (_ =? _)%string;
    [apply B, (reads_lines_operation ViewAvailableClasses)|].
  destruct (_ =? _)%string; [apply B, (reads_lines_operation SignupForClass)|].
  destruct (choice =? "0")%string eqn:E0.
  - intros _. left. now apply String.eqb_eq.
  - intros H. right. apply IH in H; [exact H|cbn [asked stdin]; lia].
Qed.

(** X3.  The member menu.  At the end of the input it ends with EOFError;
    it returns only when the operator has typed 0; a choice it does not
    know is answered with "Invalid choice." and the menu again, nothing
    else having changed.  The bound on the number of turns is never met:
    any larger one gives the same run. *)
Theorem member_menu_turns :
  forall w : World,
    (stdin w = [] ->
     member_menu w = (Raise EOFError, printed member_menu_lines w)) /\
    (fst (member_menu w) = Ok tt -> In "0" (stdin w)) /\
    (forall (choice : string) (rest : list string),
       stdin w = choice :: rest ->
       known ["0"; "1"; "2"; "3"; "4"; "5"; "6"] choice = false ->
       member_menu w
       = member_menu
           (asked (member_menu_lines ++ [Line "Invalid choice."]) rest w)) /\
    (forall n : nat,
       (List.length (stdin w) < n)%nat ->
       member_menu_loop n w = member_menu w).
Proof.
  intros w. unfold member_menu. repeat split.
  - intros H. rewrite member_menu_loop_turn. now rewrite H.
  - apply member_menu_loop_Ok. lia.
  - intros choice rest H Hk. rewrite member_menu_loop_turn, H.
    cbn [asked stdin List.length] in *. cbn zeta.
    unfold known in Hk. cbn [existsb] in Hk.
    repeat (apply orb_false_elim in Hk; destruct Hk as [? Hk]).
    repeat match goal with E : (choice =? _)%string = false |- _ =>
             rewrite E; clear E end.
    reflexivity.
  - intros n Hn. apply member_menu_loop_fuel; [exact Hn|lia].
Qed.

Lemma trainer_menu_loop_turn (n : nat) (w : World) :
  trainer_menu_loop (S n) w
  = match stdin w with
    | [] => (Raise EOFError, printed trainer_menu_lines w)
    | choice :: rest =>
        let w1 := asked trainer_menu_lines rest w in
        if (choice =? "1")%string then
          bind view_trainer_schedule (fun _ => trainer_menu_loop n) w1
        else if (choice =? "2")%string then
          bind member_lookup (fun _ => trainer_menu_loop n) w1
        else if (choice =? "0")%string then (Ok tt, w1)
        else
          trainer_menu_loop n
            (asked (trainer_menu_lines ++ [Line "Invalid choice."]) rest w)
    end.
Proof.
  cbn [trainer_menu_loop]. rewrite !bind_print, !printed_twice. cbn [app].
  rewrite bind_input. cbn [stdin printed].
  destruct (stdin w) as [|choice rest]; [reflexivity|].
  rewrite asked_printed, app_nil_r. cbn zeta.
  repeat (destruct (_ =? _)%string; [reflexivity|]).
  rewrite bind_print. unfold printed, asked. cbn.
  now rewrite <- app_assoc.
Qed.

Lemma sends_nothing_trainer_menu_loop (n : nat) :
  sends_nothing (trainer_menu_loop n).
Proof.
  induction n as [|n IH]; [apply sends_nothing_ret|].
  cbn [trainer_menu_loop]. quiet; try exact IH.
  - apply sends_nothing_view_trainer_schedule.
  - apply sends_nothing_member_lookup.
Qed.

Lemma trainer_menu_loop_Ok :
  forall (n : nat) (w : World),
    (List.length (stdin w) < n)%nat ->
    fst (trainer_menu_loop n w) = Ok tt -> In "0" (stdin w).
Proof.
  induction n as [|n IH]; intros w Hn; [lia|].
  rewrite trainer_menu_loop_turn.
  destruct (stdin w) as [|choice rest]; [discriminate|].
  cbn [List.length] in Hn. cbn zeta.
  assert (B : forall (op : Op unit) (ms : list Msg),
             reads_lines op ->
             fst (bind op (fun _ => trainer_menu_loop n) (asked ms rest w))
             = Ok tt ->
             In "0" (choice :: rest)).
  { intros op ms Hop H. apply bind_Ok_after in H; [|exact Hop].
    destruct H as (typed & w' & Ht & H). cbn [asked stdin] in Ht.
    right. rewrite Ht. apply in_or_app. right. apply IH; [|exact H].
    assert (List.length rest = List.length (typed ++ stdin w'))
      by now rewrite Ht.
    rewrite length_app in *. lia. }
  destruct (_ =? _)%string;
    [apply B, (reads_lines_operation ViewTrainerSchedule)|].
  destruct (_ =? _)%string; [apply B, (reads_lines_operation MemberLookup)|].
  destruct (choice =? "0")%string eqn:E0.
  - intros _. left. now apply String.eqb_eq.
  - intros H. right. apply IH in H; [exact H|cbn [asked stdin]; lia].
Qed.

(** X4.  The trainer menu never writes: whatever the operator types, the
    store and the unit of work are the same after it and no statement is
    sent.  It returns only when 0 has been typed, and answers a choice it
    does not know with "Invalid choice." and the menu again. *)
Theorem trainer_menu_only_reads :
  forall w : World,
    (store (snd (trainer_menu w)) = store w /\
     pending (snd (trainer_menu w)) = pending w /\
     sql (snd (trainer_menu w)) = sql w) /\
    (fst (trainer_menu w) = Ok tt -> In "0" (stdin w)) /\
    (forall (choice : string) (rest : list string),
       stdin w = choice :: rest ->
       known ["0"; "1"; "2"] choice = false ->
       trainer_menu w
       = trainer_menu
           (asked (trainer_menu_lines ++ [Line "Invalid choice."]) rest w)).
Proof.
  intros w. unfold trainer_menu. split; [|split].
  - apply sends_nothing_trainer_menu_loop.
  - apply trainer_menu_loop_Ok. lia.
  - intros choice rest H Hk. rewrite trainer_menu_loop_turn, H.
    cbn [asked stdin List.length] in *. cbn zeta.
    unfold known in Hk. cbn [existsb] in Hk.
    repeat (apply orb_false_elim in Hk; destruct Hk as [? Hk]).
    repeat match goal with E : (choice =? _)%string = false |- _ =>
             rewrite E; clear E end.
    reflexivity.
Qed.

(** ** One transaction per operation *)

Lemma writes_nothing_same {A : Type} (m : Op A) :
  (forall w, store (snd (m w)) = store w /\ pending (snd (m w)) = pending w /\
             sql (snd (m w)) = sql w) ->
  writes_nothing m.
Proof.
  intros H w. destruct (H w) as (H1 & H2 & H3). split; [exact H1|].
  split; [intros Hp; now rewrite H2|]. exists []. now rewrite app_nil_r.
Qed.

Lemma writes_nothing_session_rollback : writes_nothing session_rollback.
Proof.
  intros w. split; [reflexivity|]. split; [reflexivity|].
  now exists [ROLLBACK].
Qed.

Lemma writes_nothing_bind {A B : Type} (m : Op A) (k : A -> Op B) :
  writes_nothing m -> (forall a, writes_nothing (k a)) ->
  writes_nothing (bind m k).
Proof.
  intros Hm Hk w. unfold bind. destruct (Hm w) as (H1 & H2 & l1 & H3 & H4).
  destruct (m w) as [[a|e] w']; cbn [snd] in *.
  - destruct (Hk a w') as (K1 & K2 & l2 & K3 & K4).
    split; [congruence|]. split; [auto|]. exists (l1 ++ l2).
    split; [now rewrite K3, H3, app_assoc|].
    now rewrite filter_app, H4, K4.
  - split; [exact H1|]. split; [exact H2|]. now exists l1.
Qed.

Lemma writes_nothing_try {A : Type} (m : Op A) (h : Exn -> option (Op A)) :
  writes_nothing m ->
  (forall e, match h e with Some h' => writes_nothing h' | None => True end) ->
  writes_nothing (try m h).
Proof.
  intros Hm Hh w. unfold try. destruct (Hm w) as (H1 & H2 & l1 & H3 & H4).
  destruct (m w) as [[a|e] w']; cbn [snd] in *.
  - split; [exact H1|]. split; [exact H2|]. now exists l1.
  - specialize (Hh e). destruct (h e) as [h'|].
    + destruct (Hh w') as (K1 & K2 & l2 & K3 & K4).
      split; [congruence|]. split; [auto|]. exists (l1 ++ l2).
      split; [now rewrite K3, H3, app_assoc|].
      now rewrite filter_app, H4, K4.
    + split; [exact H1|]. split; [exact H2|]. now exists l1.
Qed.

Lemma writes_nothing_sends_nothing {A : Type} (m : Op A) :
  sends_nothing m -> writes_nothing m.
Proof. intros H. apply writes_nothing_same. exact H. Qed.

Lemma writes_nothing_for_each {A : Type} (l : list A) (body : A -> Op unit) :
  (forall x, writes_nothing (body x)) -> writes_nothing (for_each l body).
Proof.
  intros Hb. induction l as [|x l IH].
  - now apply writes_nothing_same.
  - cbn [for_each]. apply writes_nothing_bind; [apply Hb|intros _; exact IH].
Qed.

Lemma writes_nothing_convert {A : Type} (f : string -> option A) (s : string) :
  writes_nothing (convert f s).
Proof. apply writes_nothing_sends_nothing, sends_nothing_convert. Qed.

Lemma writes_nothing_attr {A B : Type} (obj : option A) (f : A -> B) :
  writes_nothing (attr obj f).
Proof. apply writes_nothing_same. intros w. now destruct obj. Qed.

Ltac settle :=
  repeat match goal with
    | |- writes_nothing (bind _ _) => apply writes_nothing_bind; [|intros ?]
    | |- writes_nothing (try _ _) =>
        apply writes_nothing_try;
        [|let e := fresh "e" in
          intros e; try unfold except_ValueError; destruct e; cbn beta iota;
          try exact I]
    | |- writes_nothing input =>
        apply writes_nothing_sends_nothing, sends_nothing_input
    | |- writes_nothing (convert _ _) => apply writes_nothing_convert
    | |- writes_nothing (attr _ _) => apply writes_nothing_attr
    | |- writes_nothing session_rollback =>
        apply writes_nothing_session_rollback
    | |- writes_nothing view_available_classes =>
        apply writes_nothing_sends_nothing,
          sends_nothing_view_available_classes
    | |- writes_nothing (for_each _ _) =>
        apply writes_nothing_for_each; intros ?
    | |- writes_nothing (match ?x with _ => _ end) => destruct x
    | |- writes_nothing _ =>
        apply writes_nothing_same; intros ?; repeat split; reflexivity
    end.

Lemma one_transaction_writes_nothing {A : Type} (m : Op A) :
  writes_nothing m -> one_transaction m.
Proof.
  intros Hm w Hp. destruct (Hm w) as (H1 & H2 & l & H3 & H4).
  split; [auto|]. exists l. split; [exact H3|]. rewrite H4, H1.
  split; [cbn; lia|now left].
Qed.

Lemma one_transaction_bind {A B : Type} (m : Op A) (k : A -> Op B) :
  writes_nothing m -> (forall a, one_transaction (k a)) ->
  one_transaction (bind m k).
Proof.
  intros Hm Hk w Hp. unfold bind.
  destruct (Hm w) as (H1 & H2 & l1 & H3 & H4).
  destruct (m w) as [[a|e] w']; cbn [snd] in *.
  - destruct (Hk a w' (H2 Hp)) as (K1 & l2 & K2 & K3 & K4).
    split; [exact K1|]. exists (l1 ++ l2).
    split; [now rewrite K2, H3, app_assoc|].
    rewrite filter_app, H4. split; [exact K3|].
    destruct K4 as [K4|K4]; [left; congruence|].
    right. apply in_or_app. now right.
  - split; [auto|]. exists l1. split; [exact H3|]. rewrite H4, H1.
    split; [cbn; lia|now left].
Qed.

Lemma is_write_statement (x : Write) : is_write (fst (statement x)) = true.
Proof. now destruct x. Qed.

Lemma statement_Raise_rows (x : Write) (db db' : DB) (e : Exn) :
  snd (statement x) db = (Raise e, db') -> rows db' = rows db.
Proof.
  destruct x; cbn [statement snd];
    try (intros H; now apply INSERT_INTO_Raise in H).
  - unfold insert_HealthMetric. destruct (numeric_6_2 metric_value);
      intros H; now apply INSERT_INTO_Raise in H.
  - unfold update_Member.
    destruct (first_error _); [now intros [= _ <-]|].
    destruct (get_Member (rows db) member_id); [discriminate|].
    now intros [= _ <-].
Qed.

(** The commit of a unit of work that holds one object, and what follows
    it inside the try block. *)
Lemma one_transaction_commit {B : Type} (x : Write) (k : list Z -> Op B)
    (h : Exn -> option (Op B)) (w : World) :
  pending w = [x] ->
  (forall ids, writes_nothing (k ids)) ->
  (forall e, match h e with Some h' => writes_nothing h' | None => True end) ->
  let w' := snd (try (bind session_commit k) h w) in
  pending w' = [] /\
  exists log,
    sql w' = sql w ++ log /\
    (List.length (filter is_write log) <= 1)%nat /\
    (rows (store w') = rows (store w) \/ In COMMIT log).
Proof.
  intros Hp Hk Hh w'. subst w'.
  destruct (snd (statement x) (store w)) as [r db'] eqn:E.
  unfold try. rewrite (bind_commit_one _ _ Hp E).
  pose proof (is_write_statement x) as Hx.
  destruct r as [id|e].
  - set (w1 := {| store := db'; pending := []; stdin := stdin w;
                  stdout := stdout w;
                  sql := (sql w ++ [fst (statement x)]) ++ [COMMIT];
                  clock := clock w |}).
    pose proof (@writes_nothing_try _ (k [id]) h (Hk [id]) Hh w1)
      as (K1 & K2 & l & K3 & K4).
    unfold try in K1, K2, K3.
    destruct (k [id] w1) as [[b|e] w2]; cbn [fst snd] in *.
    + split; [now apply K2|]. exists ([fst (statement x); COMMIT] ++ l).
      split; [rewrite K3; cbn; now rewrite <- !app_assoc|].
      rewrite filter_app, K4, app_nil_r. cbn. rewrite Hx. cbn.
      split; [lia|]. right. cbn. auto.
    + destruct (h e) as [h'|]; cbn [fst snd] in *.
      * split; [now apply K2|].
        exists ([fst (statement x); COMMIT] ++ l).
        split; [rewrite K3; cbn; now rewrite <- !app_assoc|].
        rewrite filter_app, K4, app_nil_r. cbn. rewrite Hx. cbn.
        split; [lia|]. right. cbn. auto.
      * split; [now apply K2|].
        exists ([fst (statement x); COMMIT] ++ l).
        split; [rewrite K3; cbn; now rewrite <- !app_assoc|].
        rewrite filter_app, K4, app_nil_r. cbn. rewrite Hx. cbn.
        split; [lia|]. right. cbn. auto.
  - set (w1 := {| store := with_rows (rows (store w)) db'; pending := [];
                  stdin := stdin w; stdout := stdout w;
                  sql := sql w ++ [fst (statement x)]; clock := clock w |}).
    specialize (Hh e). destruct (h e) as [h'|]; cbn [fst snd].
    + destruct (Hh w1) as (K1 & K2 & l & K3 & K4).
      split; [now apply K2|]. exists ([fst (statement x)] ++ l).
      split; [rewrite K3; cbn; now rewrite <- !app_assoc|].
      rewrite filter_app, K4, app_nil_r. cbn. rewrite Hx. cbn.
      split; [lia|]. left. now rewrite K1.
    + split; [reflexivity|]. exists [fst (statement x)].
      split; [reflexivity|]. cbn. rewrite Hx. cbn. split; [lia|now left].
Qed.

Lemma one_transaction_add_commit {B : Type} (x : Write) (k : list Z -> Op B)
    (h : Exn -> option (Op B)) :
  (forall ids, writes_nothing (k ids)) ->
  (forall e, match h e with Some h' => writes_nothing h' | None => True end) ->
  one_transaction
    (try (bind (session_add x) (fun _ => bind session_commit k)) h).
Proof.
  intros Hk Hh w Hp.
  rewrite (@try_bind_Ok _ _ (session_add x) _ h w _ tt eq_refl).
  match goal with
  | |- context [try _ h ?w0] =>
      apply (@one_transaction_commit _ x k h w0); [|exact Hk|exact Hh]
  end.
  cbn [pending]. now rewrite Hp.
Qed.

Lemma try_no_clause {A : Type} (m : Op A) (w : World) :
  try m (fun _ => None) w = m w.
Proof. unfold try. now destruct (m w) as [[a|e] w']. Qed.

Lemma one_transaction_add_commit_bare {B : Type} (x : Write)
    (k : list Z -> Op B) :
  (forall ids, writes_nothing (k ids)) ->
  one_transaction (bind (session_add x) (fun _ => bind session_commit k)).
Proof.
  intros Hk w Hp. rewrite <- try_no_clause.
  apply one_transaction_add_commit; [exact Hk| |exact Hp].
  intros e. exact I.
Qed.

Lemma one_transaction_try_now {B : Type} (k : DateTime -> Op B)
    (h : Exn -> option (Op B)) :
  (forall d, one_transaction (try (k d) h)) ->
  one_transaction (try (bind now k) h).
Proof. intros Hk w Hp. rewrite try_now. now apply Hk. Qed.

(** The profile update: the assignments leave one change of the loaded
    member at most in the unit of work. *)
Lemma dirties_ret {A : Type} (i : Z) (a : A) : dirties i (ret a).
Proof. intros w Hd. cbn. eauto. Qed.

Lemma dirties_print (i : Z) (m : Msg) : dirties i (print m).
Proof. intros w Hd. cbn. eauto. Qed.

Lemma dirties_bind {A B : Type} (i : Z) (m : Op A) (k : A -> Op B) :
  dirties i m -> (forall a, dirties i (k a)) -> dirties i (bind m k).
Proof.
  intros Hm Hk w Hd. unfold bind.
  destruct (Hm w Hd) as ([a Ha] & H1 & H2 & H3).
  destruct (m w) as [[a'|e] w']; cbn [fst snd] in *; [|discriminate].
  destruct (Hk a' w' H3) as (K0 & K1 & K2 & K3).
  repeat split; [exact K0|congruence|congruence|exact K3].
Qed.

Lemma assign_at_most_dirty (i : Z) (name phone : option string)
    (l : list Write) :
  at_most_dirty i l -> at_most_dirty i (assign i name phone l).
Proof.
  intros [->|(n & p & ->)]; right; cbn [assign].
  - now exists name, phone.
  - rewrite Z.eqb_refl. eauto.
Qed.

Lemma dirties_set_name (member : Member.t) (v : string) :
  dirties (Member.member_id member) (set_name member v).
Proof.
  intros w Hd. unfold set_name. destruct (_ =? _)%string; cbn; [eauto|].
  repeat split; [eauto|]. now apply assign_at_most_dirty.
Qed.

Lemma dirties_set_phone (member : Member.t) (v : string) :
  dirties (Member.member_id member) (set_phone member v).
Proof.
  intros w Hd. unfold set_phone.
  destruct (match Member.phone member with Some _ => _ | None => _ end);
    cbn; [eauto|].
  repeat split; [eauto|]. now apply assign_at_most_dirty.
Qed.

Lemma one_transaction_commit_nothing {B : Type} (k : list Z -> Op B)
    (h : Exn -> option (Op B)) (w : World) :
  pending w = [] ->
  (forall ids, writes_nothing (k ids)) ->
  (forall e, match h e with Some h' => writes_nothing h' | None => True end) ->
  let w' := snd (try (bind session_commit k) h w) in
  pending w' = [] /\
  exists log,
    sql w' = sql w ++ log /\
    (List.length (filter is_write log) <= 1)%nat /\
    (rows (store w') = rows (store w) \/ In COMMIT log).
Proof.
  intros Hp Hk Hh w'. subst w'.
  set (w1 := {| store := store w; pending := []; stdin := stdin w;
                stdout := stdout w; sql := sql w ++ [COMMIT];
                clock := clock w |}).
  assert (E : try (bind session_commit k) h w = try (k []) h w1).
  { unfold try, bind, session_commit. rewrite Hp. reflexivity. }
  rewrite E.
  pose proof (@writes_nothing_try _ (k []) h (Hk []) Hh w1)
    as (K1 & K2 & l & K3 & K4).
  split; [now apply K2|]. exists ([COMMIT] ++ l).
  split; [rewrite K3; cbn; now rewrite <- !app_assoc|].
  rewrite filter_app, K4. cbn. split; [lia|]. right. auto.
Qed.

Lemma one_transaction_dirty_commit {A B : Type} (i : Z) (m : Op A)
    (k : list Z -> Op B) (h : Exn -> option (Op B)) :
  dirties i m ->
  (forall ids, writes_nothing (k ids)) ->
  (forall e, match h e with Some h' => writes_nothing h' | None => True end) ->
  one_transaction (bind m (fun _ => try (bind session_commit k) h)).
Proof.
  intros Hm Hk Hh w Hp.
  destruct (Hm w (or_introl Hp)) as ([a Ha] & H1 & H2 & H3).
  assert (Hb : bind m (fun _ => try (bind session_commit k) h) w
               = try (bind session_commit k) h (snd (m w))).
  { unfold bind at 1. destruct (m w) as [[a'|e] w']; [reflexivity|].
    discriminate. }
  rewrite Hb. rewrite <- H1, <- H2. destruct H3 as [H3|(n & p & H3)].
  - now apply one_transaction_commit_nothing.
  - now apply one_transaction_commit with (DirtyMember i n p).
Qed.

Lemma bind_bind {A B C : Type} (m : Op A) (k : A -> Op B) (k' : B -> Op C)
    (w : World) :
  bind (bind m k) k' w = bind m (fun a => bind (k a) k') w.
Proof.
  unfold bind. destruct (m w) as [[a|e] w']; reflexivity.
Qed.

Lemma one_transaction_assignments {B : Type} (i : Z) (m1 m2 : Op unit)
    (k : list Z -> Op B) (h : Exn -> option (Op B)) :
  dirties i m1 -> dirties i m2 ->
  (forall ids, writes_nothing (k ids)) ->
  (forall e, match h e with Some h' => writes_nothing h' | None => True end) ->
  one_transaction
    (bind m1 (fun _ => bind m2 (fun _ => try (bind session_commit k) h))).
Proof.
  intros H1 H2 Hk Hh w Hp. rewrite <- bind_bind.
  apply (@one_transaction_dirty_commit _ _ i (bind m1 (fun _ => m2)) k h);
    try assumption.
  apply dirties_bind; [exact H1|intros _; exact H2].
Qed.

Ltac transact :=
  repeat match goal with
    | |- one_transaction (try (bind now _) _) =>
        apply one_transaction_try_now; intros ?
    | |- one_transaction (try (bind (session_add _) _) _) =>
        apply one_transaction_add_commit;
        [intros ?; settle
        |let e := fresh "e" in intros e; destruct e; cbn beta iota; settle]
    | |- one_transaction (bind (session_add _) _) =>
        apply one_transaction_add_commit_bare; intros ?; settle
    | |- one_transaction (bind _ _) =>
        apply one_transaction_bind; [settle|intros ?]
    | |- one_transaction (match ?x with _ => _ end) => destruct x
    | |- one_transaction _ => apply one_transaction_writes_nothing; settle
    end.

Lemma one_transaction_update_member_profile :
  one_transaction update_member_profile.
Proof.
  unfold update_member_profile.
  do 4 (apply one_transaction_bind; [settle|intros ?]).
  match goal with |- one_transaction (match ?x with _ => _ end) =>
    destruct x as [member|] end;
    [|apply one_transaction_writes_nothing; settle].
  do 9 (apply one_transaction_bind; [settle|intros ?]).
  apply one_transaction_assignments with (i := Member.member_id member).
  - destruct (or_None _); [|apply dirties_ret].
    apply dirties_bind; [apply dirties_print|intros _].
    apply dirties_set_name.
  - destruct (or_None _); [|apply dirties_ret].
    apply dirties_bind; [apply dirties_print|intros _].
    apply dirties_set_phone.
  - intros ids. settle.
  - intros e. settle.
Qed.

Lemma one_transaction_operation (c : Command) :
  one_transaction (operation c).
Proof.
  destruct c; cbn [operation].
  - unfold register_member. transact.
  - apply one_transaction_update_member_profile.
  - unfold add_health_metric. transact.
  - unfold book_pt_session. transact.
  - unfold view_available_classes. transact.
  - unfold signup_for_class. transact.
  - unfold view_trainer_schedule. transact.
  - unfold member_lookup. transact.
  - unfold authenticate_admin. transact.
  - unfold create_trainer. transact.
  - unfold create_room. transact.
  - unfold create_class. transact.
  - unfold create_default_admin. transact.
Qed.

(** X5.  Every operation is one transaction at most.  Run from the menu
    (nothing waiting in the session), it ends with nothing waiting in the
    session, sends one INSERT or UPDATE at most, and leaves the rows as
    they were unless it has sent COMMIT: a write the engine refuses, and
    a run that ends with an exception, change no row. *)
Theorem every_operation_is_one_transaction :
  forall (c : Command) (db : DB) (lines : list string) (clock : DateTime),
    let w := snd (run (operation c) db lines clock) in
    pending w = [] /\
    (List.length (filter is_write (sql w)) <= 1)%nat /\
    (rows (store w) = rows db \/ In COMMIT (sql w)).
Proof.
  intros c db lines clock. cbv zeta. unfold run.
  destruct (@one_transaction_operation c (world db lines clock) eq_refl)
    as (H1 & log & H2 & H3 & H4).
  change (sql (world db lines clock)) with (@nil Sql) in H2.
  change (store (world db lines clock)) with db in H4.
  rewrite H2. auto.
Qed.

(** ** Properties of the rows that every operation keeps *)

Lemma keeps_same (P : Tables -> Prop) {A : Type} (m : Op A) :
  (forall w, store (snd (m w)) = store w /\ pending (snd (m w)) = pending w) ->
  keeps P m.
Proof. intros H w Hw Hp. destruct (H w) as [-> ->]. now split. Qed.

Lemma keeps_bind (P : Tables -> Prop) {A B : Type} (m : Op A)
    (k : A -> Op B) :
  keeps P m -> (forall a, keeps P (k a)) -> keeps P (bind m k).
Proof.
  intros Hm Hk w Hw Hp. unfold bind. specialize (Hm w Hw Hp).
  destruct (m w) as [[a|e] w']; [now apply Hk|exact Hm].
Qed.

Lemma keeps_try (P : Tables -> Prop) {A : Type} (m : Op A)
    (h : Exn -> option (Op A)) :
  keeps P m ->
  (forall e, match h e with Some h' => keeps P h' | None => True end) ->
  keeps P (try m h).
Proof.
  intros Hm Hh w Hw Hp. unfold try. specialize (Hm w Hw Hp).
  destruct (m w) as [[a|e] w']; [exact Hm|].
  specialize (Hh e). destruct (h e) as [h'|]; [now apply Hh|exact Hm].
Qed.

Lemma keeps_for_each (P : Tables -> Prop) {A : Type} (l : list A)
    (body : A -> Op unit) :
  (forall x, keeps P (body x)) -> keeps P (for_each l body).
Proof.
  intros Hb. induction l as [|x l IH]; [now apply keeps_same|].
  cbn [for_each]. apply keeps_bind; [apply Hb|intros _; exact IH].
Qed.

Lemma flush_kept (P : Tables -> Prop) (l : list Write) :
  kept P ->
  forall (db db' : DB) (log log' : list Sql) (r : Res (list Z)),
    Forall issued l ->
    P (rows db) -> flush l db log = (r, db', log') -> P (rows db').
Proof.
  intros HP. induction l as [|x l IH]; intros db db' log log' r Hl Hdb.
  - now intros [= <- <- <-].
  - inversion Hl as [|? ? Hx Hl']; subst. cbn [flush].
    destruct (snd (statement x) db) as [[id|e] db1] eqn:E.
    + pose proof (HP _ _ _ _ Hx Hdb E) as Hdb1.
      destruct (flush l db1 (log ++ [fst (statement x)]))
        as [[[ids|e] db2] log2] eqn:E2;
        pose proof (IH _ _ _ _ _ Hl' Hdb1 E2) as Hdb2;
        now intros [= <- <- <-].
    + intros [= <- <- <-]. exact (HP _ _ _ _ Hx Hdb E).
Qed.

Lemma keeps_session_commit (P : Tables -> Prop) :
  kept P -> keeps P session_commit.
Proof.
  intros HP w Hw Hp. unfold session_commit.
  destruct (flush (pending w) (store w) (sql w)) as [[[ids|e] db'] log] eqn:E;
    cbn; (split; [|constructor]); [|exact Hw].
  exact (@flush_kept P (pending w) HP _ _ _ _ _ Hp Hw E).
Qed.

Lemma keeps_session_add (P : Tables -> Prop) (x : Write) :
  issued x -> keeps P (session_add x).
Proof.
  intros Hx w Hw Hp. cbn. split; [exact Hw|].
  apply Forall_app. split; [exact Hp|]. now constructor.
Qed.

Lemma keeps_session_rollback (P : Tables -> Prop) :
  keeps P session_rollback.
Proof. intros w Hw Hp. cbn. split; [exact Hw|constructor]. Qed.

Lemma assign_issued (i : Z) (name phone : option string) (l : list Write) :
  Forall issued l -> Forall issued (assign i name phone l).
Proof.
  induction 1 as [|x l Hx Hl IH]; cbn [assign].
  - constructor; [exact I|constructor].
  - destruct x; try (constructor; [exact Hx|exact IH]).
    destruct (member_id =? i); constructor; try exact I; assumption.
Qed.

Lemma keeps_set_name (P : Tables -> Prop) (member : Member.t) (v : string) :
  keeps P (set_name member v).
Proof.
  intros w Hw Hp. unfold set_name. destruct (_ =? _)%string; cbn; [auto|].
  split; [exact Hw|]. now apply assign_issued.
Qed.

Lemma keeps_set_phone (P : Tables -> Prop) (member : Member.t) (v : string) :
  keeps P (set_phone member v).
Proof.
  intros w Hw Hp. unfold set_phone.
  destruct (match Member.phone member with Some _ => _ | None => _ end);
    cbn; [auto|].
  split; [exact Hw|]. now apply assign_issued.
Qed.

Lemma keeps_convert (P : Tables -> Prop) {A : Type} (f : string -> option A)
    (s : string) :
  keeps P (convert f s).
Proof. apply keeps_same. intros w. unfold convert. now destruct (f s). Qed.

Lemma keeps_attr (P : Tables -> Prop) {A B : Type} (obj : option A)
    (f : A -> B) :
  keeps P (attr obj f).
Proof. apply keeps_same. intros w. now destruct obj. Qed.

Lemma keeps_input (P : Tables -> Prop) : keeps P input.
Proof. apply keeps_same. intros w. unfold input. now destruct (stdin w). Qed.

Lemma keeps_view_available_classes (P : Tables -> Prop) :
  keeps P view_available_classes.
Proof.
  apply keeps_same. intros w. now rewrite view_available_classes_eq.
Qed.

Ltac keep :=
  repeat match goal with
    | |- keeps _ (bind _ _) => apply keeps_bind; [|intros ?]
    | |- keeps _ (try _ _) =>
        apply keeps_try;
        [|let e := fresh "e" in
          intros e; try unfold except_ValueError; destruct e; cbn beta iota;
          try exact I]
    | |- keeps _ input => apply keeps_input
    | |- keeps _ (convert _ _) => apply keeps_convert
    | |- keeps _ (attr _ _) => apply keeps_attr
    | |- keeps _ (set_name _ _) => apply keeps_set_name
    | |- keeps _ (set_phone _ _) => apply keeps_set_phone
    | |- keeps _ session_commit => apply keeps_session_commit; assumption
    | |- keeps _ session_rollback => apply keeps_session_rollback
    | |- keeps _ (session_add _) =>
        apply keeps_session_add; cbn; auto
    | |- keeps _ view_available_classes => apply keeps_view_available_classes
    | |- keeps _ (for_each _ _) => apply keeps_for_each; intros ?
    | |- keeps _ (match ?x with _ => _ end) => destruct x
    | |- keeps _ _ => apply keeps_same; intros ?; split; reflexivity
    end.

Lemma keeps_operation (P : Tables -> Prop) (c : Command) :
  kept P -> keeps P (operation c).
Proof.
  intros HP. destruct c; cbn [operation].
  - unfold register_member. keep.
  - unfold update_member_profile. keep.
  - unfold add_health_metric. keep.
  - unfold book_pt_session. keep.
  - apply keeps_view_available_classes.
  - unfold signup_for_class. keep.
  - unfold view_trainer_schedule. keep.
  - unfold member_lookup. keep.
  - unfold authenticate_admin. keep.
  - unfold create_trainer. keep.
  - unfold create_room. keep.
  - unfold create_class. keep.
  - unfold create_default_admin. keep.
Qed.

Lemma reachable_kept (P : Tables -> Prop) (db : DB) :
  kept P -> P no_rows -> reachable db -> P (rows db).
Proof.
  intros HP H0. induction 1 as [|c lines clock db _ IH]; [exact H0|].
  unfold after, run.
  apply (keeps_operation c HP (world db lines clock)); [exact IH|].
  constructor.
Qed.

(** An INSERT keeps [P] when the row it adds, having passed the checks,
    does. *)
Lemma INSERT_INTO_keeps (P : Tables -> Prop) (t : Table)
    (coercion : list (option PgError))
    (constraints : Z -> list (option PgError))
    (add : Z -> Tables -> Tables) (db db' : DB) (r : Res Z) :
  P (rows db) ->
  (first_error (constraints (seq db t)) = None ->
   P (add (seq db t) (rows db))) ->
  INSERT_INTO t coercion constraints add db = (r, db') -> P (rows db').
Proof.
  intros HP Hadd. unfold INSERT_INTO.
  destruct (first_error coercion); [now intros [= <- <-]|].
  destruct (first_error (constraints (seq db t))); intros [= <- <-];
    [exact HP|now apply Hadd].
Qed.

(** The checks of a row, one by one. *)
Ltac checks H :=
  repeat (apply first_error_cons in H;
          let C := fresh "C" in destruct H as [C H];
          try apply check_None in C).

(** ** The declared constraints *)

Lemma NoDup_snoc {A : Type} (l : list A) (x : A) :
  NoDup l -> ~ In x l -> NoDup (l ++ [x]).
Proof.
  intros Hl Hx. apply NoDup_app; [exact Hl| |].
  - constructor; [intros []|constructor].
  - intros y Hy [<-|[]]. contradiction.
Qed.

Lemma not_In_map_string {A : Type} (key : A -> string) (l : list A)
    (v : string) :
  existsb (fun a => key a =? v)%string l = false -> ~ In v (map key l).
Proof.
  intros H Hin. apply in_map_iff in Hin. destruct Hin as (a & <- & Ha).
  assert (existsb (fun a' => key a' =? key a)%string l = true)
    by (apply existsb_exists; exists a; split; [exact Ha|apply String.eqb_refl]).
  congruence.
Qed.

Lemma not_In_map_pair {A : Type} (k1 : A -> Z) (k2 : A -> Z) (l : list A)
    (u v : Z) :
  existsb (fun a => (k1 a =? u) && (k2 a =? v)) l = false ->
  ~ In (u, v) (map (fun a => (k1 a, k2 a)) l).
Proof.
  intros H Hin. apply in_map_iff in Hin. destruct Hin as (a & [= <- <-] & Ha).
  assert (existsb (fun a' => (k1 a' =? k1 a) && (k2 a' =? k2 a)) l = true)
    by (apply existsb_exists; exists a; split; [exact Ha|];
        now rewrite !Z.eqb_refl).
  congruence.
Qed.

Lemma not_In_map_time {A : Type} (k1 : A -> Z) (k2 : A -> DateTime)
    (l : list A) (u : Z) (t : DateTime) :
  existsb (fun a => (k1 a =? u) && DateTime_eqb (k2 a) t) l = false ->
  ~ In (u, t) (map (fun a => (k1 a, k2 a)) l).
Proof.
  intros H Hin. apply in_map_iff in Hin. destruct Hin as (a & [= <- <-] & Ha).
  assert (existsb (fun a' => (k1 a' =? k1 a) && DateTime_eqb (k2 a') (k2 a)) l
          = true)
    by (apply existsb_exists; exists a; split; [exact Ha|];
        now rewrite Z.eqb_refl, DateTime_eqb_refl).
  congruence.
Qed.

Lemma kept_unique_keys : kept unique_keys.
Proof.
  intros x db db' r _ H. destruct x; cbn [statement snd].
  - unfold insert_Member. apply INSERT_INTO_keeps; [exact H|]. intros Hc.
    checks Hc. apply negb_true_iff in C1.
    destruct H. constructor; cbn; try assumption.
    rewrite map_app. cbn. apply NoDup_snoc; [assumption|].
    now apply not_In_map_string.
  - unfold insert_Trainer. apply INSERT_INTO_keeps; [exact H|]. intros Hc.
    checks Hc. apply negb_true_iff in C1.
    destruct H. constructor; cbn; try assumption.
    rewrite map_app. cbn. apply NoDup_snoc; [assumption|].
    now apply not_In_map_string.
  - unfold insert_Admin. apply INSERT_INTO_keeps; [exact H|]. intros Hc.
    checks Hc. apply negb_true_iff in C3, C4.
    destruct H. constructor; cbn; try assumption;
      rewrite map_app; cbn; (apply NoDup_snoc; [assumption|]);
      now apply not_In_map_string.
  - unfold insert_HealthMetric. destruct (numeric_6_2 metric_value);
      (apply INSERT_INTO_keeps; [exact H|]); intros _; [exact H|].
    destruct H. constructor; cbn; assumption.
  - unfold insert_Room. apply INSERT_INTO_keeps; [exact H|]. intros Hc.
    checks Hc. apply negb_true_iff in C1.
    destruct H. constructor; cbn; try assumption.
    rewrite map_app. cbn. apply NoDup_snoc; [assumption|].
    now apply not_In_map_string.
  - unfold insert_Class. apply INSERT_INTO_keeps; [exact H|]. intros Hc.
    checks Hc. apply negb_true_iff in C2.
    destruct H. constructor; cbn; try assumption.
    rewrite map_app. cbn. apply NoDup_snoc; [assumption|].
    now apply not_In_map_time.
  - unfold insert_PTSession. apply INSERT_INTO_keeps; [exact H|]. intros Hc.
    checks Hc. apply negb_true_iff in C0.
    destruct H. constructor; cbn; try assumption.
    rewrite map_app. cbn. apply NoDup_snoc; [assumption|].
    now apply not_In_map_time.
  - unfold insert_ClassEnrollment. apply INSERT_INTO_keeps; [exact H|].
    intros Hc. checks Hc. apply negb_true_iff in C.
    destruct H. constructor; cbn; try assumption.
    rewrite map_app. cbn. apply NoDup_snoc; [assumption|].
    now apply not_In_map_pair.
  - unfold update_Member. destruct (first_error _); [now intros [= _ <-]|].
    destruct (get_Member (rows db) member_id); [|now intros [= _ <-]].
    intros [= _ <-]. destruct H. constructor; cbn; try assumption.
    rewrite map_map.
    erewrite map_ext; [eassumption|].
    intros m. cbn. now destruct (Member.member_id m =? member_id).
Qed.

Lemma present_find_map {A : Type} (key : A -> Z) (f : A -> A) (l : list A)
    (i : Z) :
  (forall a, key (f a) = key a) ->
  present (find (fun a => key a =? i) (map f l))
  = present (find (fun a => key a =? i) l).
Proof.
  intros Hf. induction l as [|a l IH]; [reflexivity|].
  cbn. rewrite Hf. now destruct (key a =? i).
Qed.

Lemma In_snoc {A : Type} (l : list A) (x y : A) :
  In y (l ++ [x]) -> In y l \/ y = x.
Proof.
  intros H. apply in_app_or in H. destruct H as [H|[H|[]]]; auto.
Qed.

Lemma kept_references : kept references.
Proof.
  intros x db db' r _ H. destruct x; cbn [statement snd].
  - unfold insert_Member. apply INSERT_INTO_keeps; [exact H|]. intros _.
    destruct H. constructor; unfold_queries; cbn; auto;
      intros y Hy; apply present_find_app; auto.
  - unfold insert_Trainer. apply INSERT_INTO_keeps; [exact H|]. intros _.
    destruct H. constructor; unfold_queries; cbn; auto;
      intros y Hy; apply present_find_app; auto.
  - unfold insert_Admin. apply INSERT_INTO_keeps; [exact H|]. intros _.
    destruct H. constructor; unfold_queries; cbn; auto.
  - unfold insert_HealthMetric. destruct (numeric_6_2 metric_value);
      (apply INSERT_INTO_keeps; [exact H|]); intros Hc; [exact H|].
    checks Hc. destruct H. constructor; unfold_queries; cbn; auto.
    intros y Hy. apply In_snoc in Hy. destruct Hy as [Hy| ->]; auto.
  - unfold insert_Room. apply INSERT_INTO_keeps; [exact H|]. intros Hc.
    checks Hc. apply Z.ltb_lt in C0.
    destruct H. constructor; unfold_queries; cbn; auto.
    + intros y Hy. apply present_find_app; auto.
    + intros y Hy. apply In_snoc in Hy. destruct Hy as [Hy| ->]; auto.
  - unfold insert_Class. apply INSERT_INTO_keeps; [exact H|]. intros Hc.
    checks Hc. apply Z.ltb_lt in C1.
    destruct H. constructor; unfold_queries; cbn; auto.
    + intros y Hy. apply In_snoc in Hy. destruct Hy as [Hy| ->]; auto.
    + intros y Hy. apply In_snoc in Hy. destruct Hy as [Hy| ->]; auto.
    + intros y Hy. apply present_find_app; auto.
    + intros y Hy. apply In_snoc in Hy. destruct Hy as [Hy| ->]; auto.
  - unfold insert_PTSession. apply INSERT_INTO_keeps; [exact H|]. intros Hc.
    checks Hc. destruct H. constructor; unfold_queries; cbn; auto.
    + intros y Hy. apply In_snoc in Hy. destruct Hy as [Hy| ->]; auto.
    + intros y Hy. apply In_snoc in Hy. destruct Hy as [Hy| ->]; auto.
  - unfold insert_ClassEnrollment. apply INSERT_INTO_keeps; [exact H|].
    intros Hc. checks Hc. destruct H.
    constructor; unfold_queries; cbn; auto.
    + intros y Hy. apply In_snoc in Hy. destruct Hy as [Hy| ->]; auto.
    + intros y Hy. apply In_snoc in Hy. destruct Hy as [Hy| ->]; auto.
  - unfold update_Member. destruct (first_error _); [now intros [= _ <-]|].
    destruct (get_Member (rows db) member_id); [|now intros [= _ <-]].
    intros [= _ <-]. destruct H.
    constructor; unfold_queries; cbn; auto; intros y Hy;
      (rewrite present_find_map;
       [auto|intros a; cbn; now destruct (Member.member_id a =? member_id)]).
Qed.

Lemma kept_defaults_only : kept defaults_only.
Proof.
  intros x db db' r Hx (H1 & H2 & H3). destruct x; cbn [statement snd].
  - unfold insert_Member. apply INSERT_INTO_keeps; [now repeat split|].
    intros _. now repeat split.
  - unfold insert_Trainer. apply INSERT_INTO_keeps; [now repeat split|].
    intros _. now repeat split.
  - unfold insert_Admin. apply INSERT_INTO_keeps; [now repeat split|].
    intros Hc. checks Hc. apply negb_true_iff in C3.
    destruct Hx as (-> & -> & -> & ->).
    split; [exact H1|]. split; [|exact H3]. right. cbn.
    destruct H2 as [H2|[i H2]]; rewrite H2 in *; [now eexists|].
    cbn in C3. discriminate C3.
  - unfold insert_HealthMetric. destruct (numeric_6_2 metric_value);
      (apply INSERT_INTO_keeps; [now repeat split|]); intros _;
      now repeat split.
  - unfold insert_Room. apply INSERT_INTO_keeps; [now repeat split|].
    intros _. now repeat split.
  - unfold insert_Class. apply INSERT_INTO_keeps; [now repeat split|].
    intros _. now repeat split.
  - unfold insert_PTSession. apply INSERT_INTO_keeps; [now repeat split|].
    intros _. cbn in Hx. subst status.
    split; [exact H1|]. split; [exact H2|]. cbn.
    intros s Hs. apply In_snoc in Hs. destruct Hs as [Hs| ->]; auto.
  - unfold insert_ClassEnrollment.
    apply INSERT_INTO_keeps; [now repeat split|].
    intros _. now repeat split.
  - unfold update_Member. destruct (first_error _); [now intros [= _ <-]|].
    destruct (get_Member (rows db) member_id); [|now intros [= _ <-]].
    intros [= _ <-]. now repeat split.
Qed.

Lemma reachable_unique_keys (db : DB) : reachable db -> unique_keys (rows db).
Proof.
  intros Hdb. apply reachable_kept; [exact kept_unique_keys| |exact Hdb].
  constructor; cbn; constructor.
Qed.

Lemma reachable_references (db : DB) : reachable db -> references (rows db).
Proof.
  intros Hdb. apply reachable_kept; [exact kept_references| |exact Hdb].
  constructor; cbn; intros ? [].
Qed.

(** X6.  The constraints that models.py declares hold in every store the
    operations reach from the empty one.  Unique: no two members share an
    email, nor two trainers; no two administrators a username or an email;
    no two rooms a name; a room holds one class at a time, a trainer one
    session at a time, and a member is enrolled in a class once.  Foreign
    keys and checks: every goal, metric, session and enrollment belongs to
    a member that exists, every class and session to a trainer that
    exists, every class to a room and every enrollment to a class that
    exist; rooms and classes have a positive capacity. *)
Theorem declared_constraints_hold_in_every_reachable_store :
  forall db : DB, reachable db -> unique_keys (rows db) /\ references (rows db).
Proof.
  intros db Hdb. split.
  - now apply reachable_unique_keys.
  - now apply reachable_references.
Qed.

Lemma reachable_defaults_only (db : DB) :
  reachable db -> defaults_only (rows db).
Proof.
  intros Hdb. apply reachable_kept; [exact kept_defaults_only| |exact Hdb].
  split; [reflexivity|]. split; [now left|intros ? []].
Qed.

(** X7.  What no operation does: none records a fitness goal, none adds
    an administrator other than the default one, and none gives a session
    a status other than "scheduled".  In every store the operations reach
    the FitnessGoal table is empty, the Admin table is empty or holds the
    default administrator alone, and every session is scheduled. *)
Theorem only_the_defaults_are_ever_stored :
  forall db : DB,
    reachable db ->
    FitnessGoals (rows db) = [] /\
    (Admins (rows db) = [] \/
     exists admin_id, Admins (rows db) = [default_admin admin_id]) /\
    (forall s, In s (PTSessions (rows db)) ->
               PTSession.status s = "scheduled").
Proof. intros db Hdb. exact (reachable_defaults_only Hdb). Qed.


(** ** Writes the engine refuses *)




(** ** Rooms and classes *)

Lemma int4_fits (z : Z) :
  -2147483648 <= z <= 2147483647 -> int4 z = None.
Proof.
  intros H. unfold int4, check.
  destruct (Z.leb_spec (-2147483648) z); [|lia].
  destruct (Z.leb_spec z 2147483647); [|lia]. reflexivity.
Qed.




Lemma existsb_time_false {A : Type} (k1 : A -> Z) (k2 : A -> DateTime)
    (l : list A) (u : Z) (t : DateTime) :
  existsb (fun a => (k1 a =? u) && DateTime_eqb (k2 a) t) l = false <->
  (forall a, In a l -> k1 a = u -> k2 a <> t).
Proof.
  split.
  - intros H a Ha <- <-.
    assert (existsb (fun a' => (k1 a' =? k1 a) && DateTime_eqb (k2 a') (k2 a))
              l = true)
      by (apply existsb_exists; exists a; split; [exact Ha|];
          now rewrite Z.eqb_refl, DateTime_eqb_refl).
    congruence.
  - intros H. apply existsb_none. intros a Ha.
    destruct (k1 a =? u) eqn:E1; [|reflexivity].
    destruct (DateTime_eqb (k2 a) t) eqn:E2; [|reflexivity].
    apply Z.eqb_eq in E1. apply DateTime_eqb_eq in E2.
    now destruct (H a Ha E1 E2).
Qed.


(** ** Health metrics *)


(** ** Profile update, with answers *)









(** ** Lists in order *)

Lemma insert_by_Permutation {A : Type} (key : A -> Z) (x : A) (l : list A) :
  Permutation (insert_by key x l) (x :: l).
Proof.
  induction l as [|y l IH]; [reflexivity|].
  cbn [insert_by]. destruct (key x <? key y); [reflexivity|].
  rewrite IH. apply perm_swap.
Qed.

Lemma order_by_Permutation {A : Type} (key : A -> Z) (l : list A) :
  Permutation (order_by key l) l.
Proof.
  induction l as [|x l IH]; [reflexivity|].
  unfold order_by in *. cbn [fold_right].
  rewrite insert_by_Permutation. now constructor.
Qed.

Lemma insert_by_ascending {A : Type} (key : A -> Z) (x : A) (l : list A) :
  ascending key l -> ascending key (insert_by key x l).
Proof.
  unfold ascending. induction 1 as [|y l Hl IH Hy]; cbn [insert_by].
  - constructor; constructor.
  - destruct (key x <? key y) eqn:E.
    + apply Z.ltb_lt in E. constructor; [now constructor|].
      constructor; [lia|].
      rewrite Forall_forall in *. intros z Hz. specialize (Hy z Hz). lia.
    + apply Z.ltb_ge in E. constructor; [exact IH|].
      rewrite Forall_forall in *. intros z Hz.
      apply (Permutation_in _ (insert_by_Permutation key x l)) in Hz.
      destruct Hz as [<-|Hz]; [exact E|now apply Hy].
Qed.

Lemma order_by_ascending {A : Type} (key : A -> Z) (l : list A) :
  ascending key (order_by key l).
Proof.
  induction l as [|x l IH]; [constructor|].
  unfold order_by in *. cbn [fold_right]. now apply insert_by_ascending.
Qed.

Lemma for_each_print {A : Type} (f : A -> Msg) (l : list A) :
  forall w : World,
    for_each l (fun x => print (f x)) w = (Ok tt, printed (map f l) w).
Proof.
  induction l as [|x l IH]; intros w.
  - cbn. unfold ret, printed. rewrite app_nil_r. now destruct w.
  - cbn [for_each]. rewrite bind_print, IH, printed_twice. reflexivity.
Qed.

(** ** The trainer's schedule *)

Lemma print_rows {A : Type} (f : A -> Msg) (none : string) (l : list A)
    (w : World) :
  match l with
  | [] => print (Line none)
  | _ :: _ => for_each l (fun x => print (f x))
  end w
  = (Ok tt,
     printed match l with [] => [Line none] | _ :: _ => map f l end w).
Proof. destruct l; [reflexivity|apply for_each_print]. Qed.

Lemma view_trainer_schedule_eq (w : World) (s : string) (rest : list string)
    (trainer_id : Z) (trainer : Trainer.t) :
  stdin w = s :: rest ->
  py_int s = Some trainer_id ->
  get_Trainer (rows (store w)) trainer_id = Some trainer ->
  view_trainer_schedule w
  = (Ok tt, asked (trainer_schedule (rows (store w)) trainer_id) rest w).
Proof.
  intros Hin Hid Htr. unfold view_trainer_schedule.
  rewrite bind_print, bind_input. cbn [stdin printed]. rewrite Hin.
  rewrite (bind_convert_Some _ _ _ _ Hid), bind_query.
  cbn [store asked printed rows]. rewrite Htr.
  rewrite bind_print, bind_query. cbn [store asked printed rows].
  change (order_by _ (flat_map _ (PTSessions (rows (store w)))))
    with (trainer_sessions (rows (store w)) trainer_id).
  unfold bind at 1.
  rewrite (print_rows session_row "No PT sessions scheduled."
             (trainer_sessions (rows (store w)) trainer_id)).
  rewrite bind_print, bind_query. cbn [store asked printed rows].
  change (order_by _ (flat_map _ (Classes (rows (store w)))))
    with (trainer_classes (rows (store w)) trainer_id).
  rewrite (print_rows schedule_class_row "No classes scheduled."
             (trainer_classes (rows (store w)) trainer_id)).
  unfold trainer_schedule, asked, printed.
  cbn [store pending stdin stdout sql clock]. f_equal. f_equal.
  rewrite app_nil_r, <- !app_assoc.
  now destruct (trainer_sessions _ _), (trainer_classes _ _).
Qed.

(** An inner join on a foreign key that holds loses no row. *)
Lemma join_keeps_rows {A B : Type} (ref : A -> option B) (p : A -> bool)
    (l : list A) :
  (forall a, In a l -> present (ref a) = true) ->
  map fst (flat_map (fun a => match ref a with
                              | Some b => if p a then [(a, b)] else []
                              | None => []
                              end) l)
  = filter p l.
Proof.
  induction l as [|a l IH]; intros H; [reflexivity|].
  cbn [flat_map filter]. rewrite map_app, IH by (intros; apply H; now right).
  specialize (H a (or_introl eq_refl)).
  destruct (ref a); [|discriminate]. now destruct (p a).
Qed.

Lemma join_refers {A B : Type} (ref : A -> option B) (p : A -> bool)
    (l : list A) (x : A * B) :
  In x (flat_map (fun a => match ref a with
                           | Some b => if p a then [(a, b)] else []
                           | None => []
                           end) l) ->
  In (fst x) l /\ ref (fst x) = Some (snd x) /\ p (fst x) = true.
Proof.
  intros H. apply in_flat_map in H. destruct H as (a & Ha & H).
  destruct (ref a) as [b|] eqn:E; [|destruct H].
  destruct (p a) eqn:Ep; [|destruct H]. destruct H as [<-|[]].
  now repeat split.
Qed.

(** X15.  view_trainer_schedule for a trainer that exists, in a store the
    operations have reached: it prints the sessions of that trainer, each
    once and with the name of its member, then the classes of that
    trainer, each once and with the name of its room, both in ascending
    order of time; it reads one line. *)
Theorem trainer_schedule_is_complete_and_in_order :
  forall (db : DB) (s : string) (rest : list string) (clock : DateTime)
         (trainer_id : Z) (trainer : Trainer.t),
    reachable db ->
    py_int s = Some trainer_id ->
    get_Trainer (rows db) trainer_id = Some trainer ->
    let r := run view_trainer_schedule db (s :: rest) clock in
    let sessions := trainer_sessions (rows db) trainer_id in
    let classes := trainer_classes (rows db) trainer_id in
    fst r = Ok tt /\
    stdout (snd r) = trainer_schedule (rows db) trainer_id /\
    stdin (snd r) = rest /\
    Permutation (map fst sessions)
      (filter (fun x => PTSession.trainer_id x =? trainer_id)
         (PTSessions (rows db))) /\
    (forall x, In x sessions ->
               get_Member (rows db) (PTSession.member_id (fst x))
               = Some (snd x)) /\
    ascending (fun x => DateTime_key (PTSession.session_time (fst x)))
      sessions /\
    Permutation (map fst classes)
      (filter (fun x => Class.trainer_id x =? trainer_id)
         (Classes (rows db))) /\
    (forall x, In x classes ->
               get_Room (rows db) (Class.room_id (fst x)) = Some (snd x)) /\
    ascending (fun x => DateTime_key (Class.class_time (fst x))) classes.
Proof.
  intros db s rest clock trainer_id trainer Hdb Hs Htr r sessions classes.
  pose proof (reachable_references Hdb) as Href.
  subst r. unfold run.
  rewrite (@view_trainer_schedule_eq (world db (s :: rest) clock) s rest
             trainer_id trainer eq_refl Hs Htr).
  cbn [fst snd asked stdout stdin world store app].
  split; [reflexivity|]. split; [reflexivity|]. split; [reflexivity|].
  subst sessions classes. unfold trainer_sessions, trainer_classes.
  split; [|split; [|split; [|split; [|split]]]].
  - rewrite (Permutation_map fst (order_by_Permutation _ _)).
    rewrite join_keeps_rows; [reflexivity|].
    apply (PTSession_member_id_fkey Href).
  - intros x Hx. apply (Permutation_in _ (order_by_Permutation _ _)) in Hx.
    now apply join_refers in Hx.
  - apply order_by_ascending.
  - rewrite (Permutation_map fst (order_by_Permutation _ _)).
    rewrite join_keeps_rows; [reflexivity|].
    apply (Class_room_id_fkey Href).
  - intros x Hx. apply (Permutation_in _ (order_by_Permutation _ _)) in Hx.
    now apply join_refers in Hx.
  - apply order_by_ascending.
Qed.

(** X16.  book_pt_session for a member and a trainer that exist, the
    trainer having no session at that time: the session is stored as
    "scheduled" under the next key and "Session booked." is printed.
    view_trainer_schedule, run next for that trainer, shows the session
    with the name of the member. *)
Theorem a_booked_session_shows_in_the_schedule :
  forall (db : DB) (member_str trainer_str time_str : string)
         (rest : list string) (clock : DateTime) (member_id trainer_id : Z)
         (session_time : DateTime) (member : Member.t) (trainer : Trainer.t),
    py_int member_str = Some member_id ->
    py_int trainer_str = Some trainer_id ->
    strptime_datetime time_str = Some session_time ->
    -2147483648 <= member_id <= 2147483647 ->
    -2147483648 <= trainer_id <= 2147483647 ->
    get_Member (rows db) member_id = Some member ->
    get_Trainer (rows db) trainer_id = Some trainer ->
    (forall x, In x (PTSessions (rows db)) ->
               PTSession.trainer_id x = trainer_id ->
               PTSession.session_time x <> session_time) ->
    let r := run book_pt_session db
               (member_str :: trainer_str :: time_str :: rest) clock in
    fst r = Ok tt /\
    rows (store (snd r))
    = add_PTSession
        {| PTSession.session_id := seq db TPTSession;
           PTSession.member_id := member_id;
           PTSession.trainer_id := trainer_id;
           PTSession.session_time := session_time;
           PTSession.status := "scheduled" |} (rows db) /\
    sql (snd r) = [INSERT TPTSession; COMMIT] /\
    stdout (snd r) = [Line "=== Book PT Session ==="; Line "Session booked."] /\
    forall (rest' : list string) (clock' : DateTime),
      let r' := run view_trainer_schedule (store (snd r))
                  (trainer_str :: rest') clock' in
      fst r' = Ok tt /\
      In (SessionRow (seq db TPTSession) session_time (Member.name member)
            "scheduled")
         (stdout (snd r')).
Proof.
  intros db member_str trainer_str time_str rest clock member_id trainer_id
    session_time member trainer Hm Ht Htime Him Hit Hmem Htr Hfree r.
  set (new := {| PTSession.session_id := seq db TPTSession;
                 PTSession.member_id := member_id;
                 PTSession.trainer_id := trainer_id;
                 PTSession.session_time := session_time;
                 PTSession.status := "scheduled" |}).
  assert (Hins : insert_PTSession member_id trainer_id session_time
                   (Some "scheduled") db
                 = (Ok (seq db TPTSession),
                    with_rows (add_PTSession new (rows db))
                      (nextval TPTSession db))).
  { unfold insert_PTSession. apply INSERT_INTO_accepted.
    - cbn [first_error]. rewrite !int4_fits by assumption. reflexivity.
    - cbn [first_error not_null]. rewrite Hmem, Htr.
      apply existsb_time_false in Hfree. rewrite Hfree. reflexivity. }
  assert (Hr : r = (Ok tt,
                    {| store := with_rows (add_PTSession new (rows db))
                                  (nextval TPTSession db);
                       pending := []; stdin := rest;
                       stdout := [Line "=== Book PT Session ===";
                                  Line "Session booked."];
                       sql := [INSERT TPTSession; COMMIT];
                       clock := clock |})).
  { subst r. unfold book_pt_session, run, world. cbn. do 3 parse.
    commit_Ok Hins. reflexivity. }
  rewrite Hr. cbn [fst snd store sql stdout rows with_rows].
  do 4 (split; [reflexivity|]).
  intros rest' clock'. unfold run.
  match goal with
  | |- context [view_trainer_schedule ?w] =>
      rewrite (@view_trainer_schedule_eq w trainer_str rest' trainer_id
                 trainer eq_refl Ht Htr)
  end.
  cbn [fst snd asked stdout world store rows with_rows app].
  split; [reflexivity|].
  assert (Hin : In (new, member)
                  (trainer_sessions (add_PTSession new (rows db)) trainer_id)).
  { unfold trainer_sessions.
    apply (Permutation_in _ (Permutation_sym (order_by_Permutation _ _))).
    apply in_flat_map. exists new. split.
    - cbn. apply in_or_app. right. now left.
    - change (get_Member (add_PTSession new (rows db))
                (PTSession.member_id new))
        with (get_Member (rows db) member_id).
      rewrite Hmem. cbn [PTSession.trainer_id new]. rewrite Z.eqb_refl.
      now left. }
  unfold trainer_schedule. cbn [app]. right. right. apply in_or_app. left.
  destruct (trainer_sessions _ _) as [|x l]; [destruct Hin|].
  now apply (in_map session_row) in Hin.
Qed.

(** ** The classes on offer *)

Lemma classes_join_keeps_rows (T : Tables) (l : list Class.t) :
  (forall c, In c l -> present (get_Room T (Class.room_id c)) = true) ->
  (forall c, In c l -> present (get_Trainer T (Class.trainer_id c)) = true) ->
  map (fun x => fst (fst x))
    (flat_map
       (fun c =>
          match get_Room T (Class.room_id c),
                get_Trainer T (Class.trainer_id c) with
          | Some r, Some t => [(c, r, t)]
          | _, _ => []
          end) l)
  = l.
Proof.
  induction l as [|c l IH]; intros Hr Ht; [reflexivity|].
  cbn [flat_map]. rewrite map_app, IH by (intros; auto using in_cons).
  specialize (Hr c (or_introl eq_refl)). specialize (Ht c (or_introl eq_refl)).
  destruct (get_Room T (Class.room_id c)); [|discriminate].
  destruct (get_Trainer T (Class.trainer_id c)); [|discriminate].
  reflexivity.
Qed.

Lemma classes_join_refers (T : Tables) (x : Class.t * Room.t * Trainer.t) :
  In x (classes_with_room_and_trainer T) ->
  In (fst (fst x)) (Classes T) /\
  get_Room T (Class.room_id (fst (fst x))) = Some (snd (fst x)) /\
  get_Trainer T (Class.trainer_id (fst (fst x))) = Some (snd x).
Proof.
  unfold classes_with_room_and_trainer. intros H.
  apply (Permutation_in _ (order_by_Permutation _ _)) in H.
  apply in_flat_map in H. destruct H as (c & Hc & H).
  destruct (get_Room T (Class.room_id c)) as [r|] eqn:Er; [|destruct H].
  destruct (get_Trainer T (Class.trainer_id c)) as [t|] eqn:Et; [|destruct H].
  destruct H as [<-|[]]. now repeat split.
Qed.

(** X17.  view_available_classes in a store the operations have reached:
    it lists every class once, with its room and its trainer, in ascending
    order of time; the number enrolled that it shows is between zero and
    the capacity of the class; it shows "FULL" exactly when the two are
    equal, and otherwise the number of places left, which is positive. *)
Theorem available_classes_are_listed_with_their_places :
  forall (db : DB) (lines : list string) (clock : DateTime),
    reachable db ->
    let r := run view_available_classes db lines clock in
    let listed := classes_with_room_and_trainer (rows db) in
    fst r = Ok tt /\
    stdout (snd r) = available_classes (rows db) /\
    Permutation (map (fun x => fst (fst x)) listed) (Classes (rows db)) /\
    ascending (fun x => DateTime_key (Class.class_time (fst (fst x)))) listed
    /\
    forall (class_obj : Class.t) (room : Room.t) (trainer : Trainer.t),
      In (class_obj, room, trainer) listed ->
      let enrolled := enrollment_count (rows db) (Class.class_id class_obj) in
      get_Room (rows db) (Class.room_id class_obj) = Some room /\
      get_Trainer (rows db) (Class.trainer_id class_obj) = Some trainer /\
      0 <= enrolled <= Class.capacity class_obj /\
      exists status,
        class_row (rows db) (class_obj, room, trainer)
        = ClassRow (Class.class_id class_obj) (Class.class_name class_obj)
            (Class.class_time class_obj) (Trainer.name trainer)
            (Room.name room) enrolled (Class.capacity class_obj) status /\
        match status with
        | FULL => enrolled = Class.capacity class_obj
        | spots n => n = Class.capacity class_obj - enrolled /\ 0 < n
        end.
Proof.
  intros db lines clock Hdb r listed.
  destruct (reachable_invariant Hdb) as [Hc Hb].
  subst r. unfold run. rewrite view_available_classes_eq.
  cbn [fst snd printed stdout world store app].
  split; [reflexivity|]. split; [reflexivity|].
  subst listed. split; [|split].
  - unfold classes_with_room_and_trainer.
    rewrite (Permutation_map _ (order_by_Permutation _ _)).
    rewrite classes_join_keeps_rows; [reflexivity| |].
    + apply (class_room Hc).
    + apply (class_trainer Hc).
  - apply order_by_ascending.
  - intros class_obj room trainer Hin.
    set (enrolled := enrollment_count (rows db) (Class.class_id class_obj)).
    apply classes_join_refers in Hin. cbn [fst snd] in Hin.
    destruct Hin as (Hin & Hroom & Htr).
    destruct (Hb class_obj Hin) as (Hle & _).
    assert (H0 : 0 <= enrolled)
      by (subst enrolled; unfold enrollment_count; lia).
    split; [exact Hroom|]. split; [exact Htr|]. split; [lia|].
    unfold class_row. fold enrolled.
    destruct (Z.eqb_spec (Class.capacity class_obj - enrolled) 0) as [E|E].
    + exists FULL. split; [reflexivity|]. lia.
    + exists (spots (Class.capacity class_obj - enrolled)).
      split; [reflexivity|]. lia.
Qed.

(** ** A metric, once recorded *)



(** ** The search of member_lookup *)

Lemma like_percent (p s : string) :
  like (String "%" p) s
  = like p s || match s with
                | EmptyString => false
                | String _ s' => like (String "%" p) s'
                end.
Proof. now destruct s. Qed.

Lemma like_any (s : string) : like "%" s = true.
Proof.
  induction s as [|c s IH]; [reflexivity|].
  rewrite like_percent, IH. now rewrite orb_true_r.
Qed.





Lemma prints_on_same {A : Type} (m : Op A) :
  (forall w, stdout (snd (m w)) = stdout w) -> prints_on m.
Proof. intros H w. exists []. now rewrite H, app_nil_r. Qed.

Lemma prints_on_print (m : Msg) : prints_on (print m).
Proof. intros w. now exists [m]. Qed.

Lemma prints_on_bind {A B : Type} (m : Op A) (k : A -> Op B) :
  prints_on m -> (forall a, prints_on (k a)) -> prints_on (bind m k).
Proof.
  intros Hm Hk w. unfold bind. destruct (Hm w) as [l1 H1].
  destruct (m w) as [[a|e] w']; cbn [snd] in *; [|now exists l1].
  destruct (Hk a w') as [l2 H2]. exists (l1 ++ l2).
  now rewrite H2, H1, app_assoc.
Qed.

Lemma prints_on_for_each {A : Type} (l : list A) (body : A -> Op unit) :
  (forall x, prints_on (body x)) -> prints_on (for_each l body).
Proof.
  intros Hb. induction l as [|x l IH]; [now apply prints_on_same|].
  cbn [for_each]. apply prints_on_bind; [apply Hb|intros _; exact IH].
Qed.

Ltac said :=
  repeat match goal with
    | |- prints_on (bind _ _) => apply prints_on_bind; [|intros ?]
    | |- prints_on (print _) => apply prints_on_print
    | |- prints_on (for_each _ _) => apply prints_on_for_each; intros ?
    | |- prints_on input =>
        apply prints_on_same; intros ?; unfold input;
        now destruct (stdin _)
    | |- prints_on (convert ?f ?s) =>
        apply prints_on_same; intros ?; unfold convert; now destruct (f s)
    | |- prints_on (match ?x with _ => _ end) => destruct x
    | |- prints_on _ => apply prints_on_same; reflexivity
    end.

(** member_lookup up to the list of the members found. *)
Lemma member_lookup_search (db : DB) (name_like : string)
    (rest : list string) (clock : DateTime) :
  let found :=
    filter (fun m => like ("%" ++ lower name_like ++ "%")
                       (lower (Member.name m)))
      (Members (rows db)) in
  let r := run member_lookup db (name_like :: rest) clock in
  (found = [] ->
   fst r = Ok tt /\ stdin (snd r) = rest /\
   stdout (snd r)
   = [Line "=== Member Lookup (Trainer) ==="; Line "No members found."]) /\
  (found <> [] ->
   exists more,
     stdout (snd r)
     = Line "=== Member Lookup (Trainer) ===" :: map member_row found
       ++ more).
Proof.
  intros found r. subst r. unfold run, member_lookup.
  rewrite bind_print, bind_input. cbn [stdin printed world].
  rewrite asked_printed, bind_query.
  change (rows (store (asked _ rest (world db (name_like :: rest) clock))))
    with (rows db).
  fold found. split.
  - intros H0. rewrite H0. now repeat split.
  - intros Hne. destruct found as [|x l]; [now contradiction Hne|].
    unfold bind at 1.
    rewrite (for_each_print member_row (x :: l)).
    match goal with
    | |- context [bind input ?k ?w] =>
        assert (Hk : prints_on (bind input k)) by said;
        destruct (Hk w) as [more Hmore]
    end.
    exists more. rewrite Hmore. reflexivity.
Qed.


Lemma lower_empty (s : string) : (lower s =? "")%string = (s =? "")%string.
Proof. now destruct s. Qed.

Lemma like_one_or_more (s : string) :
  like "%_%" s = negb (s =? "")%string.
Proof.
  destruct s as [|c s]; [reflexivity|].
  rewrite like_percent. cbn [like]. now rewrite like_any.
Qed.

Lemma like_anything (s : string) : like "%%%" s = true.
Proof.
  induction s as [|c s IH]; [reflexivity|].
  rewrite like_percent, IH. now rewrite orb_true_r.
Qed.

(** X20.  member_lookup does not escape the wildcards of LIKE in the text
    it is given.  The text "%" lists every member, and the text "_" every
    member whose name is not empty, whether or not a name holds a percent
    sign or an underscore. *)
Theorem member_lookup_reads_wildcards :
  forall (db : DB) (rest : list string) (clock : DateTime),
    let named :=
      filter (fun m => negb (Member.name m =? "")%string)
        (Members (rows db)) in
    (Members (rows db) <> [] ->
     exists more,
       stdout (snd (run member_lookup db ("%" :: rest) clock))
       = Line "=== Member Lookup (Trainer) ==="
         :: map member_row (Members (rows db)) ++ more) /\
    (named <> [] ->
     exists more,
       stdout (snd (run member_lookup db ("_" :: rest) clock))
       = Line "=== Member Lookup (Trainer) ===" :: map member_row named
         ++ more).
Proof.
  intros db rest clock named. split.
  - pose proof (member_lookup_search db "%" rest clock) as H.
    cbv zeta in H. destruct H as [_ H].
    assert (Hq : filter (fun m => like ("%" ++ lower "%" ++ "%")
                                    (lower (Member.name m)))
                   (Members (rows db)) = Members (rows db)).
    { clear. induction (Members (rows db)) as [|m l IH]; [reflexivity|].
      cbn [filter]. change ("%" ++ lower "%" ++ "%")%string with "%%%".
      rewrite like_anything. now f_equal. }
    rewrite Hq in H. exact H.
  - pose proof (member_lookup_search db "_" rest clock) as H.
    cbv zeta in H. destruct H as [_ H].
    assert (Hq : filter (fun m => like ("%" ++ lower "_" ++ "%")
                                    (lower (Member.name m)))
                   (Members (rows db)) = named).
    { subst named. apply filter_ext. intros m.
      change ("%" ++ lower "_" ++ "%")%string with "%_%".
      now rewrite like_one_or_more, lower_empty. }
    rewrite Hq in H. exact H.
Qed.

(** ** Identifiers *)



(** X22.  create_default_admin at a launch, on a store the operations have
    reached: it returns (no exception), and the Admin table then holds the
    default administrator and no other.  When the table was empty it
    commits the row and prints the notice; otherwise it writes and prints
    nothing. *)
Theorem create_default_admin_leaves_the_default_admin :
  forall (db : DB) (lines : list string) (clock : DateTime),
    reachable db ->
    let r := run create_default_admin db lines clock in
    fst r = Ok tt /\
    (exists admin_id,
       Admins (rows (store (snd r))) = [default_admin admin_id]) /\
    (Admins (rows db) <> [] -> snd r = world db lines clock) /\
    (Admins (rows db) = [] ->
     sql (snd r) = [INSERT TAdmin; COMMIT] /\
     stdout (snd r)
     = [Line "Default admin account created (username: admin, password: admin123)."]).
Proof.
  intros db lines clock Hdb r.
  destruct (reachable_defaults_only Hdb) as (_ & Ha & _).
  subst r. unfold create_default_admin, run, world. cbn.
  destruct Ha as [Ha|[i Ha]]; rewrite Ha; cbn.
  - assert (Hins : insert_Admin (Some "admin") (Some "admin123")
                     (Some "System Administrator")
                     (Some "admin@fitnessclub.com") db
                   = (Ok (seq db TAdmin),
                      with_rows (add_Admin (default_admin (seq db TAdmin))
                                   (rows db)) (nextval TAdmin db))).
    { unfold insert_Admin. apply INSERT_INTO_accepted; [reflexivity|].
      cbn [first_error not_null value]. now rewrite Ha. }
    erewrite bind_commit_one;
      [|reflexivity|cbn [statement snd store]; exact Hins].
    cbn. split; [reflexivity|]. split; [|split].
    + exists (seq db TAdmin). now rewrite Ha.
    + intros H. now contradiction H.
    + intros _. now split.
  - split; [reflexivity|]. split; [now exists i|]. split; [reflexivity|].
    intros H. discriminate H.
Qed.

(** X23.  book_pt_session and signup_for_class answer an identifier that
    is not a number with a message and stop there: nothing is sent, the
    store is as it was, and the lines not yet read stay for the menu.
    (The second identifier is asked only once the first is a number; in
    signup_for_class, once the member is found and the classes are
    listed.) *)
Theorem a_non_numeric_identifier_is_answered :
  forall (db : DB) (s : string) (rest : list string) (clock : DateTime),
    py_int s = None ->
    run book_pt_session db (s :: rest) clock
    = (Ok tt,
       {| store := db; pending := []; stdin := rest;
          stdout := [Line "=== Book PT Session ===";
                     Line "Invalid member ID. Please enter a number."];
          sql := []; clock := clock |}) /\
    run signup_for_class db (s :: rest) clock
    = (Ok tt,
       {| store := db; pending := []; stdin := rest;
          stdout := [Line "=== Sign Up for Class ===";
                     Line "Invalid member ID. Please enter a number."];
          sql := []; clock := clock |}) /\
    (forall (m : string) (member_id : Z),
       py_int m = Some member_id ->
       run book_pt_session db (m :: s :: rest) clock
       = (Ok tt,
          {| store := db; pending := []; stdin := rest;
             stdout := [Line "=== Book PT Session ===";
                        Line "Invalid trainer ID. Please enter a number."];
             sql := []; clock := clock |})) /\
    (forall (m : string) (member_id : Z) (member : Member.t),
       py_int m = Some member_id ->
       get_Member (rows db) member_id = Some member ->
       run signup_for_class db (m :: s :: rest) clock
       = (Ok tt,
          {| store := db; pending := []; stdin := rest;
             stdout := Line "=== Sign Up for Class ==="
                       :: available_classes (rows db)
                       ++ [Line "Invalid class ID. Please enter a number."];
             sql := []; clock := clock |})).
Proof.
  intros db s rest clock Hs. split; [|split; [|split]].
  - unfold book_pt_session, run, world. cbn. parse. reflexivity.
  - unfold signup_for_class, run, world. cbn. parse. reflexivity.
  - intros m member_id Hm.
    unfold book_pt_session, run, world. cbn. do 2 parse. reflexivity.
  - intros m member_id member Hm Hmem.
    unfold signup_for_class, run, world. cbn. parse. rewrite Hmem. cbn.
    rewrite bind_view_available_classes. cbn. parse. reflexivity.
Qed.

(** ** A session at the member menu *)

Lemma maintains_bind (P : DB -> Prop) {A B : Type} (m : Op A)
    (k : A -> Op B) :
  maintains P m -> (forall a, maintains P (k a)) -> maintains P (bind m k).
Proof.
  intros Hm Hk w Hw Hp. unfold bind. destruct (Hm w Hw Hp) as [Hw' Hp'].
  destruct (m w) as [[a|e] w']; [now apply Hk|now split].
Qed.

Lemma invariant_operation (c : Command) : maintains invariant (operation c).
Proof.
  intros w Hinv Hp.
  destruct (one_transaction_operation c w Hp) as [Hp' _].
  split; [|exact Hp'].
  assert (Hc : c = SignupForClass \/ c <> SignupForClass)
    by (destruct c; auto; right; discriminate).
  destruct Hc as [->|Hc].
  - cbn [operation]. pose proof stable_invariant as HP.
    apply (@ends_signup_for_class (store w) invariant Hinv);
      [|reflexivity|exact Hp].
    intros member_id class_id class_obj Hcls Hlt.
    apply ends_enroll_invariant with class_obj; try assumption.
    + intros ids. preserve.
    + intros e. destruct e; cbn beta iota; preserve.
  - apply (@preserves_operation invariant c stable_invariant Hc w).
    split; [exact Hinv|]. rewrite Hp. intros x [].
Qed.

Lemma well_formed_operation (c : Command) :
  maintains well_formed (operation c).
Proof.
  intros w (Hinv & Hu & Hr) Hp.
  destruct (invariant_operation c w Hinv Hp) as [Hinv' Hp'].
  split; [|exact Hp'].
  assert (Hi : Forall issued (pending w)) by (rewrite Hp; constructor).
  split; [exact Hinv'|]. split.
  - exact (proj1 (keeps_operation c kept_unique_keys w Hu Hi)).
  - exact (proj1 (keeps_operation c kept_references w Hr Hi)).
Qed.

Lemma well_formed_member_menu_loop (n : nat) :
  maintains well_formed (member_menu_loop n).
Proof.
  induction n as [|n IH]; intros w Hw Hp; [now split|].
  rewrite member_menu_loop_turn.
  destruct (stdin w) as [|choice rest]; [now split|]. cbn zeta.
  assert (B : forall (c : Command) (ms : list Msg),
             let r := bind (operation c) (fun _ => member_menu_loop n)
                        (asked ms rest w) in
             well_formed (store (snd r)) /\ pending (snd r) = []).
  { intros c ms.
    apply maintains_bind;
      [apply well_formed_operation|intros _; exact IH|exact Hw|exact Hp]. }
  destruct (_ =? _)%string; [exact (B RegisterMember _)|].
  destruct (_ =? _)%string; [exact (B UpdateMemberProfile _)|].
  destruct (_ =? _)%string; [exact (B AddHealthMetric _)|].
  destruct (_ =? _)%string; [exact (B BookPTSession _)|].
  destruct (_ =? _)%string; [exact (B ViewAvailableClasses _)|].
  destruct (_ =? _)%string; [exact (B SignupForClass _)|].
  destruct (_ =? _)%string; [now split|].
  now apply IH.
Qed.

(** X24.  A session at the member menu keeps the store in order.  Started
    on a store on which the constraints of models.py hold, the keys are
    those the sequences gave and no class holds more members than its
    capacity, nor a capacity above its room's, the menu leaves such a
    store, with nothing pending in the session: whatever is typed, in
    whatever order the operations are chosen, and whether the menu returns
    or ends with an exception. *)
Theorem the_member_menu_keeps_the_store_in_order :
  forall (db : DB) (lines : list string) (clock : DateTime),
    well_formed db ->
    let w := snd (run member_menu db lines clock) in
    well_formed (store w) /\ pending w = [].
Proof.
  intros db lines clock Hdb w. subst w. unfold run, member_menu.
  now apply well_formed_member_menu_loop.
Qed.

(** ** The details member_lookup shows *)

Lemma bind_for_each_print {A B : Type} (f : A -> Msg) (l : list A)
    (k : unit -> Op B) (w : World) :
  bind (for_each l (fun x => print (f x))) k w = k tt (printed (map f l) w).
Proof. unfold bind. now rewrite for_each_print. Qed.

(** X25.  member_lookup once the search has listed members, in a store the
    operations have reached.  The identifier typed next is converted
    outside any try block: when it is not a number, ValueError leaves the
    operation.  An identifier no member has gives "Member not found.".
    Any member that exists is shown, whether or not the search listed it:
    the latest metric (or "No metrics recorded."), and then always "No
    goals defined.", no operation recording a goal. *)
Theorem member_lookup_shows_the_member_typed :
  forall (db : DB) (name_like s : string) (rest : list string)
         (clock : DateTime),
    reachable db ->
    let found :=
      filter (fun m => like ("%" ++ lower name_like ++ "%")
                         (lower (Member.name m)))
        (Members (rows db)) in
    let r := run member_lookup db (name_like :: s :: rest) clock in
    let listed :=
      Line "=== Member Lookup (Trainer) ===" :: map member_row found in
    found <> [] ->
    (py_int s = None ->
     fst r = Raise ValueError /\ stdout (snd r) = listed) /\
    (forall member_id : Z,
       py_int s = Some member_id ->
       get_Member (rows db) member_id = None ->
       fst r = Ok tt /\ stdout (snd r) = listed ++ [Line "Member not found."])
    /\
    (forall (member_id : Z) (member : Member.t),
       py_int s = Some member_id ->
       get_Member (rows db) member_id = Some member ->
       fst r = Ok tt /\ stdin (snd r) = rest /\ store (snd r) = db /\
       stdout (snd r)
       = listed
         ++ [Line "-- Latest Metric --";
             match latest_metric (rows db) member_id with
             | Some h =>
                 LatestMetricRow (HealthMetric.metric_type h)
                   (HealthMetric.metric_value h) (HealthMetric.timestamp h)
             | None => Line "No metrics recorded."
             end;
             Line "-- Goals --"; Line "No goals defined."]).
Proof.
  intros db name_like s rest clock Hdb found r listed Hne.
  destruct (reachable_defaults_only Hdb) as (Hg & _ & _).
  subst r listed. unfold run, member_lookup.
  rewrite bind_print, bind_input. cbn [stdin printed world].
  rewrite asked_printed, bind_query.
  change (rows (store (asked _ (s :: rest)
                         (world db (name_like :: s :: rest) clock))))
    with (rows db).
  fold found. destruct found as [|x l]; [now contradiction Hne|].
  rewrite (bind_for_each_print member_row (x :: l)).
  rewrite bind_input. cbn [stdin asked printed].
  split; [|split].
  - intros Hs. rewrite (bind_convert_None _ _ _ _ Hs).
    split; [reflexivity|]. cbn. now rewrite app_nil_r.
  - intros member_id Hs Hm.
    rewrite (bind_convert_Some _ _ _ _ Hs), bind_query.
    cbn [store rows asked printed world]. rewrite Hm.
    split; [reflexivity|]. cbn. now rewrite app_nil_r.
  - intros member_id member Hs Hm.
    rewrite (bind_convert_Some _ _ _ _ Hs), bind_query.
    cbn [store rows asked printed world]. rewrite Hm. rewrite !bind_query.
    cbn [store rows asked printed world]. rewrite Hg. cbn [filter].
    destruct (latest_metric (rows db) member_id) as [h|]; cbn;
      (split; [reflexivity|]); (split; [reflexivity|]);
      (split; [reflexivity|]); rewrite ?app_nil_r, <- ?app_assoc;
      reflexivity.
Qed.

End Properties.

(** ** The operations at work *)


(** C2 fails on the code.  In the member menu, choice 3 (add_health_metric)
    with the text "abc" for the member identifier: ValueError leaves the
    operation and the menu, and the process ends; so do choice 2
    (update_member_profile) and create_room with a capacity that is not a
    number.  Choice 4 (book_pt_session) catches the same error, prints a
    line and returns to the menu. *)
Theorem non_numeric_identifier_ends_the_process :
  fst (run (@member_menu ascii_builtins) studio
         ["3"; "abc"; "Weight (kg)"; "70.5"; "0"] noon)
  = Raise ValueError /\
  fst (run (@member_menu ascii_builtins) studio ["2"; "abc"; "0"] noon)
  = Raise ValueError /\
  fst (run (@create_room ascii_builtins) studio ["Studio B"; "ten"] noon)
  = Raise ValueError /\
  fst (run (@member_menu ascii_builtins) studio ["4"; "abc"; "0"] noon)
  = Ok tt /\
  firstn 3 (skipn 8 (stdout (snd (run (@member_menu ascii_builtins) studio
                                    ["4"; "abc"; "0"] noon))))
  = [Line "=== Book PT Session ===";
     Line "Invalid member ID. Please enter a number.";
     Line "--- Member Menu ---"].
Proof. vm_compute. repeat split. Qed.



(** C4 on the studio: Ann is enrolled already, Bob takes the last place,
    and Cy finds the class full. *)
Lemma signup_for_class_witness :
  let ann := run (@signup_for_class ascii_builtins) studio ["1"; "1"] noon in
  let bob := run (@signup_for_class ascii_builtins) studio ["2"; "1"] noon in
  let cy := run (@signup_for_class ascii_builtins) full_studio ["3"; "1"]
              noon in
  (last (stdout (snd ann)) (Line "")
   = Line "You are already enrolled in this class." /\
   store (snd ann) = studio) /\
  (last (stdout (snd bob)) (Line "") = SpacesRemaining 0 /\
   enrollment_count (rows (store (snd bob))) 1 = 2) /\
  (last (stdout (snd cy)) (Line "") = ClassIsFull 2 2 /\
   store (snd cy) = full_studio).
Proof.
  intros ann bob cy.
  pose (yoga := {| Class.class_id := 1; Class.trainer_id := 1;
                   Class.room_id := 1; Class.class_name := "Yoga";
                   Class.class_time := monday_10; Class.capacity := 2 |}).
  assert (Hann : existing_enrollment (rows studio) 1 1 <> None)
    by (vm_compute; discriminate).
  assert (Hbob : existing_enrollment (rows studio) 2 1 = None)
    by reflexivity.
  assert (Hcy : existing_enrollment (rows full_studio) 3 1 = None)
    by (vm_compute; reflexivity).
  assert (Hplace : enrollment_count (rows studio) 1 < Class.capacity yoga)
    by reflexivity.
  assert (Hfull : Class.capacity yoga <= enrollment_count (rows full_studio) 1)
    by (vm_compute; discriminate).
  assert (Htess : get_Trainer (rows studio) (Class.trainer_id yoga) <> None)
    by (vm_compute; discriminate).
  assert (Hroom : get_Room (rows studio) (Class.room_id yoga) <> None)
    by (vm_compute; discriminate).
  pose proof (proj1 (@signup_for_class_outcomes ascii_builtins studio
                       "1" "1" [] noon 1 1
                       {| Member.member_id := 1; Member.name := "Ann";
                          Member.email := "ann@club.org";
                          Member.date_of_birth := None;
                          Member.gender := None;
                          Member.phone := Some "555-0101" |}
                       yoga eq_refl eq_refl eq_refl eq_refl) Hann) as Ha.
  pose proof (proj2 (proj2 (@signup_for_class_outcomes ascii_builtins studio
                       "2" "1" [] noon 2 1
                       {| Member.member_id := 2; Member.name := "Bob";
                          Member.email := "bob@club.org";
                          Member.date_of_birth := None;
                          Member.gender := None; Member.phone := None |}
                       yoga eq_refl eq_refl eq_refl eq_refl))
                Hbob Hplace eq_refl eq_refl Htess Hroom) as Hb.
  assert (Hm3 : get_Member (rows full_studio) 3
                = Some {| Member.member_id := 3; Member.name := "Cy";
                          Member.email := "cy@club.org";
                          Member.date_of_birth := None;
                          Member.gender := None; Member.phone := None |})
    by (vm_compute; reflexivity).
  assert (Hc1 : get_Class (rows full_studio) 1 = Some yoga)
    by (vm_compute; reflexivity).
  pose proof (proj1 (proj2 (@signup_for_class_outcomes ascii_builtins
                       full_studio "3" "1" [] noon 3 1 _ yoga
                       eq_refl Hm3 eq_refl Hc1)) Hcy Hfull) as Hc.
  destruct Ha as (_ & Ha1 & _ & Ha2).
  destruct Hb as (_ & _ & _ & Hb1 & Hb2).
  destruct Hc as (_ & Hc1' & _ & Hc2).
  split; [split; [exact Ha2|exact Ha1]|].
  split; [split; [exact Hb2|exact Hb1]|].
  split; [exact Hc2|exact Hc1'].
Defined.

(** C5 on the studio: a time that is no time; Ann's session with Tess, then
    Bob asking for Tess at the same time; and a member that does not
    exist. *)
Lemma book_pt_session_witness :
  let no_time := run (@book_pt_session ascii_builtins) studio
                   ["1"; "1"; "tomorrow at ten"] noon in
  let ann := run (@book_pt_session ascii_builtins) studio
               ["1"; "1"; "2025-06-02 10:00"] noon in
  let bob := run (@book_pt_session ascii_builtins) (store (snd ann))
               ["2"; "1"; "2025-06-02 10:00"] noon in
  let nobody := run (@book_pt_session ascii_builtins) studio
                  ["99"; "1"; "2025-06-02 10:00"] noon in
  (stdout (snd no_time)
   = [Line "=== Book PT Session ===";
      Line "Invalid date/time format. Please use YYYY-MM-DD HH:MM"] /\
   store (snd no_time) = studio) /\
  (last (stdout (snd ann)) (Line "") = Line "Session booked." /\
   stdout (snd bob)
   = [Line "=== Book PT Session ===";
      ErrorBookingSession (UniqueViolation "uq_trainer_time")] /\
   rows (store (snd bob)) = rows (store (snd ann)) /\
   In {| PTSession.session_id := 1; PTSession.member_id := 1;
         PTSession.trainer_id := 1; PTSession.session_time := monday_10;
         PTSession.status := "scheduled" |}
      (PTSessions (rows (store (snd bob))))) /\
  (stdout (snd nobody)
   = [Line "=== Book PT Session ===";
      ErrorBookingSession (ForeignKeyViolation "PTSession_member_id_fkey")] /\
   sql (snd nobody) = [INSERT TPTSession; ROLLBACK] /\
   rows (store (snd nobody)) = rows studio).
Proof.
  intros no_time ann bob nobody.
  pose proof (@book_pt_session_failures ascii_builtins studio
                "1" "1" "tomorrow at ten" [] noon 1 1 eq_refl eq_refl) as Ha.
  pose proof (@book_pt_session_failures ascii_builtins studio
                "1" "1" "2025-06-02 10:00" [] noon 1 1 eq_refl eq_refl) as Hb.
  pose proof (@book_pt_session_failures ascii_builtins studio
                "99" "1" "2025-06-02 10:00" [] noon 99 1 eq_refl eq_refl)
    as Hc.
  assert (Hann : last (stdout (snd ann)) (Line "") = Line "Session booked.")
    by (vm_compute; reflexivity).
  assert (Hfree : forall s, In s (PTSessions (rows studio)) ->
                            PTSession.trainer_id s = 1 ->
                            PTSession.session_time s <> monday_10)
    by (intros s []).
  pose proof (proj1 Ha eq_refl) as Ha'.
  pose proof (proj1 (proj2 Hb) monday_10 "2" "1" "2025-06-02 10:00" [] noon 2
                eq_refl Hann eq_refl eq_refl eq_refl eq_refl) as Hb'.
  pose proof (proj2 (proj2 Hc) monday_10 "PTSession_member_id_fkey"
                eq_refl eq_refl eq_refl Hfree
                (or_introl (conj eq_refl eq_refl))) as Hc'.
  destruct Ha' as (_ & Ha1 & _ & Ha2).
  destruct Hb' as (_ & Hb1 & _ & Hb2 & Hb3).
  destruct Hc' as (_ & Hc1 & Hc2 & Hc3).
  split; [split; [exact Ha2|exact Ha1]|].
  split; [split; [exact Hann|split; [exact Hb1|split; [exact Hb2|exact Hb3]]]|].
  split; [exact Hc1|split; [exact Hc2|exact Hc3]].
Defined.

(** C6 on the studio: Ann's profile, nothing typed for the name and blanks
    for the phone. *)
Lemma update_member_profile_witness :
  let r := run (@update_member_profile ascii_builtins) studio
             ["1"; ""; "   "] noon in
  (strip "" = "" /\ strip "   " = "") /\
  fst r = Ok tt /\ store (snd r) = studio /\ sql (snd r) = [COMMIT] /\
  last (stdout (snd r)) (Line "") = Line "Profile updated successfully!".
Proof.
  intros r. split; [split; reflexivity|].
  exact (proj1 (@update_member_profile_blank_keeps_value ascii_builtins
                  studio "1" "" "   " [] noon 1
                  {| Member.member_id := 1; Member.name := "Ann";
                     Member.email := "ann@club.org";
                     Member.date_of_birth := None; Member.gender := None;
                     Member.phone := Some "555-0101" |}
                  eq_refl eq_refl) eq_refl eq_refl).
Defined.



(** C9 on the empty store. *)
Lemma default_admin_witness :
  let r := run create_default_admin empty_db [] noon in
  Admins (rows empty_db) = [] /\
  fst r = Ok tt /\
  Admins (rows (store (snd r))) = [default_admin 1] /\
  fst (run authenticate_admin (store (snd r))
         ["admin"; "admin123"] noon) = Ok (Some (default_admin 1)) /\
  fst (run authenticate_admin (store (snd r))
         ["admin"; "Admin123"] noon) = Ok None.
Proof.
  intros r. split; [reflexivity|].
  assert (H1 : forall a, In a (Admins (rows empty_db)) ->
                         Admin.username a <> "admin") by (intros a []).
  assert (H2 : forall a, In a (Admins (rows empty_db)) ->
                         Admin.email a <> "admin@fitnessclub.com")
    by (intros a []).
  pose proof (@default_admin_is_created_and_authenticates
                empty_db [] noon H1 H2) as H.
  destruct H as (Ha & Hb & Hc).
  split; [exact Ha|]. split; [exact Hb|].
  split; [exact (Hc "admin123" [] noon)|exact (Hc "Admin123" [] noon)].
Defined.


(** ** The further properties at work *)

(** X3 on the studio: the operator types 9, which the member menu does not
    know, then 0. *)
Lemma member_menu_witness :
  let w := world studio ["9"; "0"] noon in
  let w0 := world studio [] noon in
  fst (@member_menu ascii_builtins w) = Ok tt /\
  In "0" (stdin w) /\
  @member_menu ascii_builtins w
  = @member_menu ascii_builtins
      (asked (member_menu_lines ++ [Line "Invalid choice."]) ["0"] w) /\
  @member_menu ascii_builtins w0
  = (Raise EOFError, printed member_menu_lines w0).
Proof.
  intros w w0.
  assert (Hok : fst (@member_menu ascii_builtins w) = Ok tt)
    by (vm_compute; reflexivity).
  pose proof (@member_menu_turns ascii_builtins w) as (_ & H2 & H3 & _).
  pose proof (@member_menu_turns ascii_builtins w0) as (H1 & _).
  split; [exact Hok|]. split; [exact (H2 Hok)|].
  split; [exact (H3 "9" ["0"] eq_refl eq_refl)|exact (H1 eq_refl)].
Defined.

(** X4 on the studio: the operator asks for the schedule of trainer 1,
    types 7, then 0. *)
Lemma trainer_menu_witness :
  let w := world studio ["1"; "1"; "7"; "0"] noon in
  let w1 := world studio ["7"; "0"] noon in
  fst (@trainer_menu ascii_builtins w) = Ok tt /\
  store (snd (@trainer_menu ascii_builtins w)) = studio /\
  sql (snd (@trainer_menu ascii_builtins w)) = [] /\
  In "0" (stdin w) /\
  @trainer_menu ascii_builtins w1
  = @trainer_menu ascii_builtins
      (asked (trainer_menu_lines ++ [Line "Invalid choice."]) ["0"] w1).
Proof.
  intros w w1.
  assert (Hok : fst (@trainer_menu ascii_builtins w) = Ok tt)
    by (vm_compute; reflexivity).
  pose proof (@trainer_menu_only_reads ascii_builtins w)
    as ((H1 & _ & H2) & H3 & _).
  pose proof (@trainer_menu_only_reads ascii_builtins w1) as (_ & _ & H4).
  split; [exact Hok|]. split; [exact H1|]. split; [exact H2|].
  split; [exact (H3 Hok)|exact (H4 "7" ["0"] eq_refl eq_refl)].
Defined.

(** X6 on the club, a store the operations built. *)
Lemma declared_constraints_witness :
  @reachable ascii_builtins club /\
  unique_keys (rows club) /\ references (rows club).
Proof.
  assert (H : @reachable ascii_builtins club).
  { unfold club. repeat apply reachable_after. apply reachable_empty. }
  split; [exact H|].
  exact (@declared_constraints_hold_in_every_reachable_store
           ascii_builtins club H).
Defined.

(** X7 on the club. *)
Lemma only_the_defaults_witness :
  @reachable ascii_builtins club /\
  FitnessGoals (rows club) = [] /\
  (Admins (rows club) = [] \/
   exists admin_id, Admins (rows club) = [default_admin admin_id]) /\
  (forall s, In s (PTSessions (rows club)) ->
             PTSession.status s = "scheduled").
Proof.
  assert (H : @reachable ascii_builtins club).
  { unfold club. repeat apply reachable_after. apply reachable_empty. }
  split; [exact H|].
  exact (@only_the_defaults_are_ever_stored ascii_builtins club H).
Defined.








(** X15 on the club once Ann has booked Tess for Wednesday and then for
    Tuesday: the schedule shows Tuesday's session first. *)
Lemma trainer_schedule_witness :
  let db := @after ascii_builtins BookPTSession
              ["1"; "1"; "2025-06-03 09:00"] noon
              (@after ascii_builtins BookPTSession
                 ["1"; "1"; "2025-06-04 09:00"] noon club) in
  let r := run (@view_trainer_schedule ascii_builtins) db ["1"; "2"] noon in
  @reachable ascii_builtins db /\
  stdout (snd r) = trainer_schedule (rows db) 1 /\
  stdin (snd r) = ["2"] /\
  map (fun x => PTSession.session_id (fst x)) (trainer_sessions (rows db) 1)
  = [2; 1] /\
  ascending (fun x => DateTime_key (PTSession.session_time (fst x)))
    (trainer_sessions (rows db) 1).
Proof.
  intros db r.
  assert (H : @reachable ascii_builtins db).
  { unfold db, club. repeat apply reachable_after. apply reachable_empty. }
  split; [exact H|].
  pose proof (@trainer_schedule_is_complete_and_in_order ascii_builtins db
                "1" ["2"] noon 1
                {| Trainer.trainer_id := 1; Trainer.name := "Tess";
                   Trainer.email := "tess@club.org";
                   Trainer.specialization := None |}
                H eq_refl eq_refl) as H'.
  cbv zeta in H'.
  destruct H' as (_ & Hout & Hin & _ & _ & Hasc & _).
  split; [exact Hout|]. split; [exact Hin|]. split; [reflexivity|exact Hasc].
Defined.

(** X16 on the studio: Ann books Tess for Tuesday at nine; Tess's schedule
    then has the session, under Ann's name. *)
Lemma a_booked_session_witness :
  let r := run (@book_pt_session ascii_builtins) studio
             ["1"; "1"; "2025-06-03 09:00"] noon in
  let r' := run (@view_trainer_schedule ascii_builtins) (store (snd r))
              ["1"] noon in
  stdout (snd r) = [Line "=== Book PT Session ==="; Line "Session booked."] /\
  In (SessionRow 1
        {| date := {| year := 2025; month := 6; day := 3 |}; hour := 9;
           minute := 0; second := 0; microsecond := 0 |} "Ann" "scheduled")
     (stdout (snd r')).
Proof.
  intros r r'.
  pose proof (@a_booked_session_shows_in_the_schedule ascii_builtins studio
                "1" "1" "2025-06-03 09:00" [] noon 1 1
                {| date := {| year := 2025; month := 6; day := 3 |};
                   hour := 9; minute := 0; second := 0; microsecond := 0 |}
                {| Member.member_id := 1; Member.name := "Ann";
                   Member.email := "ann@club.org";
                   Member.date_of_birth := None; Member.gender := None;
                   Member.phone := Some "555-0101" |}
                {| Trainer.trainer_id := 1; Trainer.name := "Tess";
                   Trainer.email := "tess@club.org";
                   Trainer.specialization := None |}
                eq_refl eq_refl eq_refl) as H.
  cbv zeta in H.
  destruct H as (_ & _ & _ & Hout & Hnext);
    [lia|lia|reflexivity|reflexivity|intros x []|].
  split; [exact Hout|].
  exact (proj2 (Hnext [] noon)).
Defined.

(** X17 on the club: the list of classes is the one of the store, "Yoga"
    with one place taken out of two. *)
Lemma available_classes_witness :
  let r := run view_available_classes club [] noon in
  @reachable ascii_builtins club /\
  fst r = Ok tt /\
  stdout (snd r) = available_classes (rows club) /\
  map (fun x => enrollment_count (rows club) (Class.class_id (fst (fst x))))
    (classes_with_room_and_trainer (rows club)) = [1].
Proof.
  intros r.
  assert (H : @reachable ascii_builtins club).
  { unfold club. repeat apply reachable_after. apply reachable_empty. }
  split; [exact H|].
  pose proof (@available_classes_are_listed_with_their_places ascii_builtins
                club [] noon H) as H'.
  cbv zeta in H'. destruct H' as (Hret & Hout & _).
  split; [exact Hret|]. split; [exact Hout|reflexivity].
Defined.



(** X20 on the studio: "%" and "_" both list the three members. *)
Lemma member_lookup_wildcards_witness :
  let all := [MemberRow 1 "Ann" "ann@club.org";
              MemberRow 2 "Bob" "bob@club.org";
              MemberRow 3 "Cy" "cy@club.org"] in
  (exists more,
     stdout (snd (run (@member_lookup ascii_builtins) studio ["%"; "1"]
                    noon))
     = Line "=== Member Lookup (Trainer) ===" :: all ++ more) /\
  (exists more,
     stdout (snd (run (@member_lookup ascii_builtins) studio ["_"; "1"]
                    noon))
     = Line "=== Member Lookup (Trainer) ===" :: all ++ more).
Proof.
  intros all.
  pose proof (@member_lookup_reads_wildcards ascii_builtins studio ["1"]
                noon) as H.
  cbv zeta in H. destruct H as [H1 H2]. split.
  - destruct H1 as [more Hmore]; [discriminate|].
    exists more. rewrite Hmore. reflexivity.
  - destruct H2 as [more Hmore]; [discriminate|].
    exists more. rewrite Hmore. reflexivity.
Defined.


(** X22 on the club, which has no administrator, and on the club after a
    first launch. *)
Lemma create_default_admin_witness :
  let first := run create_default_admin club [] noon in
  let launched := @after ascii_builtins CreateDefaultAdmin [] noon club in
  let second := run create_default_admin launched [] noon in
  @reachable ascii_builtins launched /\
  sql (snd first) = [INSERT TAdmin; COMMIT] /\
  Admins (rows launched) = [default_admin 1] /\
  snd second = world launched [] noon.
Proof.
  intros first launched second.
  assert (H : @reachable ascii_builtins club).
  { unfold club. repeat apply reachable_after. apply reachable_empty. }
  assert (H' : @reachable ascii_builtins launched).
  { unfold launched. apply reachable_after. exact H. }
  split; [exact H'|].
  pose proof (@create_default_admin_leaves_the_default_admin ascii_builtins
                club [] noon H) as H1.
  pose proof (@create_default_admin_leaves_the_default_admin ascii_builtins
                launched [] noon H') as H2.
  cbv zeta in H1, H2.
  destruct H1 as (_ & _ & _ & H1). destruct H2 as (_ & _ & H2 & _).
  destruct H1 as [H1 _]; [vm_compute; reflexivity|].
  split; [exact H1|]. split; [vm_compute; reflexivity|].
  apply H2. intros Hf. vm_compute in Hf. discriminate Hf.
Defined.

(** X23 on the studio: "abc" for a member. *)
Lemma a_non_numeric_identifier_witness :
  run (@book_pt_session ascii_builtins) studio ["abc"; "1"] noon
  = (Ok tt,
     {| store := studio; pending := []; stdin := ["1"];
        stdout := [Line "=== Book PT Session ===";
                   Line "Invalid member ID. Please enter a number."];
        sql := []; clock := noon |}) /\
  stdin (snd (run (@signup_for_class ascii_builtins) studio ["1"; "abc"; "0"]
                noon)) = ["0"].
Proof.
  pose proof (@a_non_numeric_identifier_is_answered ascii_builtins studio
                "abc" ["1"] noon eq_refl) as H1.
  pose proof (@a_non_numeric_identifier_is_answered ascii_builtins studio
                "abc" ["0"] noon eq_refl) as H2.
  destruct H1 as (H1 & _). destruct H2 as (_ & _ & _ & H2).
  split; [exact H1|].
  rewrite (H2 "1" 1 _ eq_refl eq_refl). reflexivity.
Defined.

(** X24 on the club: Bob registers and signs up for "Yoga", then a choice
    the menu does not have, then the end of the input. *)
Lemma the_member_menu_witness :
  let w := snd (run (@member_menu ascii_builtins) club
                  ["1"; "Bob"; "bob@club.org"; ""; ""; ""; "6"; "2"; "1";
                   "9"] noon) in
  well_formed club /\
  (well_formed (store w) /\ pending w = []) /\
  List.length (ClassEnrollments (rows (store w))) = 2%nat.
Proof.
  intros w.
  assert (H : @reachable ascii_builtins club).
  { unfold club. repeat apply reachable_after. apply reachable_empty. }
  assert (H' : well_formed club).
  { split; [exact (reachable_invariant H)|].
    split; [exact (reachable_unique_keys H)|exact (reachable_references H)]. }
  split; [exact H'|]. split; [|vm_compute; reflexivity].
  exact (@the_member_menu_keeps_the_store_in_order ascii_builtins club
           ["1"; "Bob"; "bob@club.org"; ""; ""; ""; "6"; "2"; "1"; "9"] noon
           H').
Defined.

(** X25 on the club once Bob has registered: the search for "an" lists
    Ann alone, and 2 typed next shows Bob. *)
Lemma member_lookup_shows_witness :
  let db := @after ascii_builtins RegisterMember
              ["Bob"; "bob@club.org"; ""; ""; ""] noon club in
  let r := run (@member_lookup ascii_builtins) db ["an"; "2"] noon in
  @reachable ascii_builtins db /\
  fst r = Ok tt /\
  stdout (snd r)
  = [Line "=== Member Lookup (Trainer) ===";
     MemberRow 1 "Ann" "ann@club.org"; Line "-- Latest Metric --";
     Line "No metrics recorded."; Line "-- Goals --";
     Line "No goals defined."].
Proof.
  intros db r.
  assert (H : @reachable ascii_builtins db).
  { unfold db, club. repeat apply reachable_after. apply reachable_empty. }
  split; [exact H|].
  pose proof (@member_lookup_shows_the_member_typed ascii_builtins db "an"
                "2" [] noon H) as H'.
  cbv zeta in H'. destruct H' as (_ & _ & H').
  - intros Hf. vm_compute in Hf. discriminate Hf.
  - assert (Hm : get_Member (rows db) 2
                 = Some {| Member.member_id := 2; Member.name := "Bob";
                           Member.email := "bob@club.org";
                           Member.date_of_birth := None;
                           Member.gender := None; Member.phone := None |})
      by (vm_compute; reflexivity).
    destruct (H' 2 _ eq_refl Hm) as (Hret & _ & _ & Hout).
    fold r in Hret, Hout. split; [exact Hret|].
    rewrite Hout. vm_compute. reflexivity.
Defined.
